(** * Attendance tracker: the repository layer ([std_db.py]) and the HTTP
      handlers ([attendance_api.py]) as a state-and-exception program over a
      model of the two SQL tables.

    Conventions of the embedding.
    - Python values that reach the handlers in a JSON body are [pyval]:
      null, integers and strings (booleans, floats, arrays and nested
      objects are not represented).  Strings are strings of ASCII characters.
    - The handlers are modelled after start-up, when the global [system]
      holds an [AttendanceSystem]; routing and JSON decoding belong to Flask.
    - A repository call opens its own connection; the statements it runs act
      on the transaction's view of the tables and reach the committed tables
      at [commit].  Whether a connection can be opened is a fact of the
      world ([reachable]).
    - What a column does with a value that is not of its type is the
      server's business: it is an [Engine], of which only the behaviour on
      well-typed values is fixed.  [strict_engine] is one such server. *)

From stdpp Require Import gmap strings list fin_maps pretty.
From Stdlib Require Import ZArith Ascii.

Local Open Scope string_scope.
Local Open Scope list_scope.
Local Open Scope Z_scope.

(** ** Python values and exceptions *)

Inductive pyval :=
| PNone
| PInt (z : Z)
| PStr (s : string).

#[global] Instance pyval_eq_dec : EqDecision pyval.
Proof. solve_decision. Defined.

(** [datetime.date]: the three fields of a calendar date. *)
Record date := Date { year : Z; month : Z; day : Z }.

#[global] Instance date_eq_dec : EqDecision date.
Proof. solve_decision. Defined.

#[global] Instance date_countable : Countable date.
Proof.
  apply (inj_countable' (fun d => (year d, month d, day d))
                        (fun t => Date t.1.1 t.1.2 t.2)).
  by intros [].
Defined.

(** What went wrong inside the server when a statement is refused. *)
Inductive SqlError :=
| BadValue        (* a value the column does not take *)
| DuplicateEntry  (* primary key already present *)
| ForeignKey      (* foreign key constraint fails *)
| ConnectionClosed.

(** The texts of the [Exception(...)] objects raised by [std_db.py]. *)
Inductive ExcMsg :=
| FailedToConnect                      (* "Failed to connect to database" *)
| StudentIdRequired                    (* "Student ID is required" *)
| StudentExists (sid : Z)              (* "Student with ID .. already exists" *)
| StudentMissing (sid : Z)             (* "Student with ID .. not found" *)
| AlreadyMarked (sid : Z) (d : date)   (* "Attendance already marked for student .. on .." *)
| DatabaseError (e : SqlError).        (* "Database error: .." *)

(** Exceptions by class; every one of them is an [Exception]. *)
Inductive exn :=
| ValueError
| TypeError
| AttributeError
| MySQLError (e : SqlError)            (* pymysql.Error and its subclasses *)
| PyException (m : ExcMsg).            (* a plain Exception(text) *)

Definition is_ValueError (e : exn) : bool :=
  match e with ValueError => true | _ => false end.

Definition is_pymysql_Error (e : exn) : option SqlError :=
  match e with MySQLError s => Some s | _ => None end.

(** ** [int(x)] *)

Definition digit_val (c : ascii) : option Z :=
  let n := Z.of_N (N_of_ascii c) in
  if (48 <=? n) && (n <=? 57) then Some (n - 48) else None.

(** The ASCII characters [str.strip] removes. *)
Definition is_space (c : ascii) : bool :=
  let n := Z.of_N (N_of_ascii c) in
  ((9 <=? n) && (n <=? 13)) || ((28 <=? n) && (n <=? 32)).

Fixpoint lstrip (l : list ascii) : list ascii :=
  match l with
  | c :: r => if is_space c then lstrip r else l
  | [] => []
  end.

Definition strip (l : list ascii) : list ascii :=
  rev (lstrip (rev (lstrip l))).

(** Digits with single underscores between them; [acc] is the value so far
    and [prev_digit] tells whether the previous character was a digit. *)
Fixpoint int_digits (acc : Z) (prev_digit : bool) (l : list ascii) : option Z :=
  match l with
  | [] => if prev_digit then Some acc else None
  | c :: r =>
      match digit_val c with
      | Some v => int_digits (10 * acc + v) true r
      | None =>
          if Ascii.eqb c "_" && prev_digit
          then match r with
               | [] => None
               | _ => int_digits acc false r
               end
          else None
      end
  end.

Definition int_of_chars (l : list ascii) : option Z :=
  match strip l with
  | "-"%char :: r => Z.opp <$> int_digits 0 false r
  | "+"%char :: r => int_digits 0 false r
  | r => int_digits 0 false r
  end.

Definition py_int (v : pyval) : exn + Z :=
  match v with
  | PNone => inl TypeError
  | PInt z => inr z
  | PStr s =>
      match int_of_chars (String.list_ascii_of_string s) with
      | Some z => inr z
      | None => inl ValueError
      end
  end.

(** ** [datetime.strptime(s, '%Y-%m-%d').date()]

    [_strptime] compiles the format to the regular expression
    [(?P<Y>\d\d\d\d)-(?P<m>1[0-2]|0[1-9]|[1-9])-(?P<d>3[0-1]|[1-2]\d|0[1-9]|[1-9]| [1-9])],
    matches it at the start of the string, refuses text left over after the
    match, and builds the date, which checks the calendar.  The expression is
    run here as a backtracking matcher: a matcher returns its successes in
    the order the regular expression engine tries them. *)

Definition matcher (A : Type) := list ascii -> list (A * list ascii).

Definition m_ret {A} (a : A) : matcher A := fun l => [(a, l)].

Definition m_bind {A B} (p : matcher A) (k : A -> matcher B) : matcher B :=
  fun l => List.concat (List.map (fun ar => k (fst ar) (snd ar)) (p l)).

Definition m_alt {A} (p q : matcher A) : matcher A :=
  fun l => p l ++ q l.

(** One digit in the class [lo-hi]. *)
Definition m_digit (lo hi : Z) : matcher Z :=
  fun l =>
    match l with
    | c :: r =>
        match digit_val c with
        | Some v => if (lo <=? v) && (v <=? hi) then [(v, r)] else []
        | None => []
        end
    | [] => []
    end.

Definition m_char (c : ascii) : matcher unit :=
  fun l =>
    match l with
    | x :: r => if Ascii.eqb x c then [(tt, r)] else []
    | [] => []
    end.

Definition m_two (p q : matcher Z) : matcher Z :=
  m_bind p (fun a => m_bind q (fun b => m_ret (10 * a + b))).

Definition re_Y : matcher Z :=
  m_bind (m_digit 0 9) (fun a =>
  m_bind (m_digit 0 9) (fun b =>
  m_bind (m_digit 0 9) (fun c =>
  m_bind (m_digit 0 9) (fun d => m_ret (1000 * a + 100 * b + 10 * c + d))))).

Definition re_m : matcher Z :=
  m_alt (m_two (m_digit 1 1) (m_digit 0 2))
 (m_alt (m_two (m_digit 0 0) (m_digit 1 9))
        (m_digit 1 9)).

Definition re_d : matcher Z :=
  m_alt (m_two (m_digit 3 3) (m_digit 0 1))
 (m_alt (m_two (m_digit 1 2) (m_digit 0 9))
 (m_alt (m_two (m_digit 0 0) (m_digit 1 9))
 (m_alt (m_digit 1 9)
        (m_bind (m_char " ") (fun _ => m_digit 1 9))))).

Definition re_Ymd : matcher date :=
  m_bind re_Y (fun y =>
  m_bind (m_char "-") (fun _ =>
  m_bind re_m (fun m =>
  m_bind (m_char "-") (fun _ =>
  m_bind re_d (fun d => m_ret (Date y m d)))))).

Definition is_leap (y : Z) : bool :=
  ((y mod 4 =? 0) && negb (y mod 100 =? 0)) || (y mod 400 =? 0).

Definition days_in_month (y m : Z) : Z :=
  if m =? 2 then (if is_leap y then 29 else 28)
  else if (m =? 4) || (m =? 6) || (m =? 9) || (m =? 11) then 30
  else 31.

(** The checks of the [date(year, month, day)] constructor. *)
Definition date_ok (d : date) : bool :=
  (1 <=? year d) && (year d <=? 9999) &&
  (1 <=? month d) && (month d <=? 12) &&
  (1 <=? day d) && (day d <=? days_in_month (year d) (month d)).

Definition strptime_ymd (s : string) : exn + date :=
  match re_Ymd (String.list_ascii_of_string s) with
  | [] => inl ValueError                      (* does not match format *)
  | (d, rest) :: _ =>
      match rest with
      | _ :: _ => inl ValueError              (* unconverted data remains *)
      | [] => if date_ok d then inr d else inl ValueError
      end
  end.

(** The format as the interface documents it: four digits, a dash, two
    digits, a dash, two digits. *)
Definition is_YYYY_MM_DD (s : string) : bool :=
  match String.list_ascii_of_string s with
  | [y1; y2; y3; y4; s1; m1; m2; s2; d1; d2] =>
      forallb (fun c => bool_decide (is_Some (digit_val c)))
              [y1; y2; y3; y4; m1; m2; d1; d2]
      && Ascii.eqb s1 "-" && Ascii.eqb s2 "-"
  | _ => false
  end.

(** ** The tables

    [students(id INT PRIMARY KEY, name VARCHAR(100) NOT NULL,
              class VARCHAR(50) NOT NULL)] and
    [attendance(student_id INT NOT NULL, date DATE NOT NULL,
                status ENUM('Present','Absent') NOT NULL,
                FOREIGN KEY (student_id) REFERENCES students(id),
                PRIMARY KEY (student_id, date))]. *)

Record Db := mkDb {
  students : gmap Z (string * string);
  attendance : gmap (Z * date) string
}.

Definition empty_db : Db := mkDb ∅ ∅.

Definition int_range (z : Z) : bool :=
  (-2147483648 <=? z) && (z <=? 2147483647).

(** What the server stores when a statement assigns a value to a column, or
    [None] when it refuses the statement.  The fields after the three
    functions fix the behaviour on values of the column's own type. *)
Class Engine := {
  int_col : Z -> option Z;
  varchar_col : nat -> pyval -> option string;
  enum_col : pyval -> option string;
  int_col_in_range : forall z, int_range z = true -> int_col z = Some z;
  int_col_stored : forall z z', int_col z = Some z' -> int_range z' = true;
  varchar_col_fits : forall n s,
    (String.length s <= n)%nat -> varchar_col n (PStr s) = Some s;
  enum_col_Present : enum_col (PStr "Present") = Some "Present";
  enum_col_Absent : enum_col (PStr "Absent") = Some "Absent"
}.

(** The statements the repository sends, with their parameters. *)
Inductive Stmt :=
| SelectStudentId (sid : Z)
    (* SELECT id FROM students WHERE id = %s *)
| SelectStudent (sid : Z)
    (* SELECT id, name, class FROM students WHERE id=%s *)
| SelectStudents
    (* SELECT id, name, class FROM students *)
| InsertStudent (sid : Z) (new_name new_class : pyval)
    (* INSERT INTO students (id, name, class) VALUES (%s, %s, %s) *)
| UpdateStudent (new_name new_class : pyval) (sid : Z)
    (* UPDATE students SET name=%s, class=%s WHERE id=%s *)
| DeleteStudent (sid : Z)
    (* DELETE FROM students WHERE id=%s *)
| SelectAttendanceId (sid : Z) (d : date)
    (* SELECT student_id FROM attendance WHERE student_id = %s AND date = %s *)
| SelectAttendance (sid : Z) (d : date)
    (* SELECT * FROM attendance WHERE student_id=%s AND date=%s *)
| SelectAttendanceOf (sid : Z)
    (* SELECT student_id, date, status FROM attendance WHERE student_id=%s *)
| InsertAttendance (sid : Z) (d : date) (status : pyval)
    (* INSERT INTO attendance (student_id, date, status) VALUES (%s, %s, %s) *)
| UpdateAttendance (status : pyval) (sid : Z) (d : date)
    (* UPDATE attendance SET status=%s WHERE student_id=%s AND date=%s *)
| DeleteAttendance (sid : Z) (d : date)
    (* DELETE FROM attendance WHERE student_id=%s AND date=%s *)
| DeleteAttendanceOf (sid : Z)
    (* DELETE FROM attendance WHERE student_id=%s *)
| SelectJoined.
    (* SELECT s.id as student_id, s.name, s.class, a.date, a.status
       FROM attendance a JOIN students s ON a.student_id=s.id *)

Definition StudentRow : Type := Z * string * string.
Definition AttendanceRow : Type := Z * date * string.
Definition JoinedRow : Type := Z * string * string * date * string.

Definition attendance_of (sid : Z) (db : Db) : list AttendanceRow :=
  omap (fun kv => if decide (kv.1.1 = sid) then Some (kv.1.1, kv.1.2, kv.2) else None)
       (map_to_list (attendance db)).

Section Statements.
Context {E : Engine}.

Definition sem_select_student (sid : Z) (db : Db) : list StudentRow :=
  match students db !! sid with
  | Some nc => [(sid, nc.1, nc.2)]
  | None => []
  end.

Definition sem_select_students (db : Db) : list StudentRow :=
  (fun kv => (kv.1, kv.2.1, kv.2.2)) <$> map_to_list (students db).

Definition sem_insert_student (sid : Z) (name class : pyval) (db : Db)
  : SqlError + Db :=
  match int_col sid, varchar_col 100 name, varchar_col 50 class with
  | Some i, Some n, Some c =>
      match students db !! i with
      | Some _ => inl DuplicateEntry
      | None => inr (mkDb (<[i := (n, c)]> (students db)) (attendance db))
      end
  | _, _, _ => inl BadValue
  end.

Definition sem_update_student (name class : pyval) (sid : Z) (db : Db)
  : SqlError + Db :=
  match students db !! sid with
  | None => inr db
  | Some _ =>
      match varchar_col 100 name, varchar_col 50 class with
      | Some n, Some c =>
          inr (mkDb (<[sid := (n, c)]> (students db)) (attendance db))
      | _, _ => inl BadValue
      end
  end.

Definition sem_delete_student (sid : Z) (db : Db) : SqlError + Db :=
  match students db !! sid with
  | None => inr db
  | Some _ =>
      match attendance_of sid db with
      | _ :: _ => inl ForeignKey
      | [] => inr (mkDb (delete sid (students db)) (attendance db))
      end
  end.

Definition sem_select_attendance (sid : Z) (d : date) (db : Db)
  : list AttendanceRow :=
  match attendance db !! (sid, d) with
  | Some st => [(sid, d, st)]
  | None => []
  end.

Definition sem_insert_attendance (sid : Z) (d : date) (status : pyval)
    (db : Db) : SqlError + Db :=
  match int_col sid, enum_col status with
  | Some i, Some st =>
      match attendance db !! (i, d) with
      | Some _ => inl DuplicateEntry
      | None =>
          match students db !! i with
          | None => inl ForeignKey
          | Some _ => inr (mkDb (students db) (<[(i, d) := st]> (attendance db)))
          end
      end
  | _, _ => inl BadValue
  end.

Definition sem_update_attendance (status : pyval) (sid : Z) (d : date)
    (db : Db) : SqlError + Db :=
  match attendance db !! (sid, d) with
  | None => inr db
  | Some _ =>
      match enum_col status with
      | Some st => inr (mkDb (students db) (<[(sid, d) := st]> (attendance db)))
      | None => inl BadValue
      end
  end.

Definition sem_delete_attendance (sid : Z) (d : date) (db : Db) : Db :=
  mkDb (students db) (delete (sid, d) (attendance db)).

Definition sem_delete_attendance_of (sid : Z) (db : Db) : Db :=
  mkDb (students db)
       (filter (fun kv : (Z * date) * string => kv.1.1 ≠ sid) (attendance db)).

Definition sem_select_joined (db : Db) : list JoinedRow :=
  omap (fun kv : (Z * date) * string =>
          (fun nc : string * string => (kv.1.1, nc.1, nc.2, kv.1.2, kv.2))
            <$> students db !! kv.1.1)
       (map_to_list (attendance db)).

(** A statement run against the tables: the rows it returns and the
    tables it leaves, or the error of the server. *)
Inductive Rows :=
| NoRows
| StudentRows (l : list StudentRow)
| AttendanceRows (l : list AttendanceRow)
| JoinedRows (l : list JoinedRow).

Definition no_rows (r : SqlError + Db) : SqlError + (Rows * Db) :=
  match r with
  | inl e => inl e
  | inr db' => inr (NoRows, db')
  end.

Definition run_stmt (s : Stmt) (db : Db) : SqlError + (Rows * Db) :=
  match s with
  | SelectStudentId sid | SelectStudent sid =>
      inr (StudentRows (sem_select_student sid db), db)
  | SelectStudents => inr (StudentRows (sem_select_students db), db)
  | InsertStudent sid n c => no_rows (sem_insert_student sid n c db)
  | UpdateStudent n c sid => no_rows (sem_update_student n c sid db)
  | DeleteStudent sid => no_rows (sem_delete_student sid db)
  | SelectAttendanceId sid d | SelectAttendance sid d =>
      inr (AttendanceRows (sem_select_attendance sid d db), db)
  | SelectAttendanceOf sid => inr (AttendanceRows (attendance_of sid db), db)
  | InsertAttendance sid d st =>
      no_rows (sem_insert_attendance sid d st db)
  | UpdateAttendance st sid d =>
      no_rows (sem_update_attendance st sid d db)
  | DeleteAttendance sid d => inr (NoRows, sem_delete_attendance sid d db)
  | DeleteAttendanceOf sid => inr (NoRows, sem_delete_attendance_of sid db)
  | SelectJoined => inr (JoinedRows (sem_select_joined db), db)
  end.
End Statements.

Definition student_rows (r : Rows) : list StudentRow :=
  match r with StudentRows l => l | _ => [] end.

Definition attendance_rows (r : Rows) : list AttendanceRow :=
  match r with AttendanceRows l => l | _ => [] end.

Definition joined_rows (r : Rows) : list JoinedRow :=
  match r with JoinedRows l => l | _ => [] end.

(** ** The world of a request and the monad of the Python code *)

Inductive Event :=
| Connect (ok : bool)     (* pymysql.connect(..), and whether it succeeded *)
| Execute (s : Stmt)      (* cursor.execute(..) *)
| Commit                  (* conn.commit() *)
| Rollback                (* conn.rollback() *)
| Close.                  (* conn.close() *)

Record World := mkWorld {
  tables : Db;            (* the committed tables *)
  txn : option Db;        (* the tables as the open connection sees them *)
  reachable : bool;       (* can a connection be opened? *)
  log : list Event        (* what has been sent to the server, oldest first *)
}.

(** A computation either returns or raises, and changes the world. *)
Definition M (A : Type) : Type := World -> (exn + A) * World.

Definition ret {A} (a : A) : M A := fun w => (inr a, w).

Definition raise {A} (e : exn) : M A := fun w => (inl e, w).

Definition bind {A B} (m : M A) (k : A -> M B) : M B :=
  fun w =>
    match m w with
    | (inr a, w') => k a w'
    | (inl e, w') => (inl e, w')
    end.

Declare Scope py_scope.
Delimit Scope py_scope with py.
Notation "x <- m ;; k" := (bind m (fun x => k))
  (at level 20, m at level 99, k at level 200, only parsing) : py_scope.
Notation "'run' m ;; k" := (bind m (fun _ => k))
  (at level 20, m at level 99, k at level 200, only parsing) : py_scope.
Local Open Scope py_scope.

(** [try: body except <class> as err: handler]; [handler e] is [None] for an
    exception the clause does not catch. *)
Definition try_except {A} (body : M A) (handler : exn -> option (M A)) : M A :=
  fun w =>
    match body w with
    | (inr a, w') => (inr a, w')
    | (inl e, w') =>
        match handler e with
        | Some h => h w'
        | None => (inl e, w')
        end
    end.

(** [try: body finally: fin]. *)
Definition try_finally {A} (body : M A) (fin : M unit) : M A :=
  fun w =>
    match body w with
    | (r, w') =>
        match fin w' with
        | (inr _, w'') => (r, w'')
        | (inl e, w'') => (inl e, w'')
        end
    end.

Definition lift {A} (r : exn + A) : M A := fun w => (r, w).

Definition emit (e : Event) : M unit :=
  fun w => (inr tt, mkWorld (tables w) (txn w) (reachable w) (log w ++ [e])).

(** A connection object; there is one server, so it carries nothing. *)
Inductive Conn := TheConn.

Section Connection.
Context {E : Engine}.

(** [conn.cursor()]: [None] has no such attribute. *)
Definition cursor (conn : option Conn) : M unit :=
  match conn with
  | Some _ => ret tt
  | None => raise AttributeError
  end.

(** [cursor.execute(stmt, params)], returning the result set that
    [fetchone] and [fetchall] read. *)
Definition execute (s : Stmt) : M Rows :=
  run emit (Execute s) ;;
  fun w =>
    match txn w with
    | None => (inl (MySQLError ConnectionClosed), w)
    | Some view =>
        match run_stmt s view with
        | inl err => (inl (MySQLError err), w)
        | inr (rows, view') =>
            (inr rows, mkWorld (tables w) (Some view') (reachable w) (log w))
        end
    end.

Definition commit : M unit :=
  run emit Commit ;;
  fun w =>
    (inr tt, mkWorld (default (tables w) (txn w)) (txn w) (reachable w) (log w)).

Definition rollback : M unit :=
  run emit Rollback ;;
  fun w =>
    (inr tt, mkWorld (tables w) (Some (tables w)) (reachable w) (log w)).
End Connection.

Definition fetchone {A} (rows : list A) : option A := head rows.

(** ** [std_db.py] *)

(** [class Student]: whatever the caller put in the two attributes. *)
Record Student := mkStudent { name : pyval; student_class : pyval }.

Module AttendanceSystem.
Section Repository.
Context {E : Engine}.

(** A failed [pymysql.connect] is printed and turned into [None]. *)
Definition connect_db : M (option Conn) :=
  fun w =>
    if reachable w
    then (inr (Some TheConn),
          mkWorld (tables w) (Some (tables w)) (reachable w)
                  (log w ++ [Connect true]))
    else (inr None,
          mkWorld (tables w) (txn w) (reachable w) (log w ++ [Connect false])).

Definition disconnect_db (conn : option Conn) : M unit :=
  match conn with
  | Some _ =>
      run emit Close ;;
      fun w => (inr tt, mkWorld (tables w) None (reachable w) (log w))
  | None => ret tt
  end.

(** The [except pymysql.Error as err] clause of [add_student] and
    [mark_attendance]. *)
Definition except_pymysql_Error {A} (e : exn) : option (M A) :=
  match is_pymysql_Error e with
  | Some err => Some (run rollback ;; raise (PyException (DatabaseError err)))
  | None => None
  end.

Definition add_student (student : Student) (student_id : option Z) : M Z :=
  conn <- connect_db ;;
  match conn with
  | None => raise (PyException FailedToConnect)
  | Some _ =>
      try_finally
        (try_except
           (run cursor conn ;;
            match student_id with
            | None => raise (PyException StudentIdRequired)
            | Some sid =>
                rows <- execute (SelectStudentId sid) ;;
                match fetchone (student_rows rows) with
                | Some _ => raise (PyException (StudentExists sid))
                | None =>
                    run execute (InsertStudent sid (name student)
                                               (student_class student)) ;;
                    run commit ;;
                    ret sid
                end
            end)
           except_pymysql_Error)
        (disconnect_db conn)
  end.

Definition update_student (sid : Z) (new_data : Student) : M unit :=
  conn <- connect_db ;;
  run cursor conn ;;
  run execute (UpdateStudent (name new_data) (student_class new_data) sid) ;;
  run commit ;;
  disconnect_db conn.

Definition delete_student (sid : Z) : M unit :=
  conn <- connect_db ;;
  run cursor conn ;;
  run execute (DeleteAttendanceOf sid) ;;
  run execute (DeleteStudent sid) ;;
  run commit ;;
  disconnect_db conn.

Definition get_student (sid : Z) : M (option StudentRow) :=
  conn <- connect_db ;;
  match conn with
  | None => ret None
  | Some _ =>
      try_finally
        (try_except
           (run cursor conn ;;
            rows <- execute (SelectStudent sid) ;;
            ret (fetchone (student_rows rows)))
           (fun e => match is_pymysql_Error e with
                     | Some _ => Some (ret None)
                     | None => None
                     end))
        (disconnect_db conn)
  end.

Definition list_students : M (list StudentRow) :=
  conn <- connect_db ;;
  match conn with
  | None => ret []
  | Some _ =>
      try_finally
        (try_except
           (run cursor conn ;;
            rows <- execute SelectStudents ;;
            ret (student_rows rows))
           (fun e => match is_pymysql_Error e with
                     | Some _ => Some (ret [])
                     | None => None
                     end))
        (disconnect_db conn)
  end.

Definition mark_attendance (student_id : Z) (at_date : date) (status : pyval)
  : M (Z * date) :=
  conn <- connect_db ;;
  match conn with
  | None => raise (PyException FailedToConnect)
  | Some _ =>
      try_finally
        (try_except
           (run cursor conn ;;
            rows <- execute (SelectStudentId student_id) ;;
            match fetchone (student_rows rows) with
            | None => raise (PyException (StudentMissing student_id))
            | Some _ =>
                rows <- execute (SelectAttendanceId student_id at_date) ;;
                match fetchone (attendance_rows rows) with
                | Some _ =>
                    raise (PyException (AlreadyMarked student_id at_date))
                | None =>
                    run execute (InsertAttendance student_id at_date status) ;;
                    run commit ;;
                    ret (student_id, at_date)
                end
            end)
           except_pymysql_Error)
        (disconnect_db conn)
  end.

Definition update_attendance (student_id : Z) (at_date : date)
    (new_status : pyval) : M unit :=
  conn <- connect_db ;;
  run cursor conn ;;
  run execute (UpdateAttendance new_status student_id at_date) ;;
  run commit ;;
  disconnect_db conn.

Definition delete_attendance (student_id : Z) (at_date : date) : M unit :=
  conn <- connect_db ;;
  run cursor conn ;;
  run execute (DeleteAttendance student_id at_date) ;;
  run commit ;;
  disconnect_db conn.

Definition get_attendance (student_id : Z) (at_date : date)
  : M (option AttendanceRow) :=
  conn <- connect_db ;;
  run cursor conn ;;
  rows <- execute (SelectAttendance student_id at_date) ;;
  let row := fetchone (attendance_rows rows) in
  run disconnect_db conn ;;
  ret row.

Definition list_attendance_by_student (student_id : Z)
  : M (list AttendanceRow) :=
  conn <- connect_db ;;
  run cursor conn ;;
  rows <- execute (SelectAttendanceOf student_id) ;;
  run disconnect_db conn ;;
  ret (attendance_rows rows).

Definition list_all_attendance : M (list JoinedRow) :=
  conn <- connect_db ;;
  run cursor conn ;;
  rows <- execute SelectJoined ;;
  run disconnect_db conn ;;
  ret (joined_rows rows).
End Repository.
End AttendanceSystem.

(** ** [attendance_api.py] *)

(** The texts of the [error] member of a reply. *)
Inductive ErrText :=
| NoDataProvided                   (* 'No data provided' *)
| MissingField (f : string)        (* 'Missing required field: ..' *)
| IdNotInteger                     (* 'ID must be a valid integer' *)
| StatusNotAllowed                 (* 'Status must be either Present or Absent' *)
| StudentIdNotFound (sid : Z)      (* 'Student with ID .. not found' *)
| FailedToMark                     (* 'Failed to mark attendance' *)
| InvalidDataFormat (e : exn)      (* 'Invalid data format: ..' *)
| InvalidDateFormat                (* 'Invalid date format. Use YYYY-MM-DD' *)
| InternalServerError              (* 'Internal server error' *)
| StrOf (e : exn).                 (* str(e) *)

(** The texts of the [message] member of a reply. *)
Inductive MsgText :=
| StudentNotFound                  (* 'Student not found' *)
| StudentDeleted (sid : Z)         (* 'Student id=.. deleted' *)
| AttendanceNotFound               (* 'Attendance record not found' *)
| RecordNotFound                   (* 'Record not found' *)
| AttendanceDeleted (sid : Z) (d : string).

Inductive Body :=
| JError (t : ErrText)
| JMessage (t : MsgText)
| JStudent (sid : Z) (name class : string)
| JStudents (l : list StudentRow)
| JAttendance (sid : Z) (d : date) (status : string)
| JDayList (l : list (date * string))
| JJoined (l : list JoinedRow).

Definition Response : Type := Z * Body.

(** A decoded JSON body: nothing, or an object. *)
Definition Json : Type := option (gmap string pyval).

Module Api.
Section Handlers.
Context {E : Engine}.

(** [not data] holds of [None] and of the empty object. *)
Definition falsy (data : Json) : bool :=
  match data with
  | None => true
  | Some d => bool_decide (d = ∅)
  end.

(** The first of [fields] that is not a key of [data]. *)
Definition first_missing (fields : list string) (data : gmap string pyval)
  : option string :=
  head (filter (fun f => data !! f = None) fields).

(** [data[k]] once [k] is known to be a key, and [row[..]] on a row that
    may be [None]. *)
Definition item (data : gmap string pyval) (k : string) : pyval :=
  default PNone (data !! k).

Definition subscript {A} (row : option A) : M A :=
  match row with
  | Some r => ret r
  | None => raise TypeError
  end.

(** [data.get(k)]. *)
Definition dict_get (data : Json) (k : string) : M pyval :=
  match data with
  | Some d => ret (default PNone (d !! k))
  | None => raise AttributeError
  end.

(** [datetime.strptime(x, '%Y-%m-%d').date()] on a value of the body. *)
Definition strptime (x : pyval) : exn + date :=
  match x with
  | PStr s => strptime_ymd s
  | _ => inl TypeError
  end.

(** [status not in ['Present', 'Absent']]. *)
Definition status_allowed (status : pyval) : bool :=
  bool_decide (status = PStr "Present") || bool_decide (status = PStr "Absent").

Definition except_Exception (k : exn -> Response) (e : exn)
  : option (M Response) := Some (ret (k e)).

Definition except_ValueError (r : Response) (e : exn)
  : option (M Response) :=
  if is_ValueError e then Some (ret r) else None.

Definition student_json (row : StudentRow) : Body :=
  JStudent row.1.1 row.1.2 row.2.

Definition attendance_json (row : AttendanceRow) : Body :=
  JAttendance row.1.1 row.1.2 row.2.

(** GET /students *)
Definition list_students : M Response :=
  try_except
    (rows <- AttendanceSystem.list_students ;;
     ret (200, JStudents rows))
    (except_Exception (fun e => (500, JError (StrOf e)))).

(** POST /students *)
Definition create_student (data : Json) : M Response :=
  try_except
    (if falsy data then ret (400, JError NoDataProvided) else
     let data := default ∅ data in
     match first_missing ["id"; "name"; "class"] data with
     | Some field => ret (400, JError (MissingField field))
     | None =>
         parsed <-
           try_except
             (student_id <- lift (py_int (item data "id")) ;;
              ret (inr (student_id,
                        mkStudent (item data "name") (item data "class"))))
             (fun e => if is_ValueError e
                       then Some (ret (inl (400, JError IdNotInteger)))
                       else None) ;;
         match parsed with
         | inl reply => ret reply
         | inr (student_id, student) =>
             try_except
               (sid <- AttendanceSystem.add_student student (Some student_id) ;;
                row <- AttendanceSystem.get_student sid ;;
                row <- subscript row ;;
                ret (201, student_json row))
               (except_Exception (fun e => (400, JError (StrOf e))))
         end
     end)
    (except_Exception (fun e => (500, JError (StrOf e)))).

(** GET /students/<sid> *)
Definition read_student (sid : Z) : M Response :=
  try_except
    (row <- AttendanceSystem.get_student sid ;;
     match row with
     | None => ret (404, JMessage StudentNotFound)
     | Some row => ret (200, student_json row)
     end)
    (except_Exception (fun _ => (500, JError InternalServerError))).

(** PUT /students/<sid> *)
Definition update_student (sid : Z) (data : Json) : M Response :=
  try_except
    (existing <- AttendanceSystem.get_student sid ;;
     match existing with
     | None => ret (404, JMessage StudentNotFound)
     | Some _ =>
         new_name <- dict_get data "name" ;;
         new_class <- dict_get data "class" ;;
         run AttendanceSystem.update_student sid (mkStudent new_name new_class) ;;
         row <- AttendanceSystem.get_student sid ;;
         row <- subscript row ;;
         ret (200, student_json row)
     end)
    (except_Exception (fun e => (400, JError (StrOf e)))).

(** DELETE /students/<sid> *)
Definition delete_student (sid : Z) : M Response :=
  try_except
    (existing <- AttendanceSystem.get_student sid ;;
     match existing with
     | None => ret (404, JMessage StudentNotFound)
     | Some _ =>
         run AttendanceSystem.delete_student sid ;;
         ret (200, JMessage (StudentDeleted sid))
     end)
    (except_Exception (fun e => (500, JError (StrOf e)))).

(** GET /attendance *)
Definition list_all_attendance : M Response :=
  try_except
    (rows <- AttendanceSystem.list_all_attendance ;;
     ret (200, JJoined rows))
    (except_Exception (fun e => (500, JError (StrOf e)))).

(** POST /attendance *)
Definition mark_attendance (data : Json) : M Response :=
  try_except
    (if falsy data then ret (400, JError NoDataProvided) else
     let data := default ∅ data in
     match first_missing ["student_id"; "date"; "status"] data with
     | Some field => ret (400, JError (MissingField field))
     | None =>
         try_except
           (student_id <- lift (py_int (item data "student_id")) ;;
            at_date <- lift (strptime (item data "date")) ;;
            let status := item data "status" in
            if negb (status_allowed status)
            then ret (400, JError StatusNotAllowed)
            else
              student <- AttendanceSystem.get_student student_id ;;
              match student with
              | None => ret (404, JError (StudentIdNotFound student_id))
              | Some _ =>
                  (* what the call returns is a pair, which is never falsy:
                     the reply 500 'Failed to mark attendance' cannot occur *)
                  _result <- AttendanceSystem.mark_attendance
                               student_id at_date status ;;
                  row <- AttendanceSystem.get_attendance student_id at_date ;;
                  row <- subscript row ;;
                  ret (201, attendance_json row)
              end)
           (fun e => if is_ValueError e
                     then Some (ret (400, JError (InvalidDataFormat e)))
                     else Some (ret (400, JError (StrOf e))))
     end)
    (except_Exception (fun e => (500, JError (StrOf e)))).

(** GET /attendance/<student_id>/<date> *)
Definition get_attendance (student_id : Z) (date_text : string) : M Response :=
  try_except
    (at_date <- lift (strptime_ymd date_text) ;;
     row <- AttendanceSystem.get_attendance student_id at_date ;;
     match row with
     | None => ret (404, JMessage AttendanceNotFound)
     | Some row => ret (200, attendance_json row)
     end)
    (fun e => if is_ValueError e
              then Some (ret (400, JError InvalidDateFormat))
              else Some (ret (500, JError (StrOf e)))).

(** GET /attendance/student/<student_id> *)
Definition list_attendance_for_student (student_id : Z) : M Response :=
  try_except
    (rows <- AttendanceSystem.list_attendance_by_student student_id ;;
     ret (200, JDayList ((fun r : AttendanceRow => (r.1.2, r.2)) <$> rows)))
    (except_Exception (fun e => (500, JError (StrOf e)))).

(** PUT /attendance/<student_id>/<date> *)
Definition update_attendance (student_id : Z) (date_text : string)
    (data : Json) : M Response :=
  try_except
    (at_date <- lift (strptime_ymd date_text) ;;
     existing <- AttendanceSystem.get_attendance student_id at_date ;;
     match existing with
     | None => ret (404, JMessage RecordNotFound)
     | Some _ =>
         new_status <- dict_get data "status" ;;
         run AttendanceSystem.update_attendance student_id at_date new_status ;;
         row <- AttendanceSystem.get_attendance student_id at_date ;;
         row <- subscript row ;;
         ret (200, attendance_json row)
     end)
    (fun e => if is_ValueError e
              then Some (ret (400, JError InvalidDateFormat))
              else Some (ret (400, JError (StrOf e)))).

(** DELETE /attendance/<student_id>/<date> *)
Definition delete_attendance (student_id : Z) (date_text : string)
  : M Response :=
  try_except
    (at_date <- lift (strptime_ymd date_text) ;;
     existing <- AttendanceSystem.get_attendance student_id at_date ;;
     match existing with
     | None => ret (404, JMessage RecordNotFound)
     | Some _ =>
         run AttendanceSystem.delete_attendance student_id at_date ;;
         ret (200, JMessage (AttendanceDeleted student_id date_text))
     end)
    (fun e => if is_ValueError e
              then Some (ret (400, JError InvalidDateFormat))
              else Some (ret (500, JError (StrOf e)))).
End Handlers.
End Api.

(** The routes of the application, and a run of requests one after the
    other. *)
Inductive Request :=
| GET_students
| POST_students (data : Json)
| GET_student (sid : Z)
| PUT_student (sid : Z) (data : Json)
| DELETE_student (sid : Z)
| GET_attendance
| POST_attendance (data : Json)
| GET_attendance_day (student_id : Z) (date_text : string)
| GET_attendance_student (student_id : Z)
| PUT_attendance_day (student_id : Z) (date_text : string) (data : Json)
| DELETE_attendance_day (student_id : Z) (date_text : string).

Definition handle {E : Engine} (r : Request) : M Response :=
  match r with
  | GET_students => Api.list_students
  | POST_students data => Api.create_student data
  | GET_student sid => Api.read_student sid
  | PUT_student sid data => Api.update_student sid data
  | DELETE_student sid => Api.delete_student sid
  | GET_attendance => Api.list_all_attendance
  | POST_attendance data => Api.mark_attendance data
  | GET_attendance_day sid d => Api.get_attendance sid d
  | GET_attendance_student sid => Api.list_attendance_for_student sid
  | PUT_attendance_day sid d data => Api.update_attendance sid d data
  | DELETE_attendance_day sid d => Api.delete_attendance sid d
  end.

Fixpoint serve {E : Engine} (rs : list Request) (w : World) : World :=
  match rs with
  | [] => w
  | r :: rs => serve rs (snd (handle r w))
  end.

(** The two members of the ENUM, as the interface names them. *)
Inductive Status := Present | Absent.

Definition status_text (s : Status) : string :=
  match s with Present => "Present" | Absent => "Absent" end.

(** What the schema guarantees of the committed tables: ids are INT values
    and every attendance row belongs to a student. *)
Definition wf_db (db : Db) : Prop :=
  (forall sid row, students db !! sid = Some row -> int_range sid = true) /\
  (forall sid d st, attendance db !! (sid, d) = Some st ->
                    is_Some (students db !! sid)).

(** The same of a world: of its committed tables and of the tables an open
    connection sees; and a computation that keeps it. *)
Definition wf_world (w : World) : Prop :=
  wf_db (tables w) /\ forall view, txn w = Some view -> wf_db view.

Definition keeps_wf {A} (m : M A) : Prop :=
  forall w, wf_world w -> wf_world (snd (m w)).

Definition student_at (db : Db) (sid : Z) : option StudentRow :=
  (fun nc : string * string => (sid, nc.1, nc.2)) <$> students db !! sid.

Definition attendance_at (db : Db) (sid : Z) (d : date) : option AttendanceRow :=
  (fun st : string => (sid, d, st)) <$> attendance db !! (sid, d).

(** A world with the given tables, reachable and with nothing logged, and
    a JSON object given by its members. *)
Definition world_of (db : Db) : World := mkWorld db None true [].

Definition body_of (l : list (string * pyval)) : Json := Some (list_to_map l).

(** ** A server in strict SQL mode

    Out-of-range integers, over-long strings (unless only spaces are cut
    off), NULL in a NOT NULL column and values that name no member of the
    ENUM are refused.  ENUM members are recognised whatever their case, and
    by their index. *)

Definition lower (c : ascii) : ascii :=
  let n := N_of_ascii c in
  if ((65 <=? n) && (n <=? 90))%N then ascii_of_N (n + 32) else c.

Definition lower_string (s : string) : string :=
  String.string_of_list_ascii (lower <$> String.list_ascii_of_string s).

Definition strict_int (z : Z) : option Z :=
  if int_range z then Some z else None.

Definition strict_varchar (n : nat) (v : pyval) : option string :=
  match v with
  | PNone => None
  | PInt z =>
      let s := pretty z in
      if bool_decide (String.length s <= n)%nat then Some s else None
  | PStr s =>
      if bool_decide (String.length s <= n)%nat then Some s
      else
        let l := String.list_ascii_of_string s in
        if forallb (fun c => Ascii.eqb c " ") (drop n l)
        then Some (String.string_of_list_ascii (take n l))
        else None
  end.

Definition strict_enum (v : pyval) : option string :=
  match v with
  | PNone => None
  | PInt z =>
      if z =? 1 then Some "Present" else if z =? 2 then Some "Absent" else None
  | PStr s =>
      if bool_decide (lower_string s = "present") || bool_decide (s = "1")
      then Some "Present"
      else if bool_decide (lower_string s = "absent") || bool_decide (s = "2")
      then Some "Absent"
      else None
  end.

Program Definition strict_engine : Engine := {|
  int_col := strict_int;
  varchar_col := strict_varchar;
  enum_col := strict_enum
|}.
Next Obligation. intros z Hz. unfold strict_int. by rewrite Hz. Qed.
Next Obligation.
  intros z z'. unfold strict_int. destruct (int_range z) eqn:Hz; congruence.
Qed.
Next Obligation.
  intros n s Hs. unfold strict_varchar. by rewrite bool_decide_eq_true_2.
Qed.
Next Obligation. reflexivity. Qed.
Next Obligation. reflexivity. Qed.

(** ** Notions used to state further properties *)

(** The codes a reply can carry, and a handler whose replies carry one of
    them. *)
Definition reply_codes : list Z := [200; 201; 400; 404; 500].

Definition replies_known (m : M Response) : Prop :=
  forall w reply, fst (m w) = inr reply -> reply.1 ∈ reply_codes.

(** The method of a route, and whether it lies under /students. *)
Inductive Method := GET | POST | PUT | DELETE.

Definition method (r : Request) : Method :=
  match r with
  | GET_students | GET_student _ | GET_attendance | GET_attendance_day _ _
  | GET_attendance_student _ => GET
  | POST_students _ | POST_attendance _ => POST
  | PUT_student _ _ | PUT_attendance_day _ _ _ => PUT
  | DELETE_student _ | DELETE_attendance_day _ _ => DELETE
  end.

Definition under_students (r : Request) : bool :=
  match r with
  | GET_students | POST_students _ | GET_student _ | PUT_student _ _
  | DELETE_student _ => true
  | _ => false
  end.

(** The tables a statement writes to. *)
Definition writes_students (s : Stmt) : bool :=
  match s with
  | InsertStudent _ _ _ | UpdateStudent _ _ _ | DeleteStudent _ => true
  | _ => false
  end.

Definition writes_attendance (s : Stmt) : bool :=
  match s with
  | InsertAttendance _ _ _ | UpdateAttendance _ _ _ | DeleteAttendance _ _
  | DeleteAttendanceOf _ => true
  | _ => false
  end.

(** A computation all of whose runs relate the world before to the world
    after. *)
Definition respects (R : relation World) {A} (m : M A) : Prop :=
  forall w, R w (snd (m w)).

(** The committed tables are the same. *)
Definition same_tables : relation World :=
  fun w w' => tables w' = tables w.

(** An open connection sees the committed tables: nothing is pending. *)
Definition nothing_pending (w : World) : Prop :=
  forall view, txn w = Some view -> view = tables w.

(** An open connection sees the committed students (respectively
    attendance) table, and that table stays as it is. *)
Definition students_kept : relation World :=
  fun w w' =>
    (forall view, txn w = Some view -> students view = students (tables w)) ->
    (forall view, txn w' = Some view -> students view = students (tables w')) /\
    students (tables w') = students (tables w).

Definition attendance_kept : relation World :=
  fun w w' =>
    (forall view, txn w = Some view -> attendance view = attendance (tables w)) ->
    (forall view, txn w' = Some view ->
                  attendance view = attendance (tables w')) /\
    attendance (tables w') = attendance (tables w).

(** Nothing is pending after, if nothing was pending before. *)
Definition pending_kept : relation World :=
  fun w w' => nothing_pending w -> nothing_pending w'.

(** [str(d)] of a [datetime.date], as the replies print it: [isoformat],
    that is ['%04d-%02d-%02d'] of year, month and day. *)
Definition digit_char (n : Z) : ascii := ascii_of_N (Z.to_N (48 + n)).

Definition two_digits (n : Z) : list ascii :=
  [digit_char (n / 10); digit_char (n mod 10)].

Definition date_str (d : date) : string :=
  String.string_of_list_ascii
    (digit_char (year d / 1000) :: digit_char (year d / 100 mod 10) ::
     two_digits (year d mod 100) ++
     "-"%char :: two_digits (month d) ++ "-"%char :: two_digits (day d)).

(** ** Start-up: [create_database], [create_tables] and
       [modify_students_table] of [std_db.py], [init_system] of
       [attendance_api.py]

    Here the server is seen from outside the two tables: whether the
    database [attendance_db] exists, and whether each table exists and with
    which rows.  Data definition statements take effect at once (the server
    commits them implicitly), so [commit] and [rollback] leave no mark.  Each
    attempt to connect finds the server or not ([answers], by the number of
    the attempt); connecting with [database='attendance_db'], as
    [connect_db] does, also needs the database to exist. *)

Record Server := mkServer {
  has_database : bool;
  students_table : option (gmap Z (string * string));
  attendance_table : option (gmap (Z * date) string)
}.

Inductive Ddl :=
| CreateDatabaseIfNotExists   (* CREATE DATABASE IF NOT EXISTS attendance_db; *)
| CreateStudentsIfNotExists   (* CREATE TABLE IF NOT EXISTS students (..) *)
| CreateAttendanceIfNotExists (* CREATE TABLE IF NOT EXISTS attendance (..) *)
| DropAttendanceIfExists      (* DROP TABLE IF EXISTS attendance *)
| DropStudentsIfExists        (* DROP TABLE IF EXISTS students *)
| CreateStudents              (* CREATE TABLE students (..) *)
| CreateAttendance.           (* CREATE TABLE attendance (..) *)

(** A statement on the server, or [None] when the server refuses it: a table
    that exists cannot be created again, [attendance] refers to [students]
    and so needs it, and [students] cannot be dropped while [attendance]
    refers to it. *)
Definition run_ddl (s : Ddl) (sv : Server) : option Server :=
  match s with
  | CreateDatabaseIfNotExists =>
      Some (mkServer true (students_table sv) (attendance_table sv))
  | CreateStudentsIfNotExists =>
      Some (mkServer (has_database sv)
                     (Some (default ∅ (students_table sv)))
                     (attendance_table sv))
  | CreateAttendanceIfNotExists =>
      match attendance_table sv, students_table sv with
      | Some _, _ => Some sv
      | None, Some _ =>
          Some (mkServer (has_database sv) (students_table sv) (Some ∅))
      | None, None => None
      end
  | DropAttendanceIfExists =>
      Some (mkServer (has_database sv) (students_table sv) None)
  | DropStudentsIfExists =>
      match students_table sv, attendance_table sv with
      | Some _, Some _ => None
      | _, _ => Some (mkServer (has_database sv) None (attendance_table sv))
      end
  | CreateStudents =>
      match students_table sv with
      | Some _ => None
      | None => Some (mkServer (has_database sv) (Some ∅) (attendance_table sv))
      end
  | CreateAttendance =>
      match attendance_table sv, students_table sv with
      | None, Some _ =>
          Some (mkServer (has_database sv) (students_table sv) (Some ∅))
      | _, _ => None
      end
  end.

Record Boot := mkBoot {
  server : Server;
  answers : nat -> bool;   (* does the n-th attempt to connect find the server? *)
  attempts : nat;          (* attempts to connect made so far *)
  slept : nat;             (* seconds spent in [time.sleep] *)
  sent : list Ddl          (* statements sent, oldest first *)
}.

Module Startup.

(** [pymysql.connect(..)], without or with [database='attendance_db']. *)
Definition connect (with_database : bool) (b : Boot) : bool * Boot :=
  let ok := answers b (attempts b)
            && (negb with_database || has_database (server b)) in
  (ok, mkBoot (server b) (answers b) (S (attempts b)) (slept b) (sent b)).

(** [cursor.execute] of the statements of one [try] block, in order, up to
    the first one the server refuses; [None] tells that one was refused. *)
Fixpoint execute_all (l : list Ddl) (b : Boot) : option unit * Boot :=
  match l with
  | [] => (Some tt, b)
  | s :: l =>
      let b1 := mkBoot (server b) (answers b) (attempts b) (slept b)
                       (sent b ++ [s]) in
      match run_ddl s (server b) with
      | None => (None, b1)
      | Some sv =>
          execute_all l (mkBoot sv (answers b) (attempts b) (slept b)
                                (sent b ++ [s]))
      end
  end.

(** [AttendanceSystem.create_database]: a failure to connect is printed. *)
Definition create_database (b : Boot) : Boot :=
  let (ok, b1) := connect false b in
  if ok then snd (execute_all [CreateDatabaseIfNotExists] b1) else b1.

(** [AttendanceSystem.create_tables]. *)
Definition create_tables (b : Boot) : Boot :=
  let (conn, b1) := connect true b in
  if negb conn then b1
  else snd (execute_all [CreateStudentsIfNotExists;
                         CreateAttendanceIfNotExists] b1).

(** [AttendanceSystem.modify_students_table]. *)
Definition modify_students_table (b : Boot) : Boot :=
  let (conn, b1) := connect true b in
  if negb conn then b1
  else snd (execute_all [DropAttendanceIfExists; DropStudentsIfExists;
                         CreateStudents; CreateAttendance] b1).

(** How [init_system] ends: it returns the system, returns [None], or lets
    the [pymysql.Error] of the last attempt out. *)
Inductive Outcome := ReturnsSystem | ReturnsNone | Raises.

Definition sleep (seconds : nat) (b : Boot) : Boot :=
  mkBoot (server b) (answers b) (attempts b) (slept b + seconds) (sent b).

(** The rounds of [for attempt in range(max_retries)] that are left;
    [attempt] is [max_retries - remaining]. *)
Fixpoint init_rounds (max_retries remaining : nat) (b : Boot)
  : Outcome * Boot :=
  match remaining with
  | O => (ReturnsNone, b)
  | S rest =>
      let attempt := (max_retries - remaining)%nat in
      let (test_conn, b1) := connect false b in
      if test_conn then
        let (conn, b2) := connect true b1 in
        if conn then (ReturnsSystem, create_tables (create_database b2))
        else init_rounds max_retries rest b2
      else if (attempt <? max_retries - 1)%nat
           then init_rounds max_retries rest (sleep 2 b1)
           else (Raises, b1)
  end.

Definition init_system (max_retries : nat) (b : Boot) : Outcome * Boot :=
  init_rounds max_retries max_retries b.

End Startup.

(** A server on which nothing was ever created, and one set up for the
    given tables. *)
Definition fresh_server : Server := mkServer false None None.

Definition server_of (db : Db) : Server :=
  mkServer true (Some (students db)) (Some (attendance db)).

Definition boot_of (sv : Server) (answers : nat -> bool) : Boot :=
  mkBoot sv answers 0 0 [].

(** * Properties *)

(** ** [int] and [strptime] on sample texts *)

Example strptime_padded : strptime_ymd "2024-01-10" = inr (Date 2024 1 10).
Proof. reflexivity. Qed.
Example strptime_slashes : strptime_ymd "2024/01/01" = inl ValueError.
Proof. reflexivity. Qed.
Example strptime_words : strptime_ymd "not-a-date" = inl ValueError.
Proof. reflexivity. Qed.
Example strptime_feb30 : strptime_ymd "2023-02-29" = inl ValueError.
Proof. reflexivity. Qed.
Example strptime_trailing : strptime_ymd "2024-01-101" = inl ValueError.
Proof. reflexivity. Qed.
Example py_int_str : py_int (PStr " +1_000 ") = inr 1000.
Proof. reflexivity. Qed.
Example py_int_bad : py_int (PStr "12a") = inl ValueError.
Proof. reflexivity. Qed.


(** ** The tables *)

Lemma elem_of_attendance_of (db : Db) (sid : Z) (r : AttendanceRow) :
  r ∈ attendance_of sid db <->
  r.1.1 = sid /\ attendance db !! (r.1.1, r.1.2) = Some r.2.
Proof.
  unfold attendance_of. rewrite list_elem_of_omap. split.
  - intros [[[s d] st] [Hin Hf]]. simpl in Hf.
    apply elem_of_map_to_list in Hin.
    destruct (decide (s = sid)) as [->|]; [|discriminate].
    by inversion Hf; subst.
  - destruct r as [[s d] st]; simpl. intros [-> Hl].
    exists ((sid, d), st). split; [by apply elem_of_map_to_list|].
    simpl. by rewrite decide_True.
Qed.

Lemma attendance_of_nil (db : Db) (sid : Z) :
  attendance_of sid db = [] <-> forall d, attendance db !! (sid, d) = None.
Proof.
  split.
  - intros Hnil d. destruct (attendance db !! (sid, d)) as [st|] eqn:Hl; [|done].
    assert (Hin : (sid, d, st) ∈ attendance_of sid db)
      by (by apply elem_of_attendance_of).
    rewrite Hnil in Hin. by apply not_elem_of_nil in Hin.
  - intros Hnone. destruct (attendance_of sid db) as [|r l] eqn:Hl; [done|].
    assert (Hin : r ∈ attendance_of sid db) by (rewrite Hl; left).
    apply elem_of_attendance_of in Hin as [Hs Hr].
    rewrite Hs, Hnone in Hr. discriminate.
Qed.

Lemma delete_attendance_of_lookup (db : Db) (sid s : Z) (d : date) :
  attendance (sem_delete_attendance_of sid db) !! (s, d) =
  if decide (s = sid) then None else attendance db !! (s, d).
Proof.
  unfold sem_delete_attendance_of; simpl.
  destruct (decide (s = sid)) as [->|Hne].
  - apply map_lookup_filter_None. right. intros st _ Hk. by apply Hk.
  - destruct (attendance db !! (s, d)) as [st|] eqn:Hl.
    + apply map_lookup_filter_Some. by split.
    + apply map_lookup_filter_None. by left.
Qed.

Lemma attendance_of_deleted (db : Db) (sid : Z) :
  attendance_of sid (sem_delete_attendance_of sid db) = [].
Proof.
  apply attendance_of_nil. intros d.
  rewrite delete_attendance_of_lookup. by rewrite decide_True.
Qed.

Section Invariant.
Context {E : Engine}.

(** Every statement the server accepts keeps the tables well formed. *)
Lemma run_stmt_wf (s : Stmt) (db db' : Db) (rows : Rows) :
  wf_db db -> run_stmt s db = inr (rows, db') -> wf_db db'.
Proof.
  intros [Hid Hfk] Hrun.
  destruct s as [sid|sid| |sid n c|n c sid|sid|sid d|sid d|sid
                |sid d status|status sid d|sid d|sid| ];
    simpl in Hrun; try (inversion Hrun; subst; by split).
  - (* INSERT INTO students *)
    unfold sem_insert_student in Hrun.
    destruct (int_col sid) as [i|] eqn:Hi; [|done].
    destruct (varchar_col 100 n) as [n'|]; [|done].
    destruct (varchar_col 50 c) as [c'|]; [|done].
    destruct (students db !! i) eqn:Hl; [done|].
    inversion Hrun; subst; clear Hrun. split; simpl.
    + intros k row [[<- _]|[_ Hk]]%lookup_insert_Some;
        eauto using int_col_stored.
    + intros k d st Hk. destruct (decide (i = k)) as [->|Hne].
      * rewrite lookup_insert_eq. eauto.
      * rewrite lookup_insert_ne by done. eauto.
  - (* UPDATE students *)
    unfold sem_update_student in Hrun.
    destruct (students db !! sid) eqn:Hl; [|inversion Hrun; subst; by split].
    destruct (varchar_col 100 n) as [n'|]; [|done].
    destruct (varchar_col 50 c) as [c'|]; [|done].
    inversion Hrun; subst; clear Hrun. split; simpl.
    + intros k row [[<- _]|[_ Hk]]%lookup_insert_Some; eauto.
    + intros k d st Hk. destruct (decide (sid = k)) as [->|Hne].
      * rewrite lookup_insert_eq. eauto.
      * rewrite lookup_insert_ne by done. eauto.
  - (* DELETE FROM students *)
    unfold sem_delete_student in Hrun.
    destruct (students db !! sid) eqn:Hl; [|inversion Hrun; subst; by split].
    destruct (attendance_of sid db) eqn:Hrefs; [|done].
    inversion Hrun; subst; clear Hrun. split; simpl.
    + intros k row [_ Hk]%lookup_delete_Some. eauto.
    + intros k d st Hk. destruct (decide (sid = k)) as [->|Hne].
      * apply attendance_of_nil with (d := d) in Hrefs. congruence.
      * rewrite lookup_delete_ne by done. eauto.
  - (* INSERT INTO attendance *)
    unfold sem_insert_attendance in Hrun.
    destruct (int_col sid) as [i|]; [|done].
    destruct (enum_col status) as [st|]; [|done].
    destruct (attendance db !! (i, d)); [done|].
    destruct (students db !! i) eqn:Hl; [|done].
    inversion Hrun; subst; clear Hrun. split; simpl; [done|].
    intros k d' st' [[Heq _]|[_ Hk]]%lookup_insert_Some; [|eauto].
    inversion Heq; subst. eauto.
  - (* UPDATE attendance *)
    unfold sem_update_attendance in Hrun.
    destruct (attendance db !! (sid, d)) eqn:Hl;
      [|inversion Hrun; subst; by split].
    destruct (enum_col status) as [st|]; [|done].
    inversion Hrun; subst; clear Hrun. split; simpl; [done|].
    intros k d' st' [[Heq _]|[_ Hk]]%lookup_insert_Some; [|eauto].
    inversion Heq; subst. eauto.
  - (* DELETE FROM attendance, one day *)
    inversion Hrun; subst; clear Hrun. split; simpl; [done|].
    intros k d' st' [_ Hk]%lookup_delete_Some. eauto.
  - (* DELETE FROM attendance, one student *)
    inversion Hrun; subst; clear Hrun. split; [done|].
    intros k d' st'. rewrite delete_attendance_of_lookup.
    destruct (decide (k = sid)); [done|]. simpl. eauto.
Qed.
End Invariant.

(** ** The repository, call by call

    Each lemma gives the value a call returns (or the exception it raises)
    together with the world it leaves. *)

Ltac unfold_py :=
  unfold AttendanceSystem.connect_db, AttendanceSystem.disconnect_db,
    AttendanceSystem.except_pymysql_Error, try_finally, try_except, cursor,
    execute, commit, rollback, emit, lift, bind, ret, raise.

Ltac tidy_log := simpl; rewrite <- ?app_assoc; simpl.

Section Repository.
Context {E : Engine}.
Import AttendanceSystem.

Lemma fetchone_select_student (db : Db) (sid : Z) :
  fetchone (sem_select_student sid db) = student_at db sid.
Proof.
  unfold sem_select_student, student_at. by destruct (students db !! sid).
Qed.

Lemma fetchone_select_attendance (db : Db) (sid : Z) (d : date) :
  fetchone (sem_select_attendance sid d db) = attendance_at db sid d.
Proof.
  unfold sem_select_attendance, attendance_at.
  by destruct (attendance db !! (sid, d)).
Qed.

Lemma get_student_up (w : World) (sid : Z) :
  reachable w = true ->
  get_student sid w =
    (inr (student_at (tables w) sid),
     mkWorld (tables w) None true
             (log w ++ [Connect true; Execute (SelectStudent sid); Close])).
Proof.
  intros Hr. destruct w as [tb tx up lg]; simpl in *; subst.
  unfold get_student; unfold_py; simpl. tidy_log.
  by rewrite fetchone_select_student.
Qed.

Lemma get_student_down (w : World) (sid : Z) :
  reachable w = false ->
  get_student sid w =
    (inr None,
     mkWorld (tables w) (txn w) false (log w ++ [Connect false])).
Proof.
  intros Hr. destruct w as [tb tx up lg]; simpl in *; subst.
  by unfold get_student; unfold_py; simpl.
Qed.

Lemma list_students_up (w : World) :
  reachable w = true ->
  list_students w =
    (inr (sem_select_students (tables w)),
     mkWorld (tables w) None true
             (log w ++ [Connect true; Execute SelectStudents; Close])).
Proof.
  intros Hr. destruct w as [tb tx up lg]; simpl in *; subst.
  unfold list_students; unfold_py; simpl. by tidy_log.
Qed.

Lemma list_students_down (w : World) :
  reachable w = false ->
  list_students w =
    (inr [], mkWorld (tables w) (txn w) false (log w ++ [Connect false])).
Proof.
  intros Hr. destruct w as [tb tx up lg]; simpl in *; subst.
  by unfold list_students; unfold_py; simpl.
Qed.

Lemma get_attendance_up (w : World) (sid : Z) (d : date) :
  reachable w = true ->
  get_attendance sid d w =
    (inr (attendance_at (tables w) sid d),
     mkWorld (tables w) None true
             (log w ++ [Connect true; Execute (SelectAttendance sid d); Close])).
Proof.
  intros Hr. destruct w as [tb tx up lg]; simpl in *; subst.
  unfold get_attendance; unfold_py; simpl. tidy_log.
  by rewrite fetchone_select_attendance.
Qed.

Lemma list_attendance_by_student_up (w : World) (sid : Z) :
  reachable w = true ->
  list_attendance_by_student sid w =
    (inr (attendance_of sid (tables w)),
     mkWorld (tables w) None true
             (log w ++ [Connect true; Execute (SelectAttendanceOf sid); Close])).
Proof.
  intros Hr. destruct w as [tb tx up lg]; simpl in *; subst.
  unfold list_attendance_by_student; unfold_py; simpl. by tidy_log.
Qed.

Lemma add_student_fresh (w : World) (sid : Z) (student : Student)
    (n c : string) :
  reachable w = true ->
  students (tables w) !! sid = None ->
  int_col sid = Some sid ->
  varchar_col 100 (name student) = Some n ->
  varchar_col 50 (student_class student) = Some c ->
  add_student student (Some sid) w =
    (inr sid,
     mkWorld (mkDb (<[sid := (n, c)]> (students (tables w)))
                   (attendance (tables w)))
             None true
             (log w ++ [Connect true; Execute (SelectStudentId sid);
                        Execute (InsertStudent sid (name student)
                                               (student_class student));
                        Commit; Close])).
Proof.
  intros Hr Hfresh Hi Hn Hc. destruct w as [tb tx up lg]; simpl in *; subst.
  unfold add_student; unfold_py; simpl.
  unfold sem_select_student, sem_insert_student.
  rewrite Hfresh; simpl. rewrite Hi, Hn, Hc, Hfresh; simpl. by tidy_log.
Qed.

Lemma add_student_taken (w : World) (sid : Z) (student : Student)
    (row : string * string) :
  reachable w = true ->
  students (tables w) !! sid = Some row ->
  add_student student (Some sid) w =
    (inl (PyException (StudentExists sid)),
     mkWorld (tables w) None true
             (log w ++ [Connect true; Execute (SelectStudentId sid); Close])).
Proof.
  intros Hr Hrow. destruct w as [tb tx up lg]; simpl in *; subst.
  unfold add_student; unfold_py; simpl.
  unfold sem_select_student. rewrite Hrow; simpl. by tidy_log.
Qed.

Lemma mark_attendance_no_student (w : World) (sid : Z) (d : date)
    (status : pyval) :
  reachable w = true ->
  students (tables w) !! sid = None ->
  mark_attendance sid d status w =
    (inl (PyException (StudentMissing sid)),
     mkWorld (tables w) None true
             (log w ++ [Connect true; Execute (SelectStudentId sid); Close])).
Proof.
  intros Hr Hnone. destruct w as [tb tx up lg]; simpl in *; subst.
  unfold mark_attendance; unfold_py; simpl.
  unfold sem_select_student. rewrite Hnone; simpl. by tidy_log.
Qed.

Lemma mark_attendance_taken (w : World) (sid : Z) (d : date)
    (status : pyval) (row : string * string) (st : string) :
  reachable w = true ->
  students (tables w) !! sid = Some row ->
  attendance (tables w) !! (sid, d) = Some st ->
  mark_attendance sid d status w =
    (inl (PyException (AlreadyMarked sid d)),
     mkWorld (tables w) None true
             (log w ++ [Connect true; Execute (SelectStudentId sid);
                        Execute (SelectAttendanceId sid d); Close])).
Proof.
  intros Hr Hrow Hst. destruct w as [tb tx up lg]; simpl in *; subst.
  unfold mark_attendance; unfold_py; simpl.
  unfold sem_select_student. rewrite Hrow; simpl.
  unfold sem_select_attendance. rewrite Hst; simpl. by tidy_log.
Qed.

Lemma mark_attendance_fresh (w : World) (sid : Z) (d : date)
    (status : pyval) (row : string * string) (st : string) :
  reachable w = true ->
  students (tables w) !! sid = Some row ->
  attendance (tables w) !! (sid, d) = None ->
  int_col sid = Some sid ->
  enum_col status = Some st ->
  mark_attendance sid d status w =
    (inr (sid, d),
     mkWorld (mkDb (students (tables w))
                   (<[(sid, d) := st]> (attendance (tables w))))
             None true
             (log w ++ [Connect true; Execute (SelectStudentId sid);
                        Execute (SelectAttendanceId sid d);
                        Execute (InsertAttendance sid d status);
                        Commit; Close])).
Proof.
  intros Hr Hrow Hnone Hi Hst. destruct w as [tb tx up lg]; simpl in *; subst.
  unfold mark_attendance; unfold_py; simpl.
  unfold sem_select_student. rewrite Hrow; simpl.
  unfold sem_select_attendance. rewrite Hnone; simpl.
  unfold sem_insert_attendance. rewrite Hi, Hst, Hnone, Hrow; simpl.
  by tidy_log.
Qed.

Lemma update_student_run (w : World) (sid : Z) (new_data : Student) :
  reachable w = true ->
  update_student sid new_data w =
    let stmt := UpdateStudent (name new_data) (student_class new_data) sid in
    match sem_update_student (name new_data) (student_class new_data) sid
                             (tables w) with
    | inr db' =>
        (inr tt,
         mkWorld db' None true
                 (log w ++ [Connect true; Execute stmt; Commit; Close]))
    | inl err =>
        (inl (MySQLError err),
         mkWorld (tables w) (Some (tables w)) true
                 (log w ++ [Connect true; Execute stmt]))
    end.
Proof.
  intros Hr. destruct w as [tb tx up lg]; simpl in *; subst.
  unfold update_student; unfold_py; simpl.
  destruct (sem_update_student _ _ _ _); simpl; by tidy_log.
Qed.

Lemma update_attendance_run (w : World) (sid : Z) (d : date)
    (new_status : pyval) :
  reachable w = true ->
  update_attendance sid d new_status w =
    let stmt := UpdateAttendance new_status sid d in
    match sem_update_attendance new_status sid d (tables w) with
    | inr db' =>
        (inr tt,
         mkWorld db' None true
                 (log w ++ [Connect true; Execute stmt; Commit; Close]))
    | inl err =>
        (inl (MySQLError err),
         mkWorld (tables w) (Some (tables w)) true
                 (log w ++ [Connect true; Execute stmt]))
    end.
Proof.
  intros Hr. destruct w as [tb tx up lg]; simpl in *; subst.
  unfold update_attendance; unfold_py; simpl.
  destruct (sem_update_attendance _ _ _ _); simpl; by tidy_log.
Qed.

Lemma delete_attendance_run (w : World) (sid : Z) (d : date) :
  reachable w = true ->
  delete_attendance sid d w =
    (inr tt,
     mkWorld (sem_delete_attendance sid d (tables w)) None true
             (log w ++ [Connect true; Execute (DeleteAttendance sid d);
                        Commit; Close])).
Proof.
  intros Hr. destruct w as [tb tx up lg]; simpl in *; subst.
  unfold delete_attendance; unfold_py; simpl. by tidy_log.
Qed.

Lemma delete_student_run (w : World) (sid : Z) :
  reachable w = true ->
  delete_student sid w =
    (inr tt,
     mkWorld (mkDb (delete sid (students (tables w)))
                   (attendance (sem_delete_attendance_of sid (tables w))))
             None true
             (log w ++ [Connect true; Execute (DeleteAttendanceOf sid);
                        Execute (DeleteStudent sid); Commit; Close])).
Proof.
  intros Hr. destruct w as [tb tx up lg]; simpl in *; subst.
  unfold delete_student; unfold_py; simpl.
  unfold sem_delete_student. rewrite attendance_of_deleted. simpl.
  destruct (students tb !! sid) eqn:Hrow; simpl; tidy_log; [done|].
  by rewrite delete_id.
Qed.
End Repository.

(** ** The handlers, request by request *)

Section Handlers.
Context {E : Engine}.

Lemma falsy_object (d : gmap string pyval) (k : string) (v : pyval) :
  d !! k = Some v -> Api.falsy (Some d) = false.
Proof.
  intros Hk. unfold Api.falsy. apply bool_decide_eq_false_2.
  intros ->. by rewrite lookup_empty in Hk.
Qed.

Lemma first_missing_none (fields : list string) (d : gmap string pyval) :
  Forall (fun f => is_Some (d !! f)) fields ->
  Api.first_missing fields d = None.
Proof.
  unfold Api.first_missing. induction 1 as [|f fields [v Hf] _ IH]; [done|].
  rewrite filter_cons_False; [done|]. by rewrite Hf.
Qed.

Lemma item_lookup (d : gmap string pyval) (k : string) (v : pyval) :
  d !! k = Some v -> Api.item d k = v.
Proof. intros Hk. unfold Api.item. by rewrite Hk. Qed.

Lemma read_student_up (w : World) (sid : Z) :
  reachable w = true ->
  Api.read_student sid w =
    (inr match student_at (tables w) sid with
         | Some row => (200, Api.student_json row)
         | None => (404, JMessage StudentNotFound)
         end,
     mkWorld (tables w) None true
             (log w ++ [Connect true; Execute (SelectStudent sid); Close])).
Proof.
  intros Hr. unfold Api.read_student, Api.except_Exception; unfold_py.
  rewrite get_student_up by done.
  by destruct (student_at (tables w) sid).
Qed.

Lemma create_student_created (w : World) (d : gmap string pyval)
    (v new_name new_class : pyval) (sid : Z) (n c : string) :
  reachable w = true ->
  d !! "id" = Some v -> py_int v = inr sid ->
  d !! "name" = Some new_name -> d !! "class" = Some new_class ->
  students (tables w) !! sid = None ->
  int_col sid = Some sid ->
  varchar_col 100 new_name = Some n ->
  varchar_col 50 new_class = Some c ->
  Api.create_student (Some d) w =
    (inr (201, JStudent sid n c),
     mkWorld (mkDb (<[sid := (n, c)]> (students (tables w)))
                   (attendance (tables w)))
             None true
             (log w ++ [Connect true; Execute (SelectStudentId sid);
                        Execute (InsertStudent sid new_name new_class);
                        Commit; Close;
                        Connect true; Execute (SelectStudent sid); Close])).
Proof.
  intros Hr Hid Hint Hname Hclass Hfresh Hi Hn Hc.
  unfold Api.create_student. rewrite (falsy_object d "id" v) by done.
  simpl default. rewrite first_missing_none
    by (repeat constructor; eauto).
  rewrite !(item_lookup d _ _ Hid), !(item_lookup d _ _ Hname),
    !(item_lookup d _ _ Hclass), Hint.
  unfold Api.except_Exception, Api.subscript; unfold_py; simpl.
  rewrite (add_student_fresh w sid _ n c) by done.
  rewrite get_student_up by done. simpl.
  unfold student_at; simpl. rewrite lookup_insert_eq; simpl.
  by tidy_log.
Qed.
End Handlers.

(** ** The claims *)

(** Claim C4.  For every triple (id, name, class) that the [students] table
    can hold — an INT id, a name of at most 100 characters, a class of at
    most 50 — with the id not yet present, creating the student and then
    getting it returns exactly that triple; this holds of the repository
    calls [add_student] then [get_student] and of POST /students followed by
    GET /students/<id>. *)
Theorem create_then_get_same_triple {E : Engine} (w : World) (sid : Z)
    (new_name new_class : string) :
  reachable w = true ->
  students (tables w) !! sid = None ->
  int_range sid = true ->
  (String.length new_name <= 100)%nat ->
  (String.length new_class <= 50)%nat ->
  let created :=
    AttendanceSystem.add_student
      (mkStudent (PStr new_name) (PStr new_class)) (Some sid) w in
  fst created = inr sid /\
  fst (AttendanceSystem.get_student sid (snd created))
    = inr (Some (sid, new_name, new_class)) /\
  forall (d : gmap string pyval) (v : pyval),
    d !! "id" = Some v -> py_int v = inr sid ->
    d !! "name" = Some (PStr new_name) ->
    d !! "class" = Some (PStr new_class) ->
    let posted := Api.create_student (Some d) w in
    fst posted = inr (201, JStudent sid new_name new_class) /\
    fst (Api.read_student sid (snd posted))
      = inr (200, JStudent sid new_name new_class).
Proof.
  intros Hr Hfresh Hrange Hn Hc.
  pose proof (int_col_in_range sid Hrange) as Hi.
  pose proof (varchar_col_fits 100 new_name Hn) as Hvn.
  pose proof (varchar_col_fits 50 new_class Hc) as Hvc.
  cbv zeta. rewrite (add_student_fresh w sid _ new_name new_class) by done.
  cbn [fst snd]. split; [done|]. split.
  - rewrite get_student_up by done. cbn [fst tables students].
    unfold student_at; simpl. by rewrite lookup_insert_eq.
  - intros d v Hid Hint Hname Hclass.
    rewrite (create_student_created w d v _ _ sid new_name new_class) by done.
    cbn [fst snd]. split; [done|]. rewrite read_student_up by done.
    unfold student_at; simpl. by rewrite lookup_insert_eq.
Qed.

Lemma create_then_get_same_triple_witness :
  let ann := mkStudent (PStr "Ann") (PStr "5A") in
  let created :=
    AttendanceSystem.add_student (E := strict_engine) ann (Some 1)
                                 (world_of empty_db) in
  fst created = inr 1 /\
  fst (AttendanceSystem.get_student (E := strict_engine) 1 (snd created))
    = inr (Some (1, "Ann", "5A")).
Proof.
  intros ann created.
  destruct (create_then_get_same_triple (E := strict_engine)
              (world_of empty_db) 1 "Ann" "5A") as (Hadd & Hget & _).
  - reflexivity.
  - reflexivity.
  - reflexivity.
  - simpl. lia.
  - simpl. lia.
  - split; [exact Hadd | exact Hget].
Defined.

(** Claim C5.  When the id is already present in [students], creating a
    student fails whatever name and class are sent: [add_student] raises
    "Student with ID .. already exists", POST /students answers 400 with
    that text, and the tables are as they were. *)
Theorem create_existing_id_rejected {E : Engine} (w : World) (sid : Z)
    (row : string * string) (new_name new_class : pyval) :
  reachable w = true ->
  students (tables w) !! sid = Some row ->
  (let r := AttendanceSystem.add_student (mkStudent new_name new_class)
                                         (Some sid) w in
   fst r = inl (PyException (StudentExists sid)) /\ tables (snd r) = tables w) /\
  forall (d : gmap string pyval) (v : pyval),
    d !! "id" = Some v -> py_int v = inr sid ->
    d !! "name" = Some new_name -> d !! "class" = Some new_class ->
    let r := Api.create_student (Some d) w in
    fst r = inr (400, JError (StrOf (PyException (StudentExists sid)))) /\
    tables (snd r) = tables w.
Proof.
  intros Hr Hrow. split.
  - cbv zeta. by rewrite (add_student_taken w sid _ row).
  - intros d v Hid Hint Hname Hclass. cbv zeta.
    unfold Api.create_student. rewrite (falsy_object d "id" v) by done.
    simpl default. rewrite first_missing_none by (repeat constructor; eauto).
    rewrite !(item_lookup d _ _ Hid), !(item_lookup d _ _ Hname),
      !(item_lookup d _ _ Hclass), Hint.
    unfold Api.except_Exception; unfold_py; cbn [is_ValueError].
    by rewrite (add_student_taken w sid _ row).
Qed.

Lemma create_existing_id_rejected_witness :
  let w := world_of (mkDb {[ 1 := ("Ann", "5A") ]} ∅) in
  let r := Api.create_student (E := strict_engine)
             (body_of [("id", PInt 1); ("name", PStr "Bob"); ("class", PStr "6B")])
             w in
  fst r = inr (400, JError (StrOf (PyException (StudentExists 1)))) /\
  tables (snd r) = tables w.
Proof.
  intros w r.
  destruct (create_existing_id_rejected (E := strict_engine)
              w 1 ("Ann", "5A") (PStr "Bob") (PStr "6B")) as [_ Hapi].
  - reflexivity.
  - reflexivity.
  - apply (Hapi _ (PInt 1)); reflexivity.
Defined.

(** Claim C3.  When [student_id] is not in [students], marking attendance
    fails as not found for every date and status and inserts nothing: the
    repository call raises "Student with ID .. not found" and leaves the
    tables as they were, and POST /attendance, given a date it can parse and
    one of the two statuses, answers 404 (also when the store cannot be
    reached) with the tables as they were. *)
Theorem mark_unknown_student_not_found {E : Engine} (w : World) (sid : Z) :
  students (tables w) !! sid = None ->
  (reachable w = true ->
   forall (d : date) (status : pyval),
     let r := AttendanceSystem.mark_attendance sid d status w in
     fst r = inl (PyException (StudentMissing sid)) /\
     tables (snd r) = tables w) /\
  forall (data : gmap string pyval) (v : pyval) (s : string) (d : date)
         (st : Status),
    data !! "student_id" = Some v -> py_int v = inr sid ->
    data !! "date" = Some (PStr s) -> strptime_ymd s = inr d ->
    data !! "status" = Some (PStr (status_text st)) ->
    let r := Api.mark_attendance (Some data) w in
    fst r = inr (404, JError (StudentIdNotFound sid)) /\
    tables (snd r) = tables w.
Proof.
  intros Hnone. split.
  - intros Hr d status. cbv zeta.
    by rewrite (mark_attendance_no_student w sid d status).
  - intros data v s d st Hid Hint Hdate Hparse Hstatus. cbv zeta.
    unfold Api.mark_attendance. rewrite (falsy_object data "date" (PStr s)) by done.
    simpl default. rewrite first_missing_none by (repeat constructor; eauto).
    rewrite !(item_lookup data _ _ Hid), !(item_lookup data _ _ Hdate),
      !(item_lookup data _ _ Hstatus), Hint.
    unfold Api.strptime. rewrite Hparse.
    replace (Api.status_allowed (PStr (status_text st))) with true
      by (by destruct st).
    unfold Api.except_Exception; unfold_py; cbn [negb].
    destruct (reachable w) eqn:Hr.
    + rewrite get_student_up by done. unfold student_at. by rewrite Hnone.
    + by rewrite get_student_down by done.
Qed.

Lemma mark_unknown_student_not_found_witness :
  let w := world_of (mkDb {[ 1 := ("Ann", "5A") ]} ∅) in
  let r := Api.mark_attendance (E := strict_engine)
             (body_of [("student_id", PInt 2); ("date", PStr "2024-01-10");
                       ("status", PStr "Present")]) w in
  fst r = inr (404, JError (StudentIdNotFound 2)) /\ tables (snd r) = tables w.
Proof.
  intros w r.
  destruct (mark_unknown_student_not_found (E := strict_engine) w 2) as [_ Hapi].
  - reflexivity.
  - apply (Hapi _ (PInt 2) "2024-01-10" (Date 2024 1 10) Present); reflexivity.
Defined.

(** Claim C10.  When no connection can be opened, [get_student] returns
    [None] and [list_students] returns the empty list, without raising;
    these are the results they give on a reachable store where the student
    is absent, respectively where the table is empty, and GET
    /students/<id> answers 404 and GET /students answers 200 with an empty
    array, not 500. *)
Theorem unreachable_store_reads_as_absent {E : Engine} (w : World) (sid : Z) :
  reachable w = false ->
  fst (AttendanceSystem.get_student sid w) = inr None /\
  fst (AttendanceSystem.list_students w) = inr [] /\
  fst (Api.read_student sid w) = inr (404, JMessage StudentNotFound) /\
  fst (Api.list_students w) = inr (200, JStudents []) /\
  (forall w' : World,
     reachable w' = true -> students (tables w') !! sid = None ->
     fst (AttendanceSystem.get_student sid w')
       = fst (AttendanceSystem.get_student sid w) /\
     fst (Api.read_student sid w') = fst (Api.read_student sid w)) /\
  (forall w' : World,
     reachable w' = true -> students (tables w') = ∅ ->
     fst (AttendanceSystem.list_students w')
       = fst (AttendanceSystem.list_students w) /\
     fst (Api.list_students w') = fst (Api.list_students w)).
Proof.
  intros Hdown.
  assert (Hread : fst (Api.read_student sid w)
                  = inr (404, JMessage StudentNotFound)).
  { unfold Api.read_student, Api.except_Exception; unfold_py.
    by rewrite get_student_down by done. }
  assert (Hlist : fst (Api.list_students w) = inr (200, JStudents [])).
  { unfold Api.list_students, Api.except_Exception; unfold_py.
    by rewrite list_students_down by done. }
  rewrite Hread, Hlist, get_student_down, list_students_down by done.
  cbn [fst]. do 4 (split; [done|]). split.
  - intros w' Hup Habsent. split.
    + rewrite get_student_up by done. unfold student_at. by rewrite Habsent.
    + rewrite read_student_up by done. unfold student_at. by rewrite Habsent.
  - intros w' Hup Hempty. split.
    + rewrite list_students_up by done. unfold sem_select_students.
      by rewrite Hempty, map_to_list_empty.
    + unfold Api.list_students, Api.except_Exception; unfold_py.
      rewrite list_students_up by done. unfold sem_select_students.
      by rewrite Hempty, map_to_list_empty.
Qed.

Lemma unreachable_store_reads_as_absent_witness :
  let w := mkWorld (mkDb {[ 1 := ("Ann", "5A") ]} ∅) None false [] in
  fst (AttendanceSystem.get_student (E := strict_engine) 1 w) = inr None /\
  fst (Api.read_student (E := strict_engine) 1 w)
    = inr (404, JMessage StudentNotFound) /\
  fst (Api.list_students (E := strict_engine) w) = inr (200, JStudents []).
Proof.
  intros w.
  destruct (unreachable_store_reads_as_absent (E := strict_engine) w 1)
    as (Hget & _ & Hread & Hlist & _).
  - reflexivity.
  - split; [exact Hget | split; [exact Hread | exact Hlist]].
Defined.

Section Attendance.
Context {E : Engine}.

Lemma enum_col_status (st : Status) :
  enum_col (PStr (status_text st)) = Some (status_text st).
Proof. destruct st; [apply enum_col_Present | apply enum_col_Absent]. Qed.

Lemma status_allowed_status (st : Status) :
  Api.status_allowed (PStr (status_text st)) = true.
Proof. by destruct st. Qed.

Lemma get_attendance_api_up (w : World) (sid : Z) (s : string) (d : date) :
  reachable w = true ->
  strptime_ymd s = inr d ->
  Api.get_attendance sid s w =
    (inr match attendance_at (tables w) sid d with
         | Some row => (200, Api.attendance_json row)
         | None => (404, JMessage AttendanceNotFound)
         end,
     mkWorld (tables w) None true
             (log w ++ [Connect true; Execute (SelectAttendance sid d); Close])).
Proof.
  intros Hr Hparse. unfold Api.get_attendance. rewrite Hparse. unfold_py.
  rewrite get_attendance_up by done.
  by destruct (attendance_at (tables w) sid d).
Qed.

(** POST /attendance for a student that exists, by what the attendance
    table holds for the day. *)
Lemma post_attendance_up (w : World) (data : gmap string pyval) (v : pyval)
    (s : string) (sid : Z) (d : date) (st : Status) (row : string * string) :
  reachable w = true ->
  data !! "student_id" = Some v -> py_int v = inr sid ->
  data !! "date" = Some (PStr s) -> strptime_ymd s = inr d ->
  data !! "status" = Some (PStr (status_text st)) ->
  students (tables w) !! sid = Some row ->
  int_col sid = Some sid ->
  Api.mark_attendance (Some data) w =
    match attendance (tables w) !! (sid, d) with
    | None =>
        (inr (201, JAttendance sid d (status_text st)),
         mkWorld (mkDb (students (tables w))
                       (<[(sid, d) := status_text st]> (attendance (tables w))))
                 None true
                 (log w ++ [Connect true; Execute (SelectStudent sid); Close;
                            Connect true; Execute (SelectStudentId sid);
                            Execute (SelectAttendanceId sid d);
                            Execute (InsertAttendance sid d
                                       (PStr (status_text st)));
                            Commit; Close;
                            Connect true; Execute (SelectAttendance sid d);
                            Close]))
    | Some _ =>
        (inr (400, JError (StrOf (PyException (AlreadyMarked sid d)))),
         mkWorld (tables w) None true
                 (log w ++ [Connect true; Execute (SelectStudent sid); Close;
                            Connect true; Execute (SelectStudentId sid);
                            Execute (SelectAttendanceId sid d); Close]))
    end.
Proof.
  intros Hr Hid Hint Hdate Hparse Hstatus Hrow Hi.
  unfold Api.mark_attendance. rewrite (falsy_object data "date" (PStr s)) by done.
  simpl default. rewrite first_missing_none by (repeat constructor; eauto).
  rewrite !(item_lookup data _ _ Hid), !(item_lookup data _ _ Hdate),
    !(item_lookup data _ _ Hstatus), Hint.
  unfold Api.strptime. rewrite Hparse, status_allowed_status.
  unfold Api.except_Exception, Api.subscript; unfold_py; cbn [negb].
  rewrite get_student_up by done. unfold student_at. rewrite Hrow.
  cbn [fmap option_fmap option_map].
  destruct (attendance (tables w) !! (sid, d)) as [old|] eqn:Hold.
  - rewrite (mark_attendance_taken _ sid d _ row old) by done.
    simpl. by tidy_log.
  - rewrite (mark_attendance_fresh _ sid d _ row (status_text st))
      by (try apply enum_col_status; done).
    rewrite get_attendance_up by done. unfold attendance_at.
    cbn [tables attendance]. rewrite lookup_insert_eq.
    cbn [fmap option_fmap option_map]. by tidy_log.
Qed.
End Attendance.

(** Claim C1.  In a state where the student exists and nothing is recorded
    for (student_id, date), two [mark] calls in a row for that pair give
    success, then the conflict "Attendance already marked ..", and the status
    stored for the pair afterwards is the one of the first call; the same
    holds of two POST /attendance requests, which answer 201 and then 400. *)
Theorem mark_twice_second_conflicts {E : Engine} (w : World) (sid : Z)
    (d : date) (row : string * string) (st1 st2 : Status) :
  reachable w = true ->
  wf_db (tables w) ->
  students (tables w) !! sid = Some row ->
  attendance (tables w) !! (sid, d) = None ->
  (let first :=
     AttendanceSystem.mark_attendance sid d (PStr (status_text st1)) w in
   let second :=
     AttendanceSystem.mark_attendance sid d (PStr (status_text st2)) (snd first) in
   fst first = inr (sid, d) /\
   fst second = inl (PyException (AlreadyMarked sid d)) /\
   attendance (tables (snd second)) !! (sid, d) = Some (status_text st1) /\
   fst (AttendanceSystem.get_attendance sid d (snd second))
     = inr (Some (sid, d, status_text st1))) /\
  forall (data1 data2 : gmap string pyval) (v1 v2 : pyval) (s1 s2 : string),
    data1 !! "student_id" = Some v1 -> py_int v1 = inr sid ->
    data1 !! "date" = Some (PStr s1) -> strptime_ymd s1 = inr d ->
    data1 !! "status" = Some (PStr (status_text st1)) ->
    data2 !! "student_id" = Some v2 -> py_int v2 = inr sid ->
    data2 !! "date" = Some (PStr s2) -> strptime_ymd s2 = inr d ->
    data2 !! "status" = Some (PStr (status_text st2)) ->
    let first := Api.mark_attendance (Some data1) w in
    let second := Api.mark_attendance (Some data2) (snd first) in
    fst first = inr (201, JAttendance sid d (status_text st1)) /\
    fst second = inr (400, JError (StrOf (PyException (AlreadyMarked sid d)))) /\
    attendance (tables (snd second)) !! (sid, d) = Some (status_text st1) /\
    fst (Api.get_attendance sid s1 (snd second))
      = inr (200, JAttendance sid d (status_text st1)).
Proof.
  intros Hr [Hids _] Hrow Hnone.
  pose proof (int_col_in_range sid (Hids sid row Hrow)) as Hi.
  split.
  - cbv zeta.
    rewrite (mark_attendance_fresh w sid d _ row (status_text st1))
      by (try apply enum_col_status; done).
    cbn [fst snd]. split; [done|].
    rewrite (mark_attendance_taken _ sid d _ row (status_text st1))
      by (try done; apply lookup_insert_eq).
    cbn [fst snd tables attendance]. split; [done|].
    rewrite lookup_insert_eq. split; [done|].
    rewrite get_attendance_up by done. unfold attendance_at.
    cbn [fst tables attendance]. by rewrite lookup_insert_eq.
  - intros data1 data2 v1 v2 s1 s2 Hid1 Hint1 Hdate1 Hparse1 Hst1
           Hid2 Hint2 Hdate2 Hparse2 Hst2. cbv zeta.
    rewrite (post_attendance_up w data1 v1 s1 sid d st1 row) by done.
    rewrite Hnone. cbn [fst snd]. split; [done|].
    rewrite (post_attendance_up _ data2 v2 s2 sid d st2 row) by done.
    cbn [tables attendance]. rewrite lookup_insert_eq.
    cbn [fst snd tables attendance]. split; [done|].
    rewrite lookup_insert_eq. split; [done|].
    rewrite (get_attendance_api_up _ sid s1 d) by done.
    unfold attendance_at. cbn [tables attendance].
    by rewrite lookup_insert_eq.
Qed.

Lemma wf_db_single (sid : Z) (row : string * string) :
  int_range sid = true -> wf_db (mkDb {[ sid := row ]} ∅).
Proof.
  intros Hrange. split; simpl.
  - by intros k r [<- _]%lookup_singleton_Some.
  - intros k d st Hk. by rewrite lookup_empty in Hk.
Qed.

Lemma mark_twice_second_conflicts_witness :
  let w := world_of (mkDb {[ 1 := ("Ann", "5A") ]} ∅) in
  let d := Date 2024 1 10 in
  let first :=
    AttendanceSystem.mark_attendance (E := strict_engine) 1 d (PStr "Present") w in
  let second :=
    AttendanceSystem.mark_attendance (E := strict_engine) 1 d (PStr "Absent")
                                     (snd first) in
  fst first = inr (1, d) /\
  fst second = inl (PyException (AlreadyMarked 1 d)) /\
  attendance (tables (snd second)) !! (1, d) = Some "Present".
Proof.
  intros w d first second.
  destruct (mark_twice_second_conflicts (E := strict_engine)
              w 1 d ("Ann", "5A") Present Absent)
    as [(Hfirst & Hsecond & Hstored & _) _].
  - reflexivity.
  - apply wf_db_single. reflexivity.
  - reflexivity.
  - reflexivity.
  - split; [exact Hfirst | split; [exact Hsecond | exact Hstored]].
Defined.

(** Claim C2.  For a student that exists, DELETE /students/<id> sends
    [DELETE FROM attendance WHERE student_id=id] and then [DELETE FROM
    students WHERE id=id], in that order and in one transaction; afterwards
    the student row is gone, no attendance row of that student is left (the
    rows of other students are untouched), listing the student's attendance
    gives the empty sequence and getting any (id, date) pair gives not
    found. *)
Theorem delete_student_cascades {E : Engine} (w : World) (sid : Z)
    (row : string * string) :
  reachable w = true ->
  students (tables w) !! sid = Some row ->
  let r := Api.delete_student sid w in
  fst r = inr (200, JMessage (StudentDeleted sid)) /\
  log (snd r) = log w ++ [Connect true; Execute (SelectStudent sid); Close;
                          Connect true; Execute (DeleteAttendanceOf sid);
                          Execute (DeleteStudent sid); Commit; Close] /\
  students (tables (snd r)) = delete sid (students (tables w)) /\
  (forall (s : Z) (d : date),
     attendance (tables (snd r)) !! (s, d) =
     if decide (s = sid) then None else attendance (tables w) !! (s, d)) /\
  fst (AttendanceSystem.list_attendance_by_student sid (snd r)) = inr [] /\
  fst (Api.list_attendance_for_student sid (snd r)) = inr (200, JDayList []) /\
  forall d : date,
    fst (AttendanceSystem.get_attendance sid d (snd r)) = inr None /\
    forall s : string,
      strptime_ymd s = inr d ->
      fst (Api.get_attendance sid s (snd r))
        = inr (404, JMessage AttendanceNotFound).
Proof.
  intros Hr Hrow. cbv zeta.
  assert (Hrun : Api.delete_student sid w =
    (inr (200, JMessage (StudentDeleted sid)),
     mkWorld (mkDb (delete sid (students (tables w)))
                   (attendance (sem_delete_attendance_of sid (tables w))))
             None true
             (log w ++ [Connect true; Execute (SelectStudent sid); Close;
                        Connect true; Execute (DeleteAttendanceOf sid);
                        Execute (DeleteStudent sid); Commit; Close]))).
  { unfold Api.delete_student, Api.except_Exception; unfold_py.
    rewrite get_student_up by done. unfold student_at. rewrite Hrow.
    cbn [fmap option_fmap option_map].
    rewrite delete_student_run by done. by tidy_log. }
  rewrite Hrun. cbn [fst snd tables students attendance log].
  assert (Hgone : forall d,
    attendance (sem_delete_attendance_of sid (tables w)) !! (sid, d) = None).
  { intros d. rewrite delete_attendance_of_lookup. by rewrite decide_True. }
  assert (Hnil : attendance_of sid
            (mkDb (delete sid (students (tables w)))
                  (attendance (sem_delete_attendance_of sid (tables w)))) = []).
  { apply attendance_of_nil. intros d. apply Hgone. }
  repeat split.
  - intros s d. apply delete_attendance_of_lookup.
  - rewrite list_attendance_by_student_up by done. cbn [fst tables].
    by rewrite Hnil.
  - unfold Api.list_attendance_for_student, Api.except_Exception; unfold_py.
    rewrite list_attendance_by_student_up by done. cbn [tables].
    by rewrite Hnil.
  - rewrite get_attendance_up by done. unfold attendance_at.
    cbn [fst tables attendance]. by rewrite Hgone.
  - intros s Hparse. rewrite (get_attendance_api_up _ sid s d) by done.
    unfold attendance_at. cbn [fst tables attendance]. by rewrite Hgone.
Qed.

Lemma delete_student_cascades_witness :
  let d := Date 2024 1 10 in
  let w := world_of (mkDb {[ 1 := ("Ann", "5A") ]} {[ (1, d) := "Present" ]}) in
  let r := Api.delete_student (E := strict_engine) 1 w in
  fst r = inr (200, JMessage (StudentDeleted 1)) /\
  fst (Api.list_attendance_for_student (E := strict_engine) 1 (snd r))
    = inr (200, JDayList []) /\
  fst (Api.get_attendance (E := strict_engine) 1 "2024-01-10" (snd r))
    = inr (404, JMessage AttendanceNotFound).
Proof.
  intros d w r.
  destruct (delete_student_cascades (E := strict_engine) w 1 ("Ann", "5A"))
    as (Hreply & _ & _ & _ & _ & Hlist & Hget).
  - reflexivity.
  - reflexivity.
  - split; [exact Hreply | split; [exact Hlist |]].
    apply (Hget d). reflexivity.
Defined.

(** The order matters to the server: with an attendance row still in place
    the student row cannot be deleted. *)
Lemma delete_student_row_first_refused {E : Engine} (db : Db) (sid : Z)
    (d : date) (row : string * string) (st : string) :
  students db !! sid = Some row ->
  attendance db !! (sid, d) = Some st ->
  run_stmt (DeleteStudent sid) db = inl ForeignKey.
Proof.
  intros Hrow Hst. simpl. unfold sem_delete_student. rewrite Hrow.
  destruct (attendance_of sid db) eqn:Hrefs; [|done].
  apply attendance_of_nil with (d := d) in Hrefs. congruence.
Qed.

(** Claim C6, as the code has it.  Neither the handler nor [add_student]
    looks at whether name or class is empty, and NOT NULL admits the empty
    string: with a new INT id, and name and class within the column widths,
    POST /students with an empty name or an empty class answers 201 and the
    row is stored with the empty string. *)
Theorem create_empty_field_stored {E : Engine} (w : World) (sid : Z)
    (new_name new_class : string) (d : gmap string pyval) (v : pyval) :
  reachable w = true ->
  students (tables w) !! sid = None ->
  int_range sid = true ->
  (String.length new_name <= 100)%nat ->
  (String.length new_class <= 50)%nat ->
  new_name = "" \/ new_class = "" ->
  d !! "id" = Some v -> py_int v = inr sid ->
  d !! "name" = Some (PStr new_name) ->
  d !! "class" = Some (PStr new_class) ->
  let r := Api.create_student (Some d) w in
  fst r = inr (201, JStudent sid new_name new_class) /\
  students (tables (snd r)) !! sid = Some (new_name, new_class).
Proof.
  intros Hr Hfresh Hrange Hn Hc _ Hid Hint Hname Hclass. cbv zeta.
  rewrite (create_student_created w d v _ _ sid new_name new_class)
    by eauto using int_col_in_range, varchar_col_fits.
  cbn [fst snd tables students]. by rewrite lookup_insert_eq.
Qed.

Lemma create_empty_field_stored_witness :
  let r := Api.create_student (E := strict_engine)
             (body_of [("id", PInt 7); ("name", PStr "Ann"); ("class", PStr "")])
             (world_of empty_db) in
  fst r = inr (201, JStudent 7 "Ann" "") /\
  students (tables (snd r)) !! 7 = Some ("Ann", "").
Proof.
  apply (create_empty_field_stored (E := strict_engine)
           (world_of empty_db) 7 "Ann" "" _ (PInt 7)).
  - reflexivity.
  - reflexivity.
  - reflexivity.
  - simpl. lia.
  - simpl. lia.
  - right. reflexivity.
  - reflexivity.
  - reflexivity.
  - reflexivity.
  - reflexivity.
Defined.

(** Claim C6 as stated fails: a request with an empty name is answered 201,
    not 400, and the row is inserted. *)
Lemma create_empty_name_not_rejected :
  let r := Api.create_student (E := strict_engine)
             (body_of [("id", PInt 1); ("name", PStr ""); ("class", PStr "5A")])
             (world_of empty_db) in
  fst r = inr (201, JStudent 1 "" "5A") /\
  students (tables (snd r)) !! 1 = Some ("", "5A") /\
  ~ (exists body, fst r = inr (400, body)) /\
  students (tables (snd r)) <> students (tables (world_of empty_db)).
Proof.
  vm_compute. repeat split; try reflexivity.
  - intros [body Hbody]. discriminate.
  - discriminate.
Qed.

(** ** Date texts *)

Lemma strptime_ymd_error (s : string) (e : exn) :
  strptime_ymd s = inl e -> e = ValueError.
Proof.
  unfold strptime_ymd.
  destruct (re_Ymd _) as [|[d [|c rest]] l]; [congruence| |congruence].
  destruct (date_ok d); congruence.
Qed.

(** Whatever [strptime] accepts is a day of the calendar. *)
Lemma strptime_ymd_date_ok (s : string) (d : date) :
  strptime_ymd s = inr d -> date_ok d = true.
Proof.
  unfold strptime_ymd.
  destruct (re_Ymd _) as [|[d' [|c rest]] l]; [congruence| |congruence].
  destruct (date_ok d') eqn:Hok; congruence.
Qed.

(** Claim C7, as the code has it.  The date texts that are rejected are
    those [strptime] with the format [%Y-%m-%d] does not parse (it parses
    four digits, a dash, a month of one or two digits, a dash and a day of
    one or two digits that name a day of the calendar): for each of them
    GET, PUT and DELETE /attendance/<student_id>/<date> answer 400 "Invalid
    date format", POST /attendance answers 400, and none of them touches the
    store: the world, its log included, is as it was. *)
Theorem unparsed_date_rejected {E : Engine} (w : World) (s : string) (e : exn) :
  strptime_ymd s = inl e ->
  (forall sid : Z,
     Api.get_attendance sid s w = (inr (400, JError InvalidDateFormat), w)) /\
  (forall (sid : Z) (data : Json),
     Api.update_attendance sid s data w
       = (inr (400, JError InvalidDateFormat), w)) /\
  (forall sid : Z,
     Api.delete_attendance sid s w = (inr (400, JError InvalidDateFormat), w)) /\
  (forall data : gmap string pyval,
     data !! "date" = Some (PStr s) ->
     exists t, Api.mark_attendance (Some data) w = (inr (400, JError t), w)).
Proof.
  intros Hparse. pose proof (strptime_ymd_error s e Hparse) as ->.
  repeat split.
  - intros sid. unfold Api.get_attendance; unfold_py. by rewrite Hparse.
  - intros sid data. unfold Api.update_attendance; unfold_py. by rewrite Hparse.
  - intros sid. unfold Api.delete_attendance; unfold_py. by rewrite Hparse.
  - intros data Hdate. unfold Api.mark_attendance.
    rewrite (falsy_object data "date" (PStr s)) by done. simpl default.
    unfold Api.first_missing, Api.except_Exception.
    rewrite !filter_cons, filter_nil, Hdate.
    destruct (data !! "student_id") as [v|] eqn:Hid; simpl;
      [|by eexists].
    destruct (data !! "status") as [st|] eqn:Hst; simpl; [|by eexists].
    rewrite (item_lookup data _ _ Hid), (item_lookup data _ _ Hdate).
    unfold_py. destruct (py_int v) as [err|sid] eqn:Hint.
    + destruct err; simpl; by eexists.
    + unfold Api.strptime. rewrite Hparse. simpl. by eexists.
Qed.

Lemma unparsed_date_rejected_witness :
  let w := world_of (mkDb {[ 1 := ("Ann", "5A") ]} ∅) in
  Api.get_attendance (E := strict_engine) 1 "2024/01/01" w
    = (inr (400, JError InvalidDateFormat), w) /\
  Api.delete_attendance (E := strict_engine) 1 "not-a-date" w
    = (inr (400, JError InvalidDateFormat), w).
Proof.
  intros w. split.
  - apply (unparsed_date_rejected (E := strict_engine) w "2024/01/01" ValueError).
    reflexivity.
  - apply (unparsed_date_rejected (E := strict_engine) w "not-a-date" ValueError).
    reflexivity.
Defined.

(** Claim C7 as stated fails: "2024-1-5" is not of the form YYYY-MM-DD, yet
    it is read as 5 January 2024 and the request goes to the store. *)
Lemma unpadded_date_not_rejected :
  let d := Date 2024 1 5 in
  let w := world_of (mkDb {[ 1 := ("Ann", "5A") ]} {[ (1, d) := "Present" ]}) in
  let r := Api.get_attendance (E := strict_engine) 1 "2024-1-5" w in
  is_YYYY_MM_DD "2024-1-5" = false /\
  strptime_ymd "2024-1-5" = inr d /\
  fst r = inr (200, JAttendance 1 d "Present") /\
  log (snd r) = [Connect true; Execute (SelectAttendance 1 d); Close].
Proof. vm_compute. repeat split. Qed.

(** ** Status values *)

(** POST /attendance checks the status before it turns to the store. *)
Lemma mark_attendance_status_checked {E : Engine} (w : World)
    (data : gmap string pyval) (status : pyval) :
  data !! "status" = Some status ->
  Api.status_allowed status = false ->
  exists t, Api.mark_attendance (Some data) w = (inr (400, JError t), w).
Proof.
  intros Hstatus Hbad. unfold Api.mark_attendance.
  rewrite (falsy_object data "status" status) by done. simpl default.
  unfold Api.first_missing, Api.except_Exception.
  rewrite !filter_cons, filter_nil, Hstatus.
  destruct (data !! "student_id") as [v|] eqn:Hid; simpl; [|by eexists].
  destruct (data !! "date") as [dv|] eqn:Hdate; simpl; [|by eexists].
  rewrite (item_lookup data _ _ Hid), (item_lookup data _ _ Hdate),
    (item_lookup data _ _ Hstatus).
  unfold_py. destruct (py_int v) as [err|sid] eqn:Hint.
  { destruct err; simpl; by eexists. }
  destruct (Api.strptime dv) as [err|d] eqn:Hparse.
  { destruct err; simpl; by eexists. }
  rewrite Hbad. simpl. by eexists.
Qed.

(** Claim C8, on PUT /attendance/<student_id>/<date>.  The handler does not
    look at the status it is given.  With a status outside Present and
    Absent: when no record exists for the pair it answers 404 "Record not
    found", not 400; when a record exists it sends the value to the store in
    [UPDATE attendance SET status=..], and the answer is whatever the ENUM
    column makes of the value: 200 with the stored member, or 400 with the
    error of the server and the tables as they were. *)
Theorem update_attendance_status_unchecked {E : Engine} (w : World) (sid : Z)
    (s : string) (d : date) (data : gmap string pyval) (status : pyval) :
  reachable w = true ->
  strptime_ymd s = inr d ->
  data !! "status" = Some status ->
  Api.status_allowed status = false ->
  let r := Api.update_attendance sid s (Some data) w in
  match attendance (tables w) !! (sid, d) with
  | None =>
      fst r = inr (404, JMessage RecordNotFound) /\ tables (snd r) = tables w
  | Some _ =>
      Execute (UpdateAttendance status sid d) ∈ log (snd r) /\
      match enum_col status with
      | Some stored =>
          fst r = inr (200, JAttendance sid d stored) /\
          attendance (tables (snd r)) !! (sid, d) = Some stored
      | None =>
          fst r = inr (400, JError (StrOf (MySQLError BadValue))) /\
          tables (snd r) = tables w
      end
  end.
Proof.
  intros Hr Hparse Hstatus _. cbv zeta.
  unfold Api.update_attendance. rewrite Hparse.
  unfold Api.dict_get, Api.subscript; unfold_py.
  rewrite get_attendance_up by done. unfold attendance_at.
  destruct (attendance (tables w) !! (sid, d)) as [old|] eqn:Hold;
    cbn [fmap option_fmap option_map]; [|done].
  rewrite Hstatus. cbn [default from_option id].
  rewrite update_attendance_run by done. cbv zeta.
  unfold sem_update_attendance. cbn [tables]. rewrite Hold.
  destruct (enum_col status) as [stored|] eqn:Hcol.
  - rewrite get_attendance_up by done. unfold attendance_at.
    cbn [tables attendance]. rewrite lookup_insert_eq.
    cbn [fmap option_fmap option_map fst snd tables attendance log].
    rewrite lookup_insert_eq. split; [|done].
    rewrite !elem_of_app. left. right. set_solver.
  - cbn [is_ValueError fst snd tables log]. split; [|done].
    rewrite !elem_of_app. right. set_solver.
Qed.

Lemma update_attendance_status_unchecked_witness :
  let w := world_of (mkDb {[ 1 := ("Ann", "5A") ]} ∅) in
  let r := Api.update_attendance (E := strict_engine) 1 "2024-01-10"
             (body_of [("status", PStr "Late")]) w in
  fst r = inr (404, JMessage RecordNotFound) /\ tables (snd r) = tables w.
Proof.
  intros w r.
  apply (update_attendance_status_unchecked (E := strict_engine)
           w 1 "2024-01-10" (Date 2024 1 10)
           (list_to_map [("status", PStr "Late")]) (PStr "Late")).
  - reflexivity.
  - reflexivity.
  - reflexivity.
  - reflexivity.
Defined.

(** ** Updating a student *)

(** PUT /students/<id> for a student that exists, by what the two VARCHAR
    columns make of the values sent. *)
Lemma put_student_up {E : Engine} (w : World) (sid : Z)
    (data : gmap string pyval) (row : string * string) :
  reachable w = true ->
  students (tables w) !! sid = Some row ->
  Api.update_student sid (Some data) w =
    let new_name := default PNone (data !! "name") in
    let new_class := default PNone (data !! "class") in
    let stmt := UpdateStudent new_name new_class sid in
    match varchar_col 100 new_name, varchar_col 50 new_class with
    | Some n, Some c =>
        (inr (200, JStudent sid n c),
         mkWorld (mkDb (<[sid := (n, c)]> (students (tables w)))
                       (attendance (tables w)))
                 None true
                 (log w ++ [Connect true; Execute (SelectStudent sid); Close;
                            Connect true; Execute stmt; Commit; Close;
                            Connect true; Execute (SelectStudent sid); Close]))
    | _, _ =>
        (inr (400, JError (StrOf (MySQLError BadValue))),
         mkWorld (tables w) (Some (tables w)) true
                 (log w ++ [Connect true; Execute (SelectStudent sid); Close;
                            Connect true; Execute stmt]))
    end.
Proof.
  intros Hr Hrow. cbv zeta.
  unfold Api.update_student, Api.dict_get, Api.subscript; unfold_py.
  rewrite get_student_up by done. unfold student_at. rewrite Hrow.
  cbn [fmap option_fmap option_map].
  rewrite update_student_run by done. cbv zeta.
  unfold sem_update_student. cbn [tables name student_class]. rewrite Hrow.
  destruct (varchar_col 100 _) as [n|]; [|by tidy_log].
  destruct (varchar_col 50 _) as [c|]; [|by tidy_log].
  rewrite get_student_up by done. unfold student_at.
  cbn [tables students]. rewrite lookup_insert_eq. by tidy_log.
Qed.

(** Claim C9, as the code has it.  PUT /students/<id> overwrites both
    columns with what the request carries.  For an id that exists: when name
    and class are both supplied (strings within the column widths) it
    answers 200 and the row holds exactly the two values; in every case the
    statement it sends is [UPDATE students SET name=.., class=..] with NULL
    for a member the request does not have, so a member that is not
    supplied is not kept.  For an id that does not exist it answers 404 and
    the tables are as they were. *)
Theorem update_student_overwrites {E : Engine} (w : World) (sid : Z)
    (data : gmap string pyval) :
  reachable w = true ->
  (forall (row : string * string) (new_name new_class : string),
     students (tables w) !! sid = Some row ->
     data !! "name" = Some (PStr new_name) ->
     data !! "class" = Some (PStr new_class) ->
     (String.length new_name <= 100)%nat ->
     (String.length new_class <= 50)%nat ->
     let r := Api.update_student sid (Some data) w in
     fst r = inr (200, JStudent sid new_name new_class) /\
     students (tables (snd r))
       = <[sid := (new_name, new_class)]> (students (tables w)) /\
     attendance (tables (snd r)) = attendance (tables w)) /\
  (forall row : string * string,
     students (tables w) !! sid = Some row ->
     let r := Api.update_student sid (Some data) w in
     Execute (UpdateStudent (default PNone (data !! "name"))
                            (default PNone (data !! "class")) sid)
       ∈ log (snd r)) /\
  (students (tables w) !! sid = None ->
   let r := Api.update_student sid (Some data) w in
   fst r = inr (404, JMessage StudentNotFound) /\ tables (snd r) = tables w).
Proof.
  intros Hr. split; [|split].
  - intros row new_name new_class Hrow Hname Hclass Hn Hc. cbv zeta.
    rewrite (put_student_up w sid data row) by done. cbv zeta.
    rewrite Hname, Hclass. cbn [default from_option id].
    by rewrite (varchar_col_fits 100 new_name), (varchar_col_fits 50 new_class)
      by done.
  - intros row Hrow. cbv zeta.
    rewrite (put_student_up w sid data row) by done. cbv zeta.
    destruct (varchar_col 100 _) as [n|]; [destruct (varchar_col 50 _) as [c|]|];
      cbn [snd log]; rewrite elem_of_app; right; set_solver.
  - intros Hnone. cbv zeta. unfold Api.update_student; unfold_py.
    rewrite get_student_up by done. unfold student_at. by rewrite Hnone.
Qed.

Lemma update_student_overwrites_witness :
  let w := world_of (mkDb {[ 1 := ("Ann", "5A") ]} ∅) in
  let r := Api.update_student (E := strict_engine) 1
             (body_of [("name", PStr "Bob"); ("class", PStr "6B")]) w in
  fst r = inr (200, JStudent 1 "Bob" "6B") /\
  students (tables (snd r)) = <[1 := ("Bob", "6B")]> (students (tables w)) /\
  attendance (tables (snd r)) = attendance (tables w).
Proof.
  intros w r.
  destruct (update_student_overwrites (E := strict_engine) w 1
              (list_to_map [("name", PStr "Bob"); ("class", PStr "6B")]))
    as [Hboth _].
  - reflexivity.
  - apply (Hboth ("Ann", "5A") "Bob" "6B").
    + reflexivity.
    + reflexivity.
    + reflexivity.
    + simpl. lia.
    + simpl. lia.
Defined.

(** Claim C9 as stated fails: with only the name supplied the update does
    not succeed and leave the class alone; the statement carries NULL for
    the class, which the NOT NULL column of a strict server refuses, and the
    answer is 400. *)
Lemma update_student_name_only_fails :
  let w := world_of (mkDb {[ 1 := ("Ann", "5A") ]} ∅) in
  let r := Api.update_student (E := strict_engine) 1
             (body_of [("name", PStr "Bob")]) w in
  fst r = inr (400, JError (StrOf (MySQLError BadValue))) /\
  ~ (exists body, fst r = inr (200, body)) /\
  log (snd r) = [Connect true; Execute (SelectStudent 1); Close; Connect true;
                 Execute (UpdateStudent (PStr "Bob") PNone 1)].
Proof.
  vm_compute. repeat split. intros [body Hbody]. discriminate.
Qed.

(** ** The schema invariant, request after request

    Whatever a handler does, the committed tables stay well formed; so do
    the tables an open connection sees. *)

Lemma keeps_ret {A} (a : A) : keeps_wf (ret a).
Proof. by intros w Hw. Qed.

Lemma keeps_raise {A} (e : exn) : keeps_wf (raise (A := A) e).
Proof. by intros w Hw. Qed.

Lemma keeps_lift {A} (r : exn + A) : keeps_wf (lift r).
Proof. by intros w Hw. Qed.

Lemma keeps_bind {A B} (m : M A) (k : A -> M B) :
  keeps_wf m -> (forall a, keeps_wf (k a)) -> keeps_wf (bind m k).
Proof.
  intros Hm Hk w Hw. unfold bind. specialize (Hm w Hw).
  destruct (m w) as [[e|a] w1]; [done|]. by apply Hk.
Qed.

Lemma keeps_try_except {A} (body : M A) (handler : exn -> option (M A)) :
  keeps_wf body ->
  (forall e h, handler e = Some h -> keeps_wf h) ->
  keeps_wf (try_except body handler).
Proof.
  intros Hbody Hhandler w Hw. unfold try_except. specialize (Hbody w Hw).
  destruct (body w) as [[e|a] w1]; [|done].
  destruct (handler e) as [h|] eqn:Hh; [|done]. by eapply Hhandler.
Qed.

Lemma keeps_try_finally {A} (body : M A) (fin : M unit) :
  keeps_wf body -> keeps_wf fin -> keeps_wf (try_finally body fin).
Proof.
  intros Hbody Hfin w Hw. unfold try_finally. specialize (Hbody w Hw).
  destruct (body w) as [r w1]. specialize (Hfin w1 Hbody).
  by destruct (fin w1) as [[e|u] w2].
Qed.

Lemma keeps_emit (e : Event) : keeps_wf (emit e).
Proof. by intros w Hw. Qed.

Lemma keeps_cursor (conn : option Conn) : keeps_wf (cursor conn).
Proof. destruct conn; [apply keeps_ret | apply keeps_raise]. Qed.

Section KeepsWf.
Context {E : Engine}.

Lemma keeps_connect_db : keeps_wf AttendanceSystem.connect_db.
Proof.
  intros w [Htables Hview]. unfold AttendanceSystem.connect_db.
  destruct (reachable w); split; simpl; try done.
  by intros view [= <-].
Qed.

Lemma keeps_disconnect_db (conn : option Conn) :
  keeps_wf (AttendanceSystem.disconnect_db conn).
Proof.
  destruct conn; [|apply keeps_ret].
  apply keeps_bind; [apply keeps_emit|]. intros _ w [Htables Hview].
  by split.
Qed.

Lemma keeps_execute (s : Stmt) : keeps_wf (execute s).
Proof.
  apply keeps_bind; [apply keeps_emit|]. intros _ w Hw. cbv beta.
  destruct Hw as [Htables Hview].
  destruct (txn w) as [view|] eqn:Htxn.
  - destruct (run_stmt s view) as [err|[rows view']] eqn:Hrun.
    + split; simpl; [done|]. by rewrite Htxn.
    + split; simpl; [done|]. intros v [= <-].
      eapply run_stmt_wf; [|exact Hrun]. by apply Hview.
  - split; simpl; [done|]. by rewrite Htxn.
Qed.

Lemma keeps_commit : keeps_wf commit.
Proof.
  apply keeps_bind; [apply keeps_emit|]. intros _ w [Htables Hview].
  split; simpl; [|done]. destruct (txn w) as [view|]; simpl; [|done].
  by apply Hview.
Qed.

Lemma keeps_rollback : keeps_wf rollback.
Proof.
  apply keeps_bind; [apply keeps_emit|]. intros _ w [Htables Hview].
  split; simpl; [done|]. by intros view [= <-].
Qed.
End KeepsWf.

Create HintDb keeps.
#[export] Hint Resolve keeps_ret keeps_raise keeps_lift keeps_emit keeps_cursor
  keeps_connect_db keeps_disconnect_db keeps_execute keeps_commit
  keeps_rollback : keeps.

(** Walks through a computation along its binds, handlers and branches. *)
Ltac keeps_step :=
  match goal with
  | |- keeps_wf (bind _ _) => apply keeps_bind; [|intros ?]
  | |- keeps_wf (try_except _ _) => apply keeps_try_except; [|intros ? ? ?]
  | |- keeps_wf (try_finally _ _) => apply keeps_try_finally
  | |- keeps_wf (match ?x with _ => _ end) => destruct x
  | |- keeps_wf (let _ := _ in _) => cbv zeta
  | H : Some _ = Some _ |- _ => injection H as <-
  | H : None = Some _ |- _ => discriminate H
  | H : match ?x with _ => _ end = Some _ |- _ => destruct x
  | H : AttendanceSystem.except_pymysql_Error _ = Some _ |- _ =>
      unfold AttendanceSystem.except_pymysql_Error in H
  | H : Api.except_Exception _ _ = Some _ |- _ =>
      unfold Api.except_Exception in H
  | H : Api.except_ValueError _ _ = Some _ |- _ =>
      unfold Api.except_ValueError in H
  | |- keeps_wf _ => solve [auto with keeps]
  end.

Ltac keeps := repeat keeps_step.

Section RepositoryKeepsWf.
Context {E : Engine}.
Import AttendanceSystem.

Lemma keeps_add_student student student_id :
  keeps_wf (add_student student student_id).
Proof. unfold add_student. keeps. Qed.

Lemma keeps_update_student sid new_data :
  keeps_wf (update_student sid new_data).
Proof. unfold update_student. keeps. Qed.

Lemma keeps_delete_student sid : keeps_wf (delete_student sid).
Proof. unfold delete_student. keeps. Qed.

Lemma keeps_get_student sid : keeps_wf (get_student sid).
Proof. unfold get_student. keeps. Qed.

Lemma keeps_list_students : keeps_wf list_students.
Proof. unfold list_students. keeps. Qed.

Lemma keeps_mark_attendance sid d status :
  keeps_wf (mark_attendance sid d status).
Proof. unfold mark_attendance. keeps. Qed.

Lemma keeps_update_attendance sid d status :
  keeps_wf (update_attendance sid d status).
Proof. unfold update_attendance. keeps. Qed.

Lemma keeps_delete_attendance sid d : keeps_wf (delete_attendance sid d).
Proof. unfold delete_attendance. keeps. Qed.

Lemma keeps_get_attendance sid d : keeps_wf (get_attendance sid d).
Proof. unfold get_attendance. keeps. Qed.

Lemma keeps_list_attendance_by_student sid :
  keeps_wf (list_attendance_by_student sid).
Proof. unfold list_attendance_by_student. keeps. Qed.

Lemma keeps_list_all_attendance : keeps_wf list_all_attendance.
Proof. unfold list_all_attendance. keeps. Qed.
End RepositoryKeepsWf.

#[export] Hint Resolve keeps_add_student keeps_update_student
  keeps_delete_student keeps_get_student keeps_list_students
  keeps_mark_attendance keeps_update_attendance keeps_delete_attendance
  keeps_get_attendance keeps_list_attendance_by_student
  keeps_list_all_attendance : keeps.

Section HandlersKeepWf.
Context {E : Engine}.

Lemma keeps_subscript {A} (row : option A) : keeps_wf (Api.subscript row).
Proof. unfold Api.subscript. keeps. Qed.

Lemma keeps_dict_get (data : Json) (k : string) :
  keeps_wf (Api.dict_get data k).
Proof. unfold Api.dict_get. keeps. Qed.

Hint Resolve keeps_subscript keeps_dict_get : keeps.

Lemma keeps_handle (r : Request) : keeps_wf (handle r).
Proof.
  destruct r; simpl.
  - unfold Api.list_students. keeps.
  - unfold Api.create_student. keeps.
  - unfold Api.read_student. keeps.
  - unfold Api.update_student. keeps.
  - unfold Api.delete_student. keeps.
  - unfold Api.list_all_attendance. keeps.
  - unfold Api.mark_attendance. keeps.
  - unfold Api.get_attendance. keeps.
  - unfold Api.list_attendance_for_student. keeps.
  - unfold Api.update_attendance. keeps.
  - unfold Api.delete_attendance. keeps.
Qed.

(** From well-formed tables, any run of requests leaves well-formed
    tables: ids are INT values and no attendance row is without its
    student. *)
Lemma serve_wf (rs : list Request) (w : World) :
  wf_world w -> wf_world (serve rs w).
Proof.
  revert w. induction rs as [|r rs IH]; intros w Hw; simpl; [done|].
  apply IH. by apply keeps_handle.
Qed.

Lemma wf_world_start : wf_world (world_of empty_db).
Proof.
  split; [|done]. split; simpl.
  - intros sid row Hrow. by rewrite lookup_empty in Hrow.
  - intros sid d st Hst. by rewrite lookup_empty in Hst.
Qed.

Lemma serve_from_start_wf (rs : list Request) :
  wf_db (tables (serve rs (world_of empty_db))).
Proof. apply serve_wf, wf_world_start. Qed.
End HandlersKeepWf.

(** ** The scenarios of the interface, run on a strict server *)

Example scenario_mark_twice :
  let requests :=
    [POST_students (body_of [("id", PInt 1); ("name", PStr "Ann");
                             ("class", PStr "5A")]);
     POST_attendance (body_of [("student_id", PInt 1);
                               ("date", PStr "2024-01-10");
                               ("status", PStr "Present")])] in
  let w := serve (E := strict_engine) requests (world_of empty_db) in
  let again :=
    Api.mark_attendance (E := strict_engine)
      (body_of [("student_id", PInt 1); ("date", PStr "2024-01-10");
                ("status", PStr "Absent")]) w in
  fst again
    = inr (400, JError (StrOf (PyException (AlreadyMarked 1 (Date 2024 1 10)))))
  /\ fst (Api.get_attendance (E := strict_engine) 1 "2024-01-10" (snd again))
     = inr (200, JAttendance 1 (Date 2024 1 10) "Present").
Proof. vm_compute. by split. Qed.

Example scenario_update_round_trip :
  let requests :=
    [POST_students (body_of [("id", PInt 1); ("name", PStr "Ann");
                             ("class", PStr "5A")]);
     POST_attendance (body_of [("student_id", PInt 1);
                               ("date", PStr "2024-01-10");
                               ("status", PStr "Present")]);
     PUT_attendance_day 1 "2024-01-10" (body_of [("status", PStr "Absent")])] in
  let w := serve (E := strict_engine) requests (world_of empty_db) in
  fst (Api.get_attendance (E := strict_engine) 1 "2024-01-10" w)
    = inr (200, JAttendance 1 (Date 2024 1 10) "Absent").
Proof. by vm_compute. Qed.

Example scenario_delete_student :
  let requests :=
    [POST_students (body_of [("id", PInt 1); ("name", PStr "Ann");
                             ("class", PStr "5A")]);
     POST_attendance (body_of [("student_id", PInt 1);
                               ("date", PStr "2024-01-10");
                               ("status", PStr "Present")]);
     DELETE_student 1] in
  let w := serve (E := strict_engine) requests (world_of empty_db) in
  fst (Api.get_attendance (E := strict_engine) 1 "2024-01-10" w)
    = inr (404, JMessage AttendanceNotFound)
  /\ tables w = empty_db.
Proof. by vm_compute. Qed.

(** MySQL reads a number given for an ENUM column as the index of a member:
    on the strict server PUT /attendance/<student_id>/<date> with status 1
    answers 200 and stores Present, although 1 is not one of the two status
    texts POST /attendance admits. *)
Example update_attendance_index_stored :
  let d := Date 2024 1 10 in
  let w := world_of (mkDb {[ 1 := ("Ann", "5A") ]} {[ (1, d) := "Absent" ]}) in
  let r := Api.update_attendance (E := strict_engine) 1 "2024-01-10"
             (body_of [("status", PInt 1)]) w in
  Api.status_allowed (PInt 1) = false /\
  fst r = inr (200, JAttendance 1 d "Present") /\
  attendance (tables (snd r)) !! (1, d) = Some "Present".
Proof. by vm_compute. Qed.

(** * Further properties of the handlers *)

(** ** Attendance: update, delete, and what they compose to *)

(** X1.  PUT /attendance/<student_id>/<date> with one of the two statuses,
    on a record that exists: the answer is 200 with the new status, only
    that row changes, and GET on the same pair then shows the new status. *)
Theorem put_attendance_then_get {E : Engine} (w : World) (sid : Z)
    (s : string) (d : date) (data : gmap string pyval) (st : Status)
    (old : string) :
  reachable w = true ->
  strptime_ymd s = inr d ->
  data !! "status" = Some (PStr (status_text st)) ->
  attendance (tables w) !! (sid, d) = Some old ->
  let r := Api.update_attendance sid s (Some data) w in
  fst r = inr (200, JAttendance sid d (status_text st)) /\
  tables (snd r)
    = mkDb (students (tables w))
           (<[(sid, d) := status_text st]> (attendance (tables w))) /\
  fst (Api.get_attendance sid s (snd r))
    = inr (200, JAttendance sid d (status_text st)).
Proof.
  intros Hr Hparse Hstatus Hold. cbv zeta.
  assert (Hrun : Api.update_attendance sid s (Some data) w =
    (inr (200, JAttendance sid d (status_text st)),
     mkWorld (mkDb (students (tables w))
                   (<[(sid, d) := status_text st]> (attendance (tables w))))
             None true
             (log w ++ [Connect true; Execute (SelectAttendance sid d); Close;
                        Connect true;
                        Execute (UpdateAttendance (PStr (status_text st)) sid d);
                        Commit; Close;
                        Connect true; Execute (SelectAttendance sid d); Close]))).
  { unfold Api.update_attendance. rewrite Hparse.
    unfold Api.dict_get, Api.subscript; unfold_py.
    rewrite get_attendance_up by done. unfold attendance_at. rewrite Hold.
    cbn [fmap option_fmap option_map]. rewrite Hstatus.
    cbn [default from_option id].
    rewrite update_attendance_run by done. cbv zeta.
    unfold sem_update_attendance. cbn [tables]. rewrite Hold, enum_col_status.
    rewrite get_attendance_up by done. unfold attendance_at.
    cbn [tables attendance]. rewrite lookup_insert_eq. by tidy_log. }
  rewrite Hrun. cbn [fst snd tables]. split; [done|]. split; [done|].
  rewrite (get_attendance_api_up _ sid s d) by done.
  unfold attendance_at. cbn [fst tables attendance].
  by rewrite lookup_insert_eq.
Qed.

Lemma put_attendance_then_get_witness :
  let d := Date 2024 1 10 in
  let w := world_of (mkDb {[ 1 := ("Ann", "5A") ]} {[ (1, d) := "Present" ]}) in
  let r := Api.update_attendance (E := strict_engine) 1 "2024-01-10"
             (body_of [("status", PStr "Absent")]) w in
  fst r = inr (200, JAttendance 1 d "Absent") /\
  fst (Api.get_attendance (E := strict_engine) 1 "2024-01-10" (snd r))
    = inr (200, JAttendance 1 d "Absent").
Proof.
  intros d w r.
  destruct (put_attendance_then_get (E := strict_engine) w 1 "2024-01-10" d
              (list_to_map [("status", PStr "Absent")]) Absent "Present")
    as (Hreply & _ & Hget).
  - reflexivity.
  - reflexivity.
  - reflexivity.
  - reflexivity.
  - split; [exact Hreply | exact Hget].
Defined.

(** DELETE /attendance/<student_id>/<date>, by whether the record exists. *)
Lemma delete_attendance_api_up {E : Engine} (w : World) (sid : Z)
    (s : string) (d : date) :
  reachable w = true ->
  strptime_ymd s = inr d ->
  Api.delete_attendance sid s w =
    match attendance (tables w) !! (sid, d) with
    | Some _ =>
        (inr (200, JMessage (AttendanceDeleted sid s)),
         mkWorld (mkDb (students (tables w))
                       (delete (sid, d) (attendance (tables w))))
                 None true
                 (log w ++ [Connect true; Execute (SelectAttendance sid d);
                            Close; Connect true;
                            Execute (DeleteAttendance sid d); Commit; Close]))
    | None =>
        (inr (404, JMessage RecordNotFound),
         mkWorld (tables w) None true
                 (log w ++ [Connect true; Execute (SelectAttendance sid d);
                            Close]))
    end.
Proof.
  intros Hr Hparse. unfold Api.delete_attendance. rewrite Hparse. unfold_py.
  rewrite get_attendance_up by done. unfold attendance_at.
  destruct (attendance (tables w) !! (sid, d)) as [old|];
    cbn [fmap option_fmap option_map]; [|done].
  rewrite delete_attendance_run by done. by tidy_log.
Qed.

(** X2.  DELETE /attendance/<student_id>/<date>: when the record exists the
    answer is 200, exactly that row is removed (every other row, and the
    students table, stay) and GET on the pair then answers 404; when it does
    not exist the answer is 404 and the tables are as they were. *)
Theorem delete_attendance_removes_that_row {E : Engine} (w : World) (sid : Z)
    (s : string) (d : date) :
  reachable w = true ->
  strptime_ymd s = inr d ->
  let r := Api.delete_attendance sid s w in
  match attendance (tables w) !! (sid, d) with
  | Some _ =>
      fst r = inr (200, JMessage (AttendanceDeleted sid s)) /\
      students (tables (snd r)) = students (tables w) /\
      attendance (tables (snd r)) = delete (sid, d) (attendance (tables w)) /\
      fst (Api.get_attendance sid s (snd r))
        = inr (404, JMessage AttendanceNotFound)
  | None =>
      fst r = inr (404, JMessage RecordNotFound) /\ tables (snd r) = tables w
  end.
Proof.
  intros Hr Hparse. cbv zeta.
  rewrite (delete_attendance_api_up w sid s d) by done.
  destruct (attendance (tables w) !! (sid, d)) as [old|]; [|done].
  cbn [fst snd tables students attendance]. do 3 (split; [done|]).
  rewrite (get_attendance_api_up _ sid s d) by done.
  unfold attendance_at. cbn [fst tables attendance].
  by rewrite lookup_delete_eq.
Qed.

Lemma delete_attendance_removes_that_row_witness :
  let d := Date 2024 1 10 in
  let w := world_of (mkDb {[ 1 := ("Ann", "5A") ]} {[ (1, d) := "Present" ]}) in
  let r := Api.delete_attendance (E := strict_engine) 1 "2024-01-10" w in
  fst r = inr (200, JMessage (AttendanceDeleted 1 "2024-01-10")) /\
  attendance (tables (snd r)) = delete (1, d) (attendance (tables w)).
Proof.
  intros d w r.
  destruct (delete_attendance_removes_that_row (E := strict_engine)
              w 1 "2024-01-10" d eq_refl eq_refl) as (Hreply & _ & Hrows & _).
  split; [exact Hreply | exact Hrows].
Defined.

(** X3.  Marking attendance and then deleting it gives back the tables one
    started from: POST /attendance for a student that exists and a day not
    yet recorded, followed by DELETE on the same pair, answers 201 and 200
    and leaves the committed tables as they were. *)
Theorem mark_then_delete_restores {E : Engine} (w : World)
    (data : gmap string pyval) (v : pyval) (s : string) (sid : Z) (d : date)
    (st : Status) (row : string * string) :
  reachable w = true ->
  wf_db (tables w) ->
  data !! "student_id" = Some v -> py_int v = inr sid ->
  data !! "date" = Some (PStr s) -> strptime_ymd s = inr d ->
  data !! "status" = Some (PStr (status_text st)) ->
  students (tables w) !! sid = Some row ->
  attendance (tables w) !! (sid, d) = None ->
  let marked := Api.mark_attendance (Some data) w in
  let deleted := Api.delete_attendance sid s (snd marked) in
  fst marked = inr (201, JAttendance sid d (status_text st)) /\
  fst deleted = inr (200, JMessage (AttendanceDeleted sid s)) /\
  tables (snd deleted) = tables w.
Proof.
  intros Hr [Hids _] Hid Hint Hdate Hparse Hstatus Hrow Hnone. cbv zeta.
  rewrite (post_attendance_up w data v s sid d st row)
    by eauto using int_col_in_range.
  rewrite Hnone. cbn [fst snd]. split; [done|].
  rewrite (delete_attendance_api_up _ sid s d) by done.
  cbn [tables attendance students]. rewrite lookup_insert_eq.
  cbn [fst snd tables]. split; [done|].
  rewrite delete_insert_id by done. by destruct (tables w).
Qed.

Lemma mark_then_delete_restores_witness :
  let w := world_of (mkDb {[ 1 := ("Ann", "5A") ]} ∅) in
  let marked := Api.mark_attendance (E := strict_engine)
                  (body_of [("student_id", PInt 1); ("date", PStr "2024-01-10");
                            ("status", PStr "Present")]) w in
  let deleted := Api.delete_attendance (E := strict_engine) 1 "2024-01-10"
                   (snd marked) in
  tables (snd deleted) = tables w.
Proof.
  intros w marked deleted.
  apply (mark_then_delete_restores (E := strict_engine) w
           (list_to_map [("student_id", PInt 1); ("date", PStr "2024-01-10");
                         ("status", PStr "Present")])
           (PInt 1) "2024-01-10" 1 (Date 2024 1 10) Present ("Ann", "5A")).
  - reflexivity.
  - apply wf_db_single. reflexivity.
  - reflexivity.
  - reflexivity.
  - reflexivity.
  - reflexivity.
  - reflexivity.
  - reflexivity.
  - reflexivity.
Defined.

(** ** Students: create and delete compose to nothing *)

(** DELETE /students/<sid> for a student that exists. *)
Lemma delete_student_api_up {E : Engine} (w : World) (sid : Z)
    (row : string * string) :
  reachable w = true ->
  students (tables w) !! sid = Some row ->
  Api.delete_student sid w =
    (inr (200, JMessage (StudentDeleted sid)),
     mkWorld (mkDb (delete sid (students (tables w)))
                   (attendance (sem_delete_attendance_of sid (tables w))))
             None true
             (log w ++ [Connect true; Execute (SelectStudent sid); Close;
                        Connect true; Execute (DeleteAttendanceOf sid);
                        Execute (DeleteStudent sid); Commit; Close])).
Proof.
  intros Hr Hrow. unfold Api.delete_student, Api.except_Exception; unfold_py.
  rewrite get_student_up by done. unfold student_at. rewrite Hrow.
  cbn [fmap option_fmap option_map].
  rewrite delete_student_run by done. by tidy_log.
Qed.

(** Without rows of the student there is nothing for the cascade to do. *)
Lemma delete_attendance_of_none (db : Db) (sid : Z) :
  (forall d, attendance db !! (sid, d) = None) ->
  attendance (sem_delete_attendance_of sid db) = attendance db.
Proof.
  intros Hnone. unfold sem_delete_attendance_of; simpl.
  apply map_filter_id. intros [s d] st Hrow; simpl. intros ->.
  by rewrite Hnone in Hrow.
Qed.

(** X4.  Creating a student and deleting it again gives back the tables one
    started from: on well-formed tables, POST /students with a new id (an
    INT, name and class within the column widths) followed by DELETE
    /students/<id> answers 201 and 200 and leaves the committed tables as
    they were. *)
Theorem create_then_delete_restores {E : Engine} (w : World)
    (data : gmap string pyval) (v : pyval) (sid : Z)
    (new_name new_class : string) :
  reachable w = true ->
  wf_db (tables w) ->
  data !! "id" = Some v -> py_int v = inr sid ->
  data !! "name" = Some (PStr new_name) ->
  data !! "class" = Some (PStr new_class) ->
  students (tables w) !! sid = None ->
  int_range sid = true ->
  (String.length new_name <= 100)%nat ->
  (String.length new_class <= 50)%nat ->
  let created := Api.create_student (Some data) w in
  let deleted := Api.delete_student sid (snd created) in
  fst created = inr (201, JStudent sid new_name new_class) /\
  fst deleted = inr (200, JMessage (StudentDeleted sid)) /\
  tables (snd deleted) = tables w.
Proof.
  intros Hr [_ Hfk] Hid Hint Hname Hclass Hfresh Hrange Hn Hc. cbv zeta.
  rewrite (create_student_created w data v _ _ sid new_name new_class)
    by eauto using int_col_in_range, varchar_col_fits.
  cbn [fst snd]. split; [done|].
  rewrite (delete_student_api_up _ sid (new_name, new_class))
    by (try done; apply lookup_insert_eq).
  cbn [fst snd tables students]. split; [done|].
  rewrite delete_insert_id by done.
  rewrite delete_attendance_of_none.
  - cbn [attendance]. by destruct (tables w).
  - intros d. cbn [attendance].
    destruct (attendance (tables w) !! (sid, d)) as [st|] eqn:Hrow; [|done].
    destruct (Hfk sid d st Hrow) as [r Hr']. congruence.
Qed.

Lemma create_then_delete_restores_witness :
  let w := world_of (mkDb {[ 1 := ("Ann", "5A") ]} ∅) in
  let created := Api.create_student (E := strict_engine)
                   (body_of [("id", PInt 2); ("name", PStr "Bob");
                             ("class", PStr "6B")]) w in
  let deleted := Api.delete_student (E := strict_engine) 2 (snd created) in
  tables (snd deleted) = tables w.
Proof.
  intros w created deleted.
  apply (create_then_delete_restores (E := strict_engine) w
           (list_to_map [("id", PInt 2); ("name", PStr "Bob");
                         ("class", PStr "6B")])
           (PInt 2) 2 "Bob" "6B").
  - reflexivity.
  - apply wf_db_single. reflexivity.
  - reflexivity.
  - reflexivity.
  - reflexivity.
  - reflexivity.
  - reflexivity.
  - reflexivity.
  - simpl. lia.
  - simpl. lia.
Defined.

(** ** What is answered before the store is asked *)

(** X5.  POST /students checks the body before anything else: without a
    body, or with an empty object, it answers 400 "No data provided";
    otherwise the first of id, name, class that is not a member of the body
    is reported with 400 "Missing required field"; in each case nothing is
    sent to the store. *)
Theorem create_student_body_checked {E : Engine} (w : World) :
  (forall data : Json,
     Api.falsy data = true ->
     Api.create_student data w = (inr (400, JError NoDataProvided), w)) /\
  (forall d : gmap string pyval,
     d <> ∅ -> d !! "id" = None ->
     Api.create_student (Some d) w = (inr (400, JError (MissingField "id")), w)) /\
  (forall (d : gmap string pyval) (v : pyval),
     d !! "id" = Some v -> d !! "name" = None ->
     Api.create_student (Some d) w
       = (inr (400, JError (MissingField "name")), w)) /\
  (forall (d : gmap string pyval) (v n : pyval),
     d !! "id" = Some v -> d !! "name" = Some n -> d !! "class" = None ->
     Api.create_student (Some d) w
       = (inr (400, JError (MissingField "class")), w)).
Proof.
  repeat split.
  - intros data Hfalsy. unfold Api.create_student. by rewrite Hfalsy.
  - intros d Hne Hid. unfold Api.create_student, Api.falsy.
    rewrite bool_decide_eq_false_2 by done. simpl default.
    unfold Api.first_missing. by rewrite !filter_cons, filter_nil, Hid.
  - intros d v Hid Hname. unfold Api.create_student.
    rewrite (falsy_object d "id" v) by done. simpl default.
    unfold Api.first_missing. by rewrite !filter_cons, filter_nil, Hid, Hname.
  - intros d v n Hid Hname Hclass. unfold Api.create_student.
    rewrite (falsy_object d "id" v) by done. simpl default.
    unfold Api.first_missing.
    by rewrite !filter_cons, filter_nil, Hid, Hname, Hclass.
Qed.

(** X6.  POST /students with all three members present but an id that
    [int] does not take: a text that is not an integer is answered 400 "ID
    must be a valid integer"; a null id raises TypeError, which only the
    outer handler catches, and is answered 500.  Nothing is sent to the
    store in either case. *)
Theorem create_student_id_checked {E : Engine} (w : World)
    (d : gmap string pyval) (v n c : pyval) (e : exn) :
  d !! "id" = Some v -> d !! "name" = Some n -> d !! "class" = Some c ->
  py_int v = inl e ->
  Api.create_student (Some d) w =
    (inr (if is_ValueError e then (400, JError IdNotInteger)
          else (500, JError (StrOf e))), w) /\
  (v = PNone -> e = TypeError).
Proof.
  intros Hid Hname Hclass Hint. split.
  - unfold Api.create_student. rewrite (falsy_object d "id" v) by done.
    simpl default. rewrite first_missing_none by (repeat constructor; eauto).
    rewrite !(item_lookup d _ _ Hid), Hint.
    unfold Api.except_Exception; unfold_py. by destruct e.
  - intros ->. simpl in Hint. congruence.
Qed.

Lemma create_student_id_checked_witness :
  let w := world_of empty_db in
  Api.create_student (E := strict_engine)
    (body_of [("id", PStr "seven"); ("name", PStr "Ann"); ("class", PStr "5A")]) w
    = (inr (400, JError IdNotInteger), w) /\
  Api.create_student (E := strict_engine)
    (body_of [("id", PNone); ("name", PStr "Ann"); ("class", PStr "5A")]) w
    = (inr (500, JError (StrOf TypeError)), w).
Proof.
  intros w. split.
  - apply (create_student_id_checked (E := strict_engine) w
             (list_to_map [("id", PStr "seven"); ("name", PStr "Ann");
                           ("class", PStr "5A")])
             (PStr "seven") (PStr "Ann") (PStr "5A") ValueError);
      reflexivity.
  - apply (create_student_id_checked (E := strict_engine) w
             (list_to_map [("id", PNone); ("name", PStr "Ann");
                           ("class", PStr "5A")])
             PNone (PStr "Ann") (PStr "5A") TypeError);
      reflexivity.
Defined.

Lemma create_student_body_checked_witness :
  let w := world_of empty_db in
  Api.create_student (E := strict_engine) (body_of []) w
    = (inr (400, JError NoDataProvided), w) /\
  Api.create_student (E := strict_engine)
    (body_of [("id", PInt 1); ("class", PStr "5A")]) w
    = (inr (400, JError (MissingField "name")), w).
Proof.
  intros w.
  destruct (create_student_body_checked (E := strict_engine) w)
    as (Hnone & _ & Hname & _).
  split.
  - apply Hnone. reflexivity.
  - apply (Hname _ (PInt 1)); reflexivity.
Defined.

(** X7.  POST /attendance with its three members present checks them in the
    order student_id, date, status, and turns to the store only when all
    three pass: a student_id [int] refuses, then a date that is no text or
    that [strptime] refuses, then a status other than the two texts, is
    answered 400 with nothing sent to the store.  A null student_id is
    answered 400 here (the inner handler catches every exception), where
    POST /students answers 500. *)
Theorem mark_attendance_fields_checked {E : Engine} (w : World)
    (d : gmap string pyval) (v dv sv : pyval) :
  d !! "student_id" = Some v -> d !! "date" = Some dv ->
  d !! "status" = Some sv ->
  let bad e := if is_ValueError e then InvalidDataFormat e else StrOf e in
  (forall e, py_int v = inl e ->
     Api.mark_attendance (Some d) w = (inr (400, JError (bad e)), w)) /\
  (forall sid e, py_int v = inr sid -> Api.strptime dv = inl e ->
     Api.mark_attendance (Some d) w = (inr (400, JError (bad e)), w)) /\
  (forall sid day, py_int v = inr sid -> Api.strptime dv = inr day ->
     Api.status_allowed sv = false ->
     Api.mark_attendance (Some d) w = (inr (400, JError StatusNotAllowed), w)) /\
  (log (snd (Api.mark_attendance (Some d) w)) <> log w ->
   exists sid day,
     py_int v = inr sid /\ Api.strptime dv = inr day /\
     Api.status_allowed sv = true).
Proof.
  intros Hid Hdate Hstatus. cbv zeta.
  assert (Hopen : Api.mark_attendance (Some d) w =
    match py_int v with
    | inl e => (inr (400, JError (if is_ValueError e then InvalidDataFormat e
                                  else StrOf e)), w)
    | inr sid =>
        match Api.strptime dv with
        | inl e => (inr (400, JError (if is_ValueError e
                                      then InvalidDataFormat e
                                      else StrOf e)), w)
        | inr day =>
            if Api.status_allowed sv
            then Api.mark_attendance (Some d) w
            else (inr (400, JError StatusNotAllowed), w)
        end
    end).
  { destruct (py_int v) as [e|sid] eqn:Hint.
    - unfold Api.mark_attendance. rewrite (falsy_object d "date" dv) by done.
      simpl default. rewrite first_missing_none by (repeat constructor; eauto).
      rewrite !(item_lookup d _ _ Hid), Hint.
      unfold Api.except_Exception; unfold_py. by destruct e.
    - destruct (Api.strptime dv) as [e|day] eqn:Hparse.
      + unfold Api.mark_attendance. rewrite (falsy_object d "date" dv) by done.
        simpl default. rewrite first_missing_none by (repeat constructor; eauto).
        rewrite !(item_lookup d _ _ Hid), !(item_lookup d _ _ Hdate),
          Hint, Hparse.
        unfold Api.except_Exception; unfold_py. by destruct e.
      + destruct (Api.status_allowed sv) eqn:Hallowed; [done|].
        unfold Api.mark_attendance. rewrite (falsy_object d "date" dv) by done.
        simpl default. rewrite first_missing_none by (repeat constructor; eauto).
        rewrite !(item_lookup d _ _ Hid), !(item_lookup d _ _ Hdate),
          !(item_lookup d _ _ Hstatus), Hint, Hparse, Hallowed.
        by unfold Api.except_Exception; unfold_py. }
  split; [|split; [|split]].
  - intros e Hint. by rewrite Hopen, Hint.
  - intros sid e Hint Hparse. by rewrite Hopen, Hint, Hparse.
  - intros sid day Hint Hparse Hallowed.
    by rewrite Hopen, Hint, Hparse, Hallowed.
  - intros Hlog. rewrite Hopen in Hlog.
    destruct (py_int v) as [e|sid]; [done|].
    destruct (Api.strptime dv) as [e|day]; [done|].
    destruct (Api.status_allowed sv); [eauto|done].
Qed.

Lemma mark_attendance_fields_checked_witness :
  let w := world_of (mkDb {[ 1 := ("Ann", "5A") ]} ∅) in
  Api.mark_attendance (E := strict_engine)
    (body_of [("student_id", PNone); ("date", PStr "2024-01-10");
              ("status", PStr "Present")]) w
    = (inr (400, JError (StrOf TypeError)), w) /\
  Api.mark_attendance (E := strict_engine)
    (body_of [("student_id", PInt 1); ("date", PStr "2024-01-10");
              ("status", PStr "Late")]) w
    = (inr (400, JError StatusNotAllowed), w).
Proof.
  intros w. split.
  - pose proof (mark_attendance_fields_checked (E := strict_engine) w
                  (list_to_map [("student_id", PNone);
                                ("date", PStr "2024-01-10");
                                ("status", PStr "Present")])
                  PNone (PStr "2024-01-10") (PStr "Present")) as Hchecked.
    cbv zeta in Hchecked. destruct Hchecked as (Hint & _).
    + reflexivity.
    + reflexivity.
    + reflexivity.
    + apply (Hint TypeError). reflexivity.
  - pose proof (mark_attendance_fields_checked (E := strict_engine) w
                  (list_to_map [("student_id", PInt 1);
                                ("date", PStr "2024-01-10");
                                ("status", PStr "Late")])
                  (PInt 1) (PStr "2024-01-10") (PStr "Late")) as Hchecked.
    cbv zeta in Hchecked. destruct Hchecked as (_ & _ & Hstatus & _).
    + reflexivity.
    + reflexivity.
    + reflexivity.
    + apply (Hstatus 1 (Date 2024 1 10)); reflexivity.
Defined.

(** ** Every request is answered *)

Ltac known_code := simpl; repeat constructor.

Lemma replies_ret (reply : Response) :
  reply.1 ∈ reply_codes -> replies_known (ret reply).
Proof. intros Hcode w r [= <-]. done. Qed.

Lemma replies_raise (e : exn) : replies_known (raise e).
Proof. intros w r Hr. discriminate Hr. Qed.

Lemma replies_bind {A} (m : M A) (k : A -> M Response) :
  (forall a, replies_known (k a)) -> replies_known (bind m k).
Proof.
  intros Hk w r. unfold bind. destruct (m w) as [[e|a] w1]; [done|].
  apply Hk.
Qed.

Lemma replies_try_except (body : M Response)
    (handler : exn -> option (M Response)) :
  replies_known body ->
  (forall e h, handler e = Some h -> replies_known h) ->
  replies_known (try_except body handler).
Proof.
  intros Hbody Hhandler w r. unfold try_except.
  pose proof (Hbody w) as Hw. destruct (body w) as [[e|a] w1].
  - destruct (handler e) as [h|] eqn:Hh; [|done]. by eapply Hhandler.
  - simpl. intros [= <-]. by apply Hw.
Qed.

(** A [try] whose [except] clauses catch every exception and return. *)
Lemma try_except_answers (body : M Response)
    (handler : exn -> option (M Response)) (w : World) :
  (forall e, exists reply, handler e = Some (ret reply)) ->
  exists reply, fst (try_except body handler w) = inr reply.
Proof.
  intros Hall. unfold try_except. destruct (body w) as [[e|a] w1]; [|eauto].
  destruct (Hall e) as [reply ->]. by exists reply.
Qed.

Ltac replies_step :=
  match goal with
  | |- replies_known (bind _ _) => apply replies_bind; intros ?
  | |- replies_known (try_except _ _) =>
      apply replies_try_except; [|intros ? ? ?]
  | |- replies_known (ret _) => apply replies_ret; known_code
  | |- replies_known (raise _) => apply replies_raise
  | |- replies_known (match ?x with _ => _ end) => destruct x
  | |- replies_known (let _ := _ in _) => cbv zeta
  | H : Some _ = Some _ |- _ => injection H as <-
  | H : None = Some _ |- _ => discriminate H
  | H : match ?x with _ => _ end = Some _ |- _ => destruct x
  | H : Api.except_Exception _ _ = Some _ |- _ =>
      unfold Api.except_Exception in H
  end.

(** X8.  No handler lets an exception escape: whatever the request, the
    state of the tables and the reachability of the store, the handler
    returns a reply, and its code is one of 200, 201, 400, 404 and 500. *)
Theorem handle_always_answers {E : Engine} (r : Request) (w : World) :
  exists (code : Z) (body : Body),
    fst (handle r w) = inr (code, body) /\ code ∈ reply_codes.
Proof.
  assert (Hanswers : exists reply, fst (handle r w) = inr reply).
  { destruct r; simpl; apply try_except_answers; intros e;
      unfold Api.except_Exception; try destruct (is_ValueError e); eauto. }
  assert (Hknown : replies_known (handle r)).
  { destruct r; simpl.
    - unfold Api.list_students. repeat replies_step.
    - (* the reply of the inner [except ValueError] is passed on as it is *)
      unfold Api.create_student. apply replies_try_except;
        [|intros e h [= <-]; apply replies_ret; known_code].
      destruct (Api.falsy data); [apply replies_ret; known_code|].
      cbv zeta. destruct (Api.first_missing _ _);
        [apply replies_ret; known_code|].
      intros w' reply. unfold bind at 1, try_except at 1.
      unfold bind at 1, lift.
      destruct (py_int _) as [e|sid].
      + destruct (is_ValueError e); [|done]. unfold ret at 1.
        apply replies_ret. known_code.
      + unfold ret at 1. revert w' reply.
        match goal with
        | |- forall w' reply, fst (?m w') = inr reply -> _ =>
            change (replies_known m)
        end.
        repeat replies_step.
    - unfold Api.read_student. repeat replies_step.
    - unfold Api.update_student. repeat replies_step.
    - unfold Api.delete_student. repeat replies_step.
    - unfold Api.list_all_attendance. repeat replies_step.
    - unfold Api.mark_attendance. repeat replies_step.
    - unfold Api.get_attendance. repeat replies_step.
    - unfold Api.list_attendance_for_student. repeat replies_step.
    - unfold Api.update_attendance. repeat replies_step.
    - unfold Api.delete_attendance. repeat replies_step. }
  destruct Hanswers as [[code body] Hreply]. exists code, body.
  split; [done|]. by apply (Hknown w (code, body)).
Qed.

(** ** What a request leaves alone *)

#[export] Instance same_tables_preorder : PreOrder same_tables.
Proof.
  split; [by intros w|]. intros w1 w2 w3 H12 H23. unfold same_tables in *.
  congruence.
Qed.

#[export] Instance students_kept_preorder : PreOrder students_kept.
Proof.
  split; [by intros w Hw|]. intros w1 w2 w3 H12 H23 Hw.
  destruct (H12 Hw) as [Hw2 Heq2]. destruct (H23 Hw2) as [Hw3 Heq3].
  split; [done|congruence].
Qed.

#[export] Instance attendance_kept_preorder : PreOrder attendance_kept.
Proof.
  split; [by intros w Hw|]. intros w1 w2 w3 H12 H23 Hw.
  destruct (H12 Hw) as [Hw2 Heq2]. destruct (H23 Hw2) as [Hw3 Heq3].
  split; [done|congruence].
Qed.

Section Respects.
Context (R : relation World) `{!PreOrder R}.

Lemma respects_ret {A} (a : A) : respects R (ret a).
Proof. intros w. simpl. reflexivity. Qed.

Lemma respects_raise {A} (e : exn) : respects R (raise (A := A) e).
Proof. intros w. simpl. reflexivity. Qed.

Lemma respects_lift {A} (r : exn + A) : respects R (lift r).
Proof. intros w. simpl. reflexivity. Qed.

Lemma respects_bind {A B} (m : M A) (k : A -> M B) :
  respects R m -> (forall a, respects R (k a)) -> respects R (bind m k).
Proof.
  intros Hm Hk w. unfold bind. specialize (Hm w).
  destruct (m w) as [[e|a] w1]; [done|].
  simpl in Hm. etrans; [exact Hm|]. apply Hk.
Qed.

Lemma respects_try_except {A} (body : M A) (handler : exn -> option (M A)) :
  respects R body ->
  (forall e h, handler e = Some h -> respects R h) ->
  respects R (try_except body handler).
Proof.
  intros Hbody Hhandler w. unfold try_except. specialize (Hbody w).
  destruct (body w) as [[e|a] w1]; [|done].
  destruct (handler e) as [h|] eqn:Hh; [|done].
  simpl in Hbody. etrans; [exact Hbody|]. by eapply Hhandler.
Qed.

Lemma respects_try_finally {A} (body : M A) (fin : M unit) :
  respects R body -> respects R fin -> respects R (try_finally body fin).
Proof.
  intros Hbody Hfin w. unfold try_finally. specialize (Hbody w).
  destruct (body w) as [r w1]. specialize (Hfin w1).
  destruct (fin w1) as [[e|u] w2]; simpl in *; by etrans.
Qed.

Lemma respects_cursor (conn : option Conn) : respects R (cursor conn).
Proof. destruct conn; [apply respects_ret | apply respects_raise]. Qed.

Lemma respects_subscript {A} (row : option A) : respects R (Api.subscript row).
Proof. destruct row; [apply respects_ret | apply respects_raise]. Qed.

Lemma respects_dict_get (data : Json) (k : string) :
  respects R (Api.dict_get data k).
Proof. destruct data; [apply respects_ret | apply respects_raise]. Qed.
End Respects.

Lemma run_stmt_keeps_students {E : Engine} (s : Stmt) (db db' : Db)
    (rows : Rows) :
  writes_students s = false ->
  run_stmt s db = inr (rows, db') -> students db' = students db.
Proof.
  intros Hs Hrun.
  destruct s as [sid|sid| |sid n c|n c sid|sid|sid d|sid d|sid
                |sid d status|status sid d|sid d|sid| ];
    try discriminate Hs; simpl in Hrun; try (by inversion Hrun).
  - unfold no_rows, sem_insert_attendance in Hrun.
    repeat case_match; simplify_eq/=; done.
  - unfold no_rows, sem_update_attendance in Hrun.
    repeat case_match; simplify_eq/=; done.
Qed.

Lemma run_stmt_keeps_attendance {E : Engine} (s : Stmt) (db db' : Db)
    (rows : Rows) :
  writes_attendance s = false ->
  run_stmt s db = inr (rows, db') -> attendance db' = attendance db.
Proof.
  intros Hs Hrun.
  destruct s as [sid|sid| |sid n c|n c sid|sid|sid d|sid d|sid
                |sid d status|status sid d|sid d|sid| ];
    try discriminate Hs; simpl in Hrun; try (by inversion Hrun).
  - unfold no_rows, sem_insert_student in Hrun.
    repeat case_match; simplify_eq/=; done.
  - unfold no_rows, sem_update_student in Hrun.
    repeat case_match; simplify_eq/=; done.
  - unfold no_rows, sem_delete_student in Hrun.
    repeat case_match; simplify_eq/=; done.
Qed.

Section Primitives.
Context {E : Engine}.

Lemma same_tables_emit (e : Event) : respects same_tables (emit e).
Proof. by intros w. Qed.

Lemma same_tables_connect_db :
  respects same_tables AttendanceSystem.connect_db.
Proof.
  intros w. unfold AttendanceSystem.connect_db. by destruct (reachable w).
Qed.

Lemma same_tables_disconnect_db (conn : option Conn) :
  respects same_tables (AttendanceSystem.disconnect_db conn).
Proof. by destruct conn; intros w. Qed.

(** Running a statement changes what the connection sees, never what is
    committed. *)
Lemma same_tables_execute (s : Stmt) : respects same_tables (execute s).
Proof.
  intros w. unfold execute, bind, emit; simpl.
  destruct (txn w) as [view|]; [|done].
  by destruct (run_stmt s view) as [err|[rows view']].
Qed.

Lemma same_tables_rollback : respects same_tables rollback.
Proof. by intros w. Qed.

Lemma students_kept_emit (e : Event) : respects students_kept (emit e).
Proof. by intros w Hw. Qed.

Lemma students_kept_connect_db :
  respects students_kept AttendanceSystem.connect_db.
Proof.
  intros w Hw. unfold AttendanceSystem.connect_db.
  destruct (reachable w); simpl; split; try done. by intros view [= <-].
Qed.

Lemma students_kept_disconnect_db (conn : option Conn) :
  respects students_kept (AttendanceSystem.disconnect_db conn).
Proof. destruct conn; intros w Hw; simpl; by split. Qed.

Lemma students_kept_execute (s : Stmt) :
  writes_students s = false -> respects students_kept (execute s).
Proof.
  intros Hs w Hw. unfold execute, bind, emit; simpl.
  destruct (txn w) as [view|] eqn:Htxn; simpl; [|by split].
  destruct (run_stmt s view) as [err|[rows view']] eqn:Hrun; simpl.
  - split; [|done]. intros v [= <-]. by apply Hw.
  - split; [|done]. intros v [= <-].
    rewrite (run_stmt_keeps_students s view view' rows) by done. by apply Hw.
Qed.

Lemma students_kept_commit : respects students_kept commit.
Proof.
  intros w Hw. unfold commit, bind, emit; simpl.
  destruct (txn w) as [view|] eqn:Htxn; simpl.
  - split; [by intros v [= <-]|]. by apply Hw.
  - by split.
Qed.

Lemma students_kept_rollback : respects students_kept rollback.
Proof. intros w Hw. simpl. split; [|done]. by intros view [= <-]. Qed.

Lemma attendance_kept_emit (e : Event) : respects attendance_kept (emit e).
Proof. by intros w Hw. Qed.

Lemma attendance_kept_connect_db :
  respects attendance_kept AttendanceSystem.connect_db.
Proof.
  intros w Hw. unfold AttendanceSystem.connect_db.
  destruct (reachable w); simpl; split; try done. by intros view [= <-].
Qed.

Lemma attendance_kept_disconnect_db (conn : option Conn) :
  respects attendance_kept (AttendanceSystem.disconnect_db conn).
Proof. destruct conn; intros w Hw; simpl; by split. Qed.

Lemma attendance_kept_execute (s : Stmt) :
  writes_attendance s = false -> respects attendance_kept (execute s).
Proof.
  intros Hs w Hw. unfold execute, bind, emit; simpl.
  destruct (txn w) as [view|] eqn:Htxn; simpl; [|by split].
  destruct (run_stmt s view) as [err|[rows view']] eqn:Hrun; simpl.
  - split; [|done]. intros v [= <-]. by apply Hw.
  - split; [|done]. intros v [= <-].
    rewrite (run_stmt_keeps_attendance s view view' rows) by done. by apply Hw.
Qed.

Lemma attendance_kept_commit : respects attendance_kept commit.
Proof.
  intros w Hw. unfold commit, bind, emit; simpl.
  destruct (txn w) as [view|] eqn:Htxn; simpl.
  - split; [by intros v [= <-]|]. by apply Hw.
  - by split.
Qed.

Lemma attendance_kept_rollback : respects attendance_kept rollback.
Proof. intros w Hw. simpl. split; [|done]. by intros view [= <-]. Qed.
End Primitives.

Create HintDb respects.
#[export] Hint Resolve same_tables_emit same_tables_connect_db same_tables_disconnect_db
  same_tables_execute same_tables_rollback
  students_kept_emit students_kept_connect_db students_kept_disconnect_db
  students_kept_commit students_kept_rollback
  attendance_kept_emit attendance_kept_connect_db
  attendance_kept_disconnect_db attendance_kept_commit
  attendance_kept_rollback : respects.

Ltac respects_step :=
  match goal with
  | |- respects _ (bind _ _) => apply respects_bind; [apply _| |intros ?]
  | |- respects _ (try_except _ _) =>
      apply respects_try_except; [apply _| |intros ? ? ?]
  | |- respects _ (try_finally _ _) => apply respects_try_finally; [apply _| |]
  | |- respects _ (ret _) => apply respects_ret; apply _
  | |- respects _ (raise _) => apply respects_raise; apply _
  | |- respects _ (lift _) => apply respects_lift; apply _
  | |- respects _ (cursor _) => apply respects_cursor; apply _
  | |- respects _ (Api.subscript _) => apply respects_subscript; apply _
  | |- respects _ (Api.dict_get _ _) => apply respects_dict_get; apply _
  | |- respects students_kept (execute _) =>
      apply students_kept_execute; reflexivity
  | |- respects attendance_kept (execute _) =>
      apply attendance_kept_execute; reflexivity
  | |- respects _ (match ?x with _ => _ end) => destruct x
  | |- respects _ (let _ := _ in _) => cbv zeta
  | H : Some _ = Some _ |- _ => injection H as <-
  | H : None = Some _ |- _ => discriminate H
  | H : match ?x with _ => _ end = Some _ |- _ => destruct x
  | H : AttendanceSystem.except_pymysql_Error _ = Some _ |- _ =>
      unfold AttendanceSystem.except_pymysql_Error in H
  | H : Api.except_Exception _ _ = Some _ |- _ =>
      unfold Api.except_Exception in H
  | |- respects _ _ => solve [auto with respects]
  end.

Ltac respects_all := repeat respects_step.

Ltac unfold_repository :=
  unfold AttendanceSystem.add_student, AttendanceSystem.update_student,
    AttendanceSystem.delete_student, AttendanceSystem.get_student,
    AttendanceSystem.list_students, AttendanceSystem.mark_attendance,
    AttendanceSystem.update_attendance, AttendanceSystem.delete_attendance,
    AttendanceSystem.get_attendance,
    AttendanceSystem.list_attendance_by_student,
    AttendanceSystem.list_all_attendance.

Ltac unfold_handlers :=
  unfold Api.list_students, Api.create_student, Api.read_student,
    Api.update_student, Api.delete_student, Api.list_all_attendance,
    Api.mark_attendance, Api.get_attendance, Api.list_attendance_for_student,
    Api.update_attendance, Api.delete_attendance.

(** X9.  A GET request never commits: whatever the tables, the open
    connection and the reachability of the store, the committed tables after
    GET /students, /students/<id>, /attendance, /attendance/<id>/<date> and
    /attendance/student/<id> are the tables before. *)
Theorem get_requests_read_only {E : Engine} (r : Request) (w : World) :
  method r = GET -> tables (snd (handle r w)) = tables w.
Proof.
  intros Hget. assert (Hr : respects same_tables (handle r)); [|apply Hr].
  destruct r; try discriminate Hget; simpl;
    unfold_handlers; unfold_repository; respects_all.
Qed.

Lemma get_requests_read_only_witness :
  let w := world_of (mkDb {[ 1 := ("Ann", "5A") ]} ∅) in
  tables (snd (handle (E := strict_engine) (GET_student 1) w)) = tables w.
Proof.
  intros w. apply (get_requests_read_only (E := strict_engine)). reflexivity.
Defined.

(** X10.  The routes under /attendance never change the students table:
    from a world where nothing is pending, after POST /attendance and after
    GET, PUT and DELETE on any attendance route the students table is the
    one before, whatever the request carries and whether it succeeds. *)
Theorem attendance_routes_keep_students {E : Engine} (r : Request) (w : World) :
  under_students r = false ->
  nothing_pending w ->
  students (tables (snd (handle r w))) = students (tables w).
Proof.
  intros Hroute Hw.
  assert (Hr : respects students_kept (handle r)).
  { destruct r; try discriminate Hroute; simpl;
      unfold_handlers; unfold_repository; respects_all. }
  apply Hr. intros view Hview. by rewrite (Hw view Hview).
Qed.

Lemma attendance_routes_keep_students_witness :
  let w := world_of (mkDb {[ 1 := ("Ann", "5A") ]} ∅) in
  let r := POST_attendance (body_of [("student_id", PInt 1);
                                     ("date", PStr "2024-01-10");
                                     ("status", PStr "Present")]) in
  students (tables (snd (handle (E := strict_engine) r w))) = students (tables w).
Proof.
  intros w r. apply (attendance_routes_keep_students (E := strict_engine)).
  - reflexivity.
  - intros view Hview. discriminate Hview.
Defined.

(** X11.  Creating, reading and updating students never changes the
    attendance table: from a world where nothing is pending, after any
    request under /students other than DELETE the attendance table is the
    one before. *)
Theorem student_writes_keep_attendance {E : Engine} (r : Request) (w : World) :
  under_students r = true ->
  method r <> DELETE ->
  nothing_pending w ->
  attendance (tables (snd (handle r w))) = attendance (tables w).
Proof.
  intros Hroute Hmethod Hw.
  assert (Hr : respects attendance_kept (handle r)).
  { destruct r; try discriminate Hroute; try (by destruct Hmethod); simpl;
      unfold_handlers; unfold_repository; respects_all. }
  apply Hr. intros view Hview. by rewrite (Hw view Hview).
Qed.

Lemma student_writes_keep_attendance_witness :
  let d := Date 2024 1 10 in
  let w := world_of (mkDb {[ 1 := ("Ann", "5A") ]} {[ (1, d) := "Present" ]}) in
  let r := PUT_student 1 (body_of [("name", PStr "Bob"); ("class", PStr "6B")]) in
  attendance (tables (snd (handle (E := strict_engine) r w)))
    = attendance (tables w).
Proof.
  intros d w r. apply (student_writes_keep_attendance (E := strict_engine)).
  - reflexivity.
  - discriminate.
  - intros view Hview. discriminate Hview.
Defined.

(** ** Nothing is left pending *)

#[export] Instance pending_kept_preorder : PreOrder pending_kept.
Proof.
  split; [by intros w Hw|]. intros w1 w2 w3 H12 H23 Hw. by apply H23, H12.
Qed.

Lemma run_stmt_read {E : Engine} (s : Stmt) (db db' : Db) (rows : Rows) :
  writes_students s = false -> writes_attendance s = false ->
  run_stmt s db = inr (rows, db') -> db' = db.
Proof.
  intros Hs Ha Hrun.
  pose proof (run_stmt_keeps_students s db db' rows Hs Hrun) as Hst.
  pose proof (run_stmt_keeps_attendance s db db' rows Ha Hrun) as Hat.
  destruct db, db'; simpl in *. congruence.
Qed.

Section Pending.
Context {E : Engine}.

Lemma pending_kept_emit (e : Event) : respects pending_kept (emit e).
Proof. by intros w Hw. Qed.

Lemma pending_kept_connect_db :
  respects pending_kept AttendanceSystem.connect_db.
Proof.
  intros w Hw. unfold AttendanceSystem.connect_db.
  destruct (reachable w); simpl; [|done]. by intros view [= <-].
Qed.

Lemma pending_kept_disconnect_db (conn : option Conn) :
  respects pending_kept (AttendanceSystem.disconnect_db conn).
Proof. destruct conn; intros w Hw; simpl; done. Qed.

Lemma pending_kept_rollback : respects pending_kept rollback.
Proof. intros w Hw. simpl. by intros view [= <-]. Qed.

Lemma pending_kept_read (s : Stmt) :
  writes_students s = false -> writes_attendance s = false ->
  respects pending_kept (execute s).
Proof.
  intros Hs Ha w Hw. unfold execute, bind, emit; simpl.
  destruct (txn w) as [view|] eqn:Htxn; simpl; [|done].
  destruct (run_stmt s view) as [err|[rows view']] eqn:Hrun; simpl.
  - intros v [= <-]. by apply Hw.
  - intros v [= <-]. rewrite (run_stmt_read s view view' rows) by done.
    by apply Hw.
Qed.

(** A statement followed at once by [commit]: refused, it changes nothing;
    accepted, it is committed. *)
Lemma pending_kept_write {A} (s : Stmt) (k : unit -> M A) :
  (forall u, respects pending_kept (k u)) ->
  respects pending_kept (bind (execute s) (fun _ => bind commit k)).
Proof.
  intros Hk w Hw. unfold execute, commit, bind, emit; simpl.
  destruct (txn w) as [view|] eqn:Htxn; simpl; [|done].
  destruct (run_stmt s view) as [err|[rows view']] eqn:Hrun; simpl.
  - intros v [= <-]. by apply Hw.
  - apply Hk. simpl. by intros v [= <-].
Qed.

Lemma pending_kept_delete_student (sid : Z) :
  respects pending_kept (AttendanceSystem.delete_student sid).
Proof.
  intros w Hw. destruct (reachable w) eqn:Hr.
  - rewrite delete_student_run by done. simpl. by intros view.
  - destruct w as [tb tx up lg]; simpl in *; subst.
    unfold AttendanceSystem.delete_student; unfold_py; simpl. done.
Qed.
End Pending.

#[export] Hint Resolve pending_kept_emit pending_kept_connect_db
  pending_kept_disconnect_db pending_kept_rollback
  pending_kept_delete_student : respects.

Ltac pending_step :=
  match goal with
  | |- respects pending_kept (bind (execute _) (fun _ => bind commit _)) =>
      apply pending_kept_write; intros ?
  | |- respects pending_kept (execute _) =>
      apply pending_kept_read; reflexivity
  | |- _ => respects_step
  end.

(** X12.  A request is all or nothing: if nothing is pending before a
    request (an open connection, if one was left open, sees the committed
    tables), nothing is pending after it, whatever the request and whether
    the server accepts its statements; and so after any run of requests. *)
Theorem requests_leave_nothing_pending {E : Engine} (rs : list Request)
    (w : World) :
  nothing_pending w -> nothing_pending (serve rs w).
Proof.
  assert (Hone : forall r, respects pending_kept (handle r)).
  { intros r. destruct r; simpl; unfold_handlers;
      unfold AttendanceSystem.add_student, AttendanceSystem.update_student,
        AttendanceSystem.get_student,
        AttendanceSystem.list_students, AttendanceSystem.mark_attendance,
        AttendanceSystem.update_attendance, AttendanceSystem.delete_attendance,
        AttendanceSystem.get_attendance,
        AttendanceSystem.list_attendance_by_student,
        AttendanceSystem.list_all_attendance;
      repeat pending_step. }
  revert w. induction rs as [|r rs IH]; intros w Hw; simpl; [done|].
  apply IH. by apply Hone.
Qed.

Lemma requests_leave_nothing_pending_witness :
  nothing_pending
    (serve (E := strict_engine)
       [POST_students (body_of [("id", PInt 1); ("name", PStr "Ann");
                                ("class", PStr "5A")]);
        PUT_student 1 (body_of [("name", PStr "Bob")])]
       (world_of empty_db)).
Proof.
  apply (requests_leave_nothing_pending (E := strict_engine)).
  intros view Hview. discriminate Hview.
Defined.

(** ** When the store cannot be reached *)

(** X13.  With the store unreachable no request changes the tables, and the
    one failure is reported under three different codes: updating or
    deleting a student answers 404 "Student not found"; creating a student
    with a well-formed body answers 400 "Failed to connect to database";
    updating an attendance record answers 400; reading all attendance,
    reading a student's attendance, reading and deleting an attendance
    record answer 500 (the repository calls [cursor] on [None]). *)
Theorem unreachable_store_answers {E : Engine} (w : World) :
  reachable w = false ->
  (forall r, tables (snd (handle r w)) = tables w) /\
  (forall sid data,
     fst (handle (PUT_student sid data) w)
       = inr (404, JMessage StudentNotFound)) /\
  (forall sid,
     fst (handle (DELETE_student sid) w) = inr (404, JMessage StudentNotFound)) /\
  (forall (d : gmap string pyval) (v n c : pyval) (sid : Z),
     d !! "id" = Some v -> d !! "name" = Some n -> d !! "class" = Some c ->
     py_int v = inr sid ->
     fst (handle (POST_students (Some d)) w)
       = inr (400, JError (StrOf (PyException FailedToConnect)))) /\
  fst (handle GET_attendance w) = inr (500, JError (StrOf AttributeError)) /\
  (forall sid,
     fst (handle (GET_attendance_student sid) w)
       = inr (500, JError (StrOf AttributeError))) /\
  (forall sid s d data,
     strptime_ymd s = inr d ->
     fst (handle (GET_attendance_day sid s) w)
       = inr (500, JError (StrOf AttributeError)) /\
     fst (handle (PUT_attendance_day sid s data) w)
       = inr (400, JError (StrOf AttributeError)) /\
     fst (handle (DELETE_attendance_day sid s) w)
       = inr (500, JError (StrOf AttributeError))).
Proof.
  intros Hdown. destruct w as [tb tx up lg]; simpl in Hdown; subst.
  split; [|split; [|split; [|split; [|split; [|split]]]]].
  - intros r. destruct r; simpl; unfold_handlers; unfold_repository;
      unfold Api.except_Exception, Api.subscript, Api.dict_get; unfold_py;
      simpl;
      repeat (match goal with
              | |- context [Api.falsy ?x] => destruct (Api.falsy x)
              | |- context [Api.first_missing ?x ?y] =>
                  destruct (Api.first_missing x y)
              | |- context [py_int ?x] => destruct (py_int x) as [[]|]
              | |- context [strptime_ymd ?x] =>
                  destruct (strptime_ymd x) as [[]|]
              | |- context [Api.strptime ?x] =>
                  destruct (Api.strptime x) as [[]|]
              | |- context [Api.status_allowed ?x] =>
                  destruct (Api.status_allowed x)
              end; simpl);
      done.
  - intros sid data. simpl. unfold_handlers; unfold_repository; unfold_py.
    done.
  - intros sid. simpl. unfold_handlers; unfold_repository; unfold_py. done.
  - intros d v n c sid Hid Hname Hclass Hint. simpl.
    unfold Api.create_student. rewrite (falsy_object d "id" v) by done.
    simpl default. rewrite first_missing_none by (repeat constructor; eauto).
    rewrite !(item_lookup d _ _ Hid), Hint.
    unfold_repository; unfold Api.except_Exception; unfold_py. done.
  - simpl. unfold_handlers; unfold_repository;
      unfold Api.except_Exception; unfold_py. done.
  - intros sid. simpl. unfold_handlers; unfold_repository;
      unfold Api.except_Exception; unfold_py. done.
  - intros sid s d data Hparse. simpl. unfold_handlers.
    rewrite Hparse. unfold_repository; unfold_py. done.
Qed.

Lemma unreachable_store_answers_witness :
  let w := mkWorld (mkDb {[ 1 := ("Ann", "5A") ]} ∅) None false [] in
  fst (handle (E := strict_engine) (DELETE_student 1) w)
    = inr (404, JMessage StudentNotFound) /\
  fst (handle (E := strict_engine) (GET_attendance_student 1) w)
    = inr (500, JError (StrOf AttributeError)).
Proof.
  intros w.
  destruct (unreachable_store_answers (E := strict_engine) w)
    as (_ & _ & Hdelete & _ & _ & Hlist & _).
  - reflexivity.
  - split; [apply Hdelete | apply Hlist].
Defined.

(** ** When the server refuses a statement *)

(** X14.  POST /students whose INSERT the server refuses (a value a column
    does not take, such as a null name): [add_student] rolls back, closes
    the connection and raises "Database error: ..", the reply is 400 with
    that text, and the tables are as they were. *)
Theorem create_student_refused {E : Engine} (w : World)
    (d : gmap string pyval) (v n c : pyval) (sid : Z) (err : SqlError) :
  reachable w = true ->
  d !! "id" = Some v -> d !! "name" = Some n -> d !! "class" = Some c ->
  py_int v = inr sid ->
  students (tables w) !! sid = None ->
  sem_insert_student sid n c (tables w) = inl err ->
  Api.create_student (Some d) w =
    (inr (400, JError (StrOf (PyException (DatabaseError err)))),
     mkWorld (tables w) None true
             (log w ++ [Connect true; Execute (SelectStudentId sid);
                        Execute (InsertStudent sid n c); Rollback; Close])).
Proof.
  intros Hr Hid Hname Hclass Hint Hfresh Hrefused.
  unfold Api.create_student. rewrite (falsy_object d "id" v) by done.
  simpl default. rewrite first_missing_none by (repeat constructor; eauto).
  rewrite !(item_lookup d _ _ Hid), !(item_lookup d _ _ Hname),
    !(item_lookup d _ _ Hclass), Hint.
  destruct w as [tb tx up lg]; simpl in *; subst.
  unfold AttendanceSystem.add_student, Api.except_Exception; unfold_py; simpl.
  unfold sem_select_student. rewrite Hfresh; simpl.
  rewrite Hrefused; simpl. by tidy_log.
Qed.

Lemma create_student_refused_witness :
  let w := world_of empty_db in
  fst (Api.create_student (E := strict_engine)
         (body_of [("id", PInt 1); ("name", PNone); ("class", PStr "5A")]) w)
    = inr (400, JError (StrOf (PyException (DatabaseError BadValue)))).
Proof.
  intros w. unfold body_of.
  rewrite (create_student_refused (E := strict_engine) w
             (list_to_map [("id", PInt 1); ("name", PNone);
                           ("class", PStr "5A")])
             (PInt 1) PNone (PStr "5A") 1 BadValue); reflexivity.
Defined.

(** X15.  [mark_attendance] whose INSERT the server refuses (the student
    exists and the day is free, but the ENUM column does not take the
    status): it rolls back, closes the connection and raises "Database
    error: ..", and the tables are as they were.  The repository itself
    does not look at the status. *)
Theorem mark_attendance_refused {E : Engine} (w : World) (sid : Z) (d : date)
    (status : pyval) (row : string * string) (err : SqlError) :
  reachable w = true ->
  students (tables w) !! sid = Some row ->
  attendance (tables w) !! (sid, d) = None ->
  sem_insert_attendance sid d status (tables w) = inl err ->
  AttendanceSystem.mark_attendance sid d status w =
    (inl (PyException (DatabaseError err)),
     mkWorld (tables w) None true
             (log w ++ [Connect true; Execute (SelectStudentId sid);
                        Execute (SelectAttendanceId sid d);
                        Execute (InsertAttendance sid d status);
                        Rollback; Close])).
Proof.
  intros Hr Hrow Hfree Hrefused.
  destruct w as [tb tx up lg]; simpl in *; subst.
  unfold AttendanceSystem.mark_attendance; unfold_py; simpl.
  unfold sem_select_student. rewrite Hrow; simpl.
  unfold sem_select_attendance. rewrite Hfree; simpl.
  rewrite Hrefused; simpl. by tidy_log.
Qed.

Lemma mark_attendance_refused_witness :
  let w := world_of (mkDb {[ 1 := ("Ann", "5A") ]} ∅) in
  let r := AttendanceSystem.mark_attendance (E := strict_engine) 1
             (Date 2024 1 10) (PStr "Late") w in
  fst r = inl (PyException (DatabaseError BadValue)) /\
  tables (snd r) = tables w.
Proof.
  intros w r. unfold r.
  rewrite (mark_attendance_refused (E := strict_engine) w 1 (Date 2024 1 10)
             (PStr "Late") ("Ann", "5A") BadValue); [done|reflexivity..].
Defined.

(** X16.  [update_student] and [update_attendance] have no [finally]: when
    the server refuses their UPDATE the exception of the driver escapes as
    it is, and the connection is neither rolled back nor closed (the log
    ends with the refused statement); the tables are as they were. *)
Theorem update_refused_leaves_connection_open {E : Engine} (w : World) :
  reachable w = true ->
  (forall sid new_data err,
     sem_update_student (name new_data) (student_class new_data) sid (tables w)
       = inl err ->
     AttendanceSystem.update_student sid new_data w =
       (inl (MySQLError err),
        mkWorld (tables w) (Some (tables w)) true
                (log w ++ [Connect true;
                           Execute (UpdateStudent (name new_data)
                                      (student_class new_data) sid)]))) /\
  (forall sid d status err,
     sem_update_attendance status sid d (tables w) = inl err ->
     AttendanceSystem.update_attendance sid d status w =
       (inl (MySQLError err),
        mkWorld (tables w) (Some (tables w)) true
                (log w ++ [Connect true;
                           Execute (UpdateAttendance status sid d)]))).
Proof.
  intros Hr. split.
  - intros sid new_data err Hrefused.
    rewrite update_student_run by done. cbv zeta. by rewrite Hrefused.
  - intros sid d status err Hrefused.
    rewrite update_attendance_run by done. cbv zeta. by rewrite Hrefused.
Qed.

Lemma update_refused_leaves_connection_open_witness :
  let w := world_of (mkDb {[ 1 := ("Ann", "5A") ]} ∅) in
  let r := AttendanceSystem.update_student (E := strict_engine) 1
             (mkStudent (PStr "Bob") PNone) w in
  fst r = inl (MySQLError BadValue) /\ txn (snd r) = Some (tables w).
Proof.
  intros w r. unfold r.
  destruct (update_refused_leaves_connection_open (E := strict_engine) w)
    as [Hstudent _]; [reflexivity|].
  rewrite (Hstudent 1 (mkStudent (PStr "Bob") PNone) BadValue); [done|].
  reflexivity.
Defined.

(** X17.  [add_student], [mark_attendance], [get_student] and
    [list_students] close the connection they opened on every path, thanks
    to their [finally]: on a reachable store, whatever they are given and
    whether they return or raise, no connection is open afterwards and the
    last thing sent is the close. *)
Theorem finally_closes_connection {E : Engine} (w : World) :
  reachable w = true ->
  let closed (w' : World) := txn w' = None /\ last (log w') = Some Close in
  (forall student student_id,
     closed (snd (AttendanceSystem.add_student student student_id w))) /\
  (forall sid d status,
     closed (snd (AttendanceSystem.mark_attendance sid d status w))) /\
  (forall sid, closed (snd (AttendanceSystem.get_student sid w))) /\
  closed (snd (AttendanceSystem.list_students w)).
Proof.
  intros Hr. destruct w as [tb tx up lg]; simpl in Hr; subst. cbv zeta.
  split; [|split; [|split]].
  - intros student student_id. unfold_repository; unfold_py; simpl.
    destruct student_id as [sid|]; simpl; [|split; [done|apply last_snoc]].
    unfold sem_select_student.
    destruct (students tb !! sid); simpl; [split; [done|apply last_snoc]|].
    destruct (sem_insert_student _ _ _ _); simpl;
      (split; [done|apply last_snoc]).
  - intros sid d status. unfold_repository; unfold_py; simpl.
    unfold sem_select_student.
    destruct (students tb !! sid); simpl; [|split; [done|apply last_snoc]].
    unfold sem_select_attendance.
    destruct (attendance tb !! (sid, d)); simpl;
      [split; [done|apply last_snoc]|].
    destruct (sem_insert_attendance _ _ _ _); simpl;
      (split; [done|apply last_snoc]).
  - intros sid. unfold_repository; unfold_py; simpl.
    split; [done|apply last_snoc].
  - unfold_repository; unfold_py; simpl. split; [done|apply last_snoc].
Qed.


Lemma finally_closes_connection_witness :
  let w := world_of (mkDb {[ 1 := ("Ann", "5A") ]} ∅) in
  let w' := snd (AttendanceSystem.add_student (E := strict_engine)
                   (mkStudent (PStr "Bob") PNone) (Some 2) w) in
  txn w' = None /\ last (log w') = Some Close.
Proof.
  intros w w'.
  destruct (finally_closes_connection (E := strict_engine) w) as [Hadd _].
  - reflexivity.
  - apply Hadd.
Defined.

(** ** The listings *)

Lemma length_omap_total {A B} (f : A -> option B) (l : list A) :
  (forall x, x ∈ l -> is_Some (f x)) -> length (omap f l) = length l.
Proof.
  induction l as [|x l IH]; intros Hall; [done|]. simpl.
  destruct (Hall x) as [y Hy]; [left|]. rewrite Hy. simpl. f_equal.
  apply IH. intros x' Hx'. apply Hall. by right.
Qed.

(** X18.  GET /students on a reachable store answers 200 with exactly the
    rows of the students table: a triple is listed if and only if the table
    holds it, no id is listed twice, and there are as many rows as
    students. *)
Theorem list_students_lists_the_table {E : Engine} (w : World) :
  reachable w = true ->
  exists rows : list StudentRow,
    fst (Api.list_students w) = inr (200, JStudents rows) /\
    (forall sid n c,
       (sid, n, c) ∈ rows <-> students (tables w) !! sid = Some (n, c)) /\
    NoDup (rows.*1.*1) /\
    length rows = size (students (tables w)).
Proof.
  intros Hr. exists (sem_select_students (tables w)). split; [|split; [|split]].
  - unfold Api.list_students, Api.except_Exception; unfold_py.
    by rewrite list_students_up by done.
  - intros sid n c. unfold sem_select_students. rewrite list_elem_of_fmap.
    split.
    + intros [[k [n' c']] [[= -> -> ->] Hin]]. by apply elem_of_map_to_list.
    + intros Hrow. exists (sid, (n, c)). split; [done|].
      by apply elem_of_map_to_list.
  - unfold sem_select_students. rewrite <- !list_fmap_compose.
    apply (NoDup_fst_map_to_list (students (tables w))).
  - unfold sem_select_students. by rewrite length_fmap, length_map_to_list.
Qed.

Lemma list_students_lists_the_table_witness :
  exists rows : list StudentRow,
    fst (Api.list_students (E := strict_engine)
           (world_of (mkDb {[ 1 := ("Ann", "5A") ]} ∅)))
      = inr (200, JStudents rows) /\
    length rows = 1%nat.
Proof.
  destruct (list_students_lists_the_table (E := strict_engine)
              (world_of (mkDb {[ 1 := ("Ann", "5A") ]} ∅)) eq_refl)
    as (rows & Hreply & _ & _ & Hlen).
  exists rows. split; [exact Hreply | exact Hlen].
Defined.

(** X19.  GET /attendance/student/<student_id> on a reachable store answers
    200 with exactly the days recorded for that student: a (date, status)
    pair is listed if and only if the attendance table holds it for the
    student.  The handler does not ask whether the student exists: for an
    id without rows, a student that does not exist included, the answer is
    200 with an empty array, not 404. *)
Theorem list_attendance_for_student_lists_days {E : Engine} (w : World)
    (sid : Z) :
  reachable w = true ->
  exists days : list (date * string),
    fst (Api.list_attendance_for_student sid w) = inr (200, JDayList days) /\
    (forall d st, (d, st) ∈ days <-> attendance (tables w) !! (sid, d) = Some st) /\
    ((forall d, attendance (tables w) !! (sid, d) = None) -> days = []).
Proof.
  intros Hr.
  exists ((fun r : AttendanceRow => (r.1.2, r.2)) <$> attendance_of sid (tables w)).
  split; [|split].
  - unfold Api.list_attendance_for_student, Api.except_Exception; unfold_py.
    by rewrite list_attendance_by_student_up by done.
  - intros d st. rewrite list_elem_of_fmap. split.
    + intros [[[s d'] st'] [[= -> ->] Hin]].
      apply elem_of_attendance_of in Hin as [Hs Hrow]. simpl in *. by subst.
    + intros Hrow. exists (sid, d, st). split; [done|].
      by apply elem_of_attendance_of.
  - intros Hnone. apply attendance_of_nil in Hnone. by rewrite Hnone.
Qed.

Lemma list_attendance_for_student_lists_days_witness :
  exists days : list (date * string),
    fst (Api.list_attendance_for_student (E := strict_engine) 9
           (world_of (mkDb {[ 1 := ("Ann", "5A") ]} ∅)))
      = inr (200, JDayList days) /\ days = [].
Proof.
  destruct (list_attendance_for_student_lists_days (E := strict_engine)
              (world_of (mkDb {[ 1 := ("Ann", "5A") ]} ∅)) 9 eq_refl)
    as (days & Hreply & _ & Hempty).
  exists days. split; [exact Hreply|]. apply Hempty. intros d. reflexivity.
Defined.

(** X20.  GET /attendance on a reachable store answers 200 with the join of
    the two tables: a row (student_id, name, class, date, status) is listed
    if and only if the attendance table holds the status for (student_id,
    date) and the students table holds name and class for student_id; and on
    well-formed tables the join loses nothing: there are as many rows as
    attendance records. *)
Theorem list_all_attendance_joins {E : Engine} (w : World) :
  reachable w = true ->
  exists rows : list JoinedRow,
    fst (Api.list_all_attendance w) = inr (200, JJoined rows) /\
    (forall sid n c d st,
       (sid, n, c, d, st) ∈ rows <->
       attendance (tables w) !! (sid, d) = Some st /\
       students (tables w) !! sid = Some (n, c)) /\
    (wf_db (tables w) -> length rows = size (attendance (tables w))).
Proof.
  intros Hr. exists (sem_select_joined (tables w)). split; [|split].
  - destruct w as [tb tx up lg]; simpl in *; subst.
    unfold Api.list_all_attendance, AttendanceSystem.list_all_attendance,
      Api.except_Exception; unfold_py; simpl. done.
  - intros sid n c d st. unfold sem_select_joined. rewrite list_elem_of_omap.
    split.
    + intros [[[s d'] st'] [Hin Hf]]. apply elem_of_map_to_list in Hin.
      simpl in Hf. destruct (students (tables w) !! s) as [[n' c']|] eqn:Hrow;
        [|done]. simpl in Hf. by simplify_eq.
    + intros [Hst Hrow]. exists ((sid, d), st). split.
      * by apply elem_of_map_to_list.
      * simpl. by rewrite Hrow.
  - intros [_ Hfk]. unfold sem_select_joined.
    rewrite length_omap_total; [apply length_map_to_list|].
    intros [[s d] st] Hin. apply elem_of_map_to_list in Hin. simpl.
    destruct (Hfk s d st Hin) as [row ->]. by eexists.
Qed.

Lemma list_all_attendance_joins_witness :
  let d := Date 2024 1 10 in
  let w := world_of (mkDb {[ 1 := ("Ann", "5A") ]} {[ (1, d) := "Present" ]}) in
  exists rows : list JoinedRow,
    fst (Api.list_all_attendance (E := strict_engine) w)
      = inr (200, JJoined rows) /\
    (1, "Ann", "5A", d, "Present") ∈ rows.
Proof.
  intros d w.
  destruct (list_all_attendance_joins (E := strict_engine) w eq_refl)
    as (rows & Hreply & Hrows & _).
  exists rows. split; [exact Hreply|]. apply Hrows. split; reflexivity.
Defined.

(** ** Dates as the replies print them *)

Example date_str_padded : date_str (Date 2024 1 5) = "2024-01-05".
Proof. reflexivity. Qed.

Lemma digit_val_digit_char (k : Z) :
  0 <= k <= 9 -> digit_val (digit_char k) = Some k.
Proof.
  intros Hk.
  assert (Hcases : k = 0 \/ k = 1 \/ k = 2 \/ k = 3 \/ k = 4 \/ k = 5 \/
                   k = 6 \/ k = 7 \/ k = 8 \/ k = 9) by lia.
  repeat (destruct Hcases as [->|Hcases]; [reflexivity|]). by subst.
Qed.

Lemma m_digit_digit_char (lo hi k : Z) (rest : list ascii) :
  0 <= k <= 9 -> lo <= k <= hi ->
  m_digit lo hi (digit_char k :: rest) = [(k, rest)].
Proof.
  intros Hk Hrange. unfold m_digit. rewrite digit_val_digit_char by done.
  destruct (lo <=? k) eqn:Hlo; [|lia]. destruct (k <=? hi) eqn:Hhi; [|lia].
  done.
Qed.

Lemma m_bind_single {A B} (p : matcher A) (k : A -> matcher B)
    (l rest : list ascii) (a : A) :
  p l = [(a, rest)] -> m_bind p k l = k a rest.
Proof. intros Hp. unfold m_bind. rewrite Hp. simpl. apply app_nil_r. Qed.

(** The four digits of the year are read back as the year. *)
Lemma re_Y_year (y : Z) (rest : list ascii) :
  0 <= y <= 9999 ->
  re_Y (digit_char (y / 1000) :: digit_char (y / 100 mod 10) ::
        two_digits (y mod 100) ++ rest) = [(y, rest)].
Proof.
  intros Hy. unfold re_Y, two_digits. cbn [app].
  assert (0 <= y / 1000 <= 9) by (Z.div_mod_to_equations; lia).
  assert (0 <= y / 100 mod 10 <= 9) by (Z.div_mod_to_equations; lia).
  assert (0 <= y mod 100 / 10 <= 9) by (Z.div_mod_to_equations; lia).
  assert (0 <= y mod 100 mod 10 <= 9) by (Z.div_mod_to_equations; lia).
  erewrite m_bind_single; [|by apply m_digit_digit_char].
  erewrite m_bind_single; [|by apply m_digit_digit_char].
  erewrite m_bind_single; [|by apply m_digit_digit_char].
  erewrite m_bind_single; [|by apply m_digit_digit_char].
  unfold m_ret. do 2 f_equal. Z.div_mod_to_equations. lia.
Qed.

(** Month and day, each on two digits, are read back as they are; [y] is
    the year already read. *)
Lemma re_month_day (y m dd : Z) :
  1 <= m <= 12 -> 1 <= dd <= 31 ->
  exists more,
    m_bind (m_char "-") (fun _ =>
    m_bind re_m (fun m' =>
    m_bind (m_char "-") (fun _ =>
    m_bind re_d (fun d' => m_ret (Date y m' d')))))
      ("-"%char :: two_digits m ++ "-"%char :: two_digits dd)
    = (Date y m dd, []) :: more.
Proof.
  intros Hm Hd.
  assert (Hmonth : m = 1 \/ m = 2 \/ m = 3 \/ m = 4 \/ m = 5 \/ m = 6 \/
                   m = 7 \/ m = 8 \/ m = 9 \/ m = 10 \/ m = 11 \/ m = 12)
    by lia.
  assert (Hday : dd = 1 \/ dd = 2 \/ dd = 3 \/ dd = 4 \/ dd = 5 \/ dd = 6 \/
                 dd = 7 \/ dd = 8 \/ dd = 9 \/ dd = 10 \/ dd = 11 \/
                 dd = 12 \/ dd = 13 \/ dd = 14 \/ dd = 15 \/ dd = 16 \/
                 dd = 17 \/ dd = 18 \/ dd = 19 \/ dd = 20 \/ dd = 21 \/
                 dd = 22 \/ dd = 23 \/ dd = 24 \/ dd = 25 \/ dd = 26 \/
                 dd = 27 \/ dd = 28 \/ dd = 29 \/ dd = 30 \/ dd = 31)
    by lia.
  clear Hm Hd.
  repeat (destruct Hmonth as [->|Hmonth]);
    repeat (destruct Hday as [->|Hday]);
    subst; vm_compute; eexists; reflexivity.
Qed.

Lemma days_in_month_le_31 (y m : Z) : days_in_month y m <= 31.
Proof. unfold days_in_month. repeat case_match; lia. Qed.

(** X21.  The text a reply prints for a date is read back as that date:
    for every day of the calendar, [strptime] of [str(d)] is [d]; so a
    record can be fetched with the date text of the reply that showed it. *)
Theorem date_str_round_trip {E : Engine} (d : date) :
  date_ok d = true ->
  strptime_ymd (date_str d) = inr d /\
  forall (w : World) (sid : Z) (st : string),
    reachable w = true ->
    attendance (tables w) !! (sid, d) = Some st ->
    fst (Api.get_attendance sid (date_str d) w) = inr (200, JAttendance sid d st).
Proof.
  intros Hok.
  assert (Hparse : strptime_ymd (date_str d) = inr d).
  { pose proof Hok as Hok'. unfold date_ok in Hok'.
    destruct d as [y m dd]; simpl in Hok'.
    pose proof (days_in_month_le_31 y m).
    repeat (apply andb_prop in Hok' as [Hok' ?]).
    unfold strptime_ymd, date_str.
    rewrite String.list_ascii_of_string_of_list_ascii.
    cbn [year month day].
    change re_Ymd with
      (m_bind re_Y (fun y' =>
         m_bind (m_char "-") (fun _ =>
         m_bind re_m (fun m' =>
         m_bind (m_char "-") (fun _ =>
         m_bind re_d (fun d' => m_ret (Date y' m' d'))))))).
    erewrite m_bind_single; [|apply re_Y_year; lia].
    destruct (re_month_day y m dd) as [more ->]; [lia..|].
    by rewrite Hok. }
  split; [done|]. intros w sid st Hr Hrow.
  rewrite (get_attendance_api_up _ sid _ d) by done.
  unfold attendance_at. by rewrite Hrow.
Qed.

Lemma date_str_round_trip_witness :
  strptime_ymd (date_str (Date 2024 2 29)) = inr (Date 2024 2 29).
Proof.
  apply (date_str_round_trip (E := strict_engine) (Date 2024 2 29)).
  reflexivity.
Defined.

(** ** The schema invariant over a run of requests *)



(** ** Start-up *)

Import Startup.

Lemma init_rounds_needs_the_database (max_retries remaining : nat) (b : Boot) :
  has_database (server b) = false ->
  let r := init_rounds max_retries remaining b in
  fst r <> ReturnsSystem /\ server (snd r) = server b /\ sent (snd r) = sent b.
Proof.
  revert b. induction remaining as [|rest IH]; intros b Hnone; simpl; [done|].
  unfold connect; simpl. rewrite Hnone.
  destruct (answers b (attempts b)); simpl.
  - rewrite andb_false_r.
    match goal with
    | |- context [init_rounds _ _ ?b'] => exact (IH b' Hnone)
    end.
  - destruct (max_retries - S rest <? max_retries - 1)%nat; [|done].
    match goal with
    | |- context [init_rounds _ _ ?b'] => exact (IH b' Hnone)
    end.
Qed.

(** X23.  [init_system] cannot set up a server on which the database does
    not exist yet: [create_database] is only called after [connect_db],
    which connects to that very database, has succeeded.  Whatever the
    number of retries and whenever the server answers, it then does not
    return a system, sends no statement and leaves the server as it was. *)
Theorem init_system_needs_the_database (max_retries : nat) (b : Boot) :
  has_database (server b) = false ->
  let r := init_system max_retries b in
  fst r <> ReturnsSystem /\ server (snd r) = server b /\ sent (snd r) = sent b.
Proof. apply init_rounds_needs_the_database. Qed.

Lemma init_system_needs_the_database_witness :
  let r := init_system 5 (boot_of fresh_server (fun _ => true)) in
  fst r = ReturnsNone /\ server (snd r) = fresh_server.
Proof.
  destruct (init_system_needs_the_database 5
              (boot_of fresh_server (fun _ => true)) eq_refl)
    as (_ & Hserver & _).
  split; [reflexivity | exact Hserver].
Defined.

Lemma init_rounds_server_down (max_retries remaining : nat) (b : Boot) :
  (forall n, answers b n = false) ->
  (1 <= remaining <= max_retries)%nat ->
  init_rounds max_retries remaining b =
    (Raises, mkBoot (server b) (answers b) (attempts b + remaining)
                    (slept b + 2 * (remaining - 1)) (sent b)).
Proof.
  intros Hdown. revert b Hdown.
  induction remaining as [|rest IH]; intros b Hdown Hrange; [lia|].
  simpl. unfold connect; simpl. rewrite Hdown; simpl.
  destruct rest as [|rest].
  - destruct (Nat.ltb_spec (max_retries - 1) (max_retries - 1)); [lia|].
    do 2 f_equal; lia.
  - destruct (Nat.ltb_spec (max_retries - S (S rest)) (max_retries - 1));
      [|lia].
    rewrite IH by (simpl; auto; lia). simpl. do 2 f_equal; lia.
Qed.

(** X24.  With the server down at every attempt, [init_system] gives up
    after exactly [max_retries] attempts to connect, having slept two
    seconds after each of them but the last, and lets the error of the last
    attempt out; nothing is sent to the server. *)
Theorem init_system_server_down (max_retries : nat) (b : Boot) :
  (forall n, answers b n = false) ->
  (1 <= max_retries)%nat ->
  init_system max_retries b =
    (Raises, mkBoot (server b) (answers b) (attempts b + max_retries)
                    (slept b + 2 * (max_retries - 1)) (sent b)).
Proof.
  intros Hdown Hmax. unfold init_system.
  by apply init_rounds_server_down; [|lia].
Qed.

Lemma init_system_server_down_witness :
  init_system 5 (boot_of (server_of empty_db) (fun _ => false))
    = (Raises, mkBoot (server_of empty_db) (fun _ => false) 5 8 []).
Proof.
  apply (init_system_server_down 5
           (boot_of (server_of empty_db) (fun _ => false))).
  - reflexivity.
  - lia.
Defined.

(** X25.  With the server answering and the database in place,
    [init_system] returns the system in its first round, without sleeping,
    after four connections (the test, [connect_db], [create_database],
    [create_tables]); afterwards both tables exist, and a table that existed
    before has the rows it had. *)
Theorem init_system_healthy (max_retries : nat) (b : Boot) :
  (forall n, answers b n = true) ->
  has_database (server b) = true ->
  (1 <= max_retries)%nat ->
  let r := init_system max_retries b in
  fst r = ReturnsSystem /\
  has_database (server (snd r)) = true /\
  students_table (server (snd r))
    = Some (default ∅ (students_table (server b))) /\
  attendance_table (server (snd r))
    = Some (default ∅ (attendance_table (server b))) /\
  attempts (snd r) = (attempts b + 4)%nat /\
  slept (snd r) = slept b.
Proof.
  intros Hup Hdb Hmax. unfold init_system.
  destruct max_retries as [|rest]; [lia|]. cbv zeta.
  destruct b as [[db st at_] ans n sl se]; simpl in *; subst.
  unfold connect, create_tables, create_database, connect; simpl.
  rewrite !Hup; simpl.
  destruct at_ as [rows|]; simpl; repeat split; lia.
Qed.

Lemma init_system_healthy_witness :
  let db := mkDb {[ 1 := ("Ann", "5A") ]} ∅ in
  let r := init_system 5 (boot_of (server_of db) (fun _ => true)) in
  fst r = ReturnsSystem /\ server (snd r) = server_of db.
Proof.
  intros db r.
  destruct (init_system_healthy 5 (boot_of (server_of db) (fun _ => true)))
    as (Hstarted & _).
  - reflexivity.
  - reflexivity.
  - lia.
  - split; [exact Hstarted | reflexivity].
Defined.

Lemma create_database_bounds (b : Boot) :
  slept (create_database b) = slept b /\
  attempts (create_database b) = S (attempts b).
Proof.
  unfold create_database, connect; simpl. by destruct (answers _ _ && _).
Qed.

Lemma create_tables_bounds (b : Boot) :
  slept (create_tables b) = slept b /\
  attempts (create_tables b) = S (attempts b).
Proof.
  unfold create_tables, connect; simpl.
  destruct (answers _ _ && _); simpl; [|done].
  repeat case_match; done.
Qed.

Lemma init_rounds_bounds (max_retries remaining : nat) (b : Boot) :
  (remaining <= max_retries)%nat ->
  let r := init_rounds max_retries remaining b in
  (slept (snd r) <= slept b + 2 * (remaining - 1))%nat /\
  (attempts (snd r) <= attempts b + 2 * remaining + 2)%nat.
Proof.
  revert b. induction remaining as [|rest IH]; intros b Hrange; cbv zeta;
    cbn [init_rounds]; [cbn [snd]; lia|].
  unfold connect; cbn [server answers attempts slept sent negb orb].
  destruct (answers b (attempts b)); cbn [andb].
  - destruct (answers b (S (attempts b)) && has_database (server b)).
    + match goal with
      | |- context [create_tables (create_database ?x)] =>
          destruct (create_database_bounds x) as [Hs1 Ha1];
          destruct (create_tables_bounds (create_database x)) as [Hs2 Ha2]
      end.
      cbn [snd]. rewrite Hs2, Hs1, Ha2, Ha1. cbn [slept attempts]. lia.
    + match goal with
      | |- context [init_rounds _ _ ?b'] =>
          pose proof (IH b' ltac:(lia)) as Hrest
      end.
      cbv zeta in Hrest. cbn [slept attempts] in Hrest.
      destruct Hrest as [Hs Ha]. split; lia.
  - destruct (Nat.ltb_spec (max_retries - S rest) (max_retries - 1)).
    + match goal with
      | |- context [init_rounds _ _ ?b'] =>
          pose proof (IH b' ltac:(lia)) as Hrest
      end.
      cbv zeta in Hrest. unfold sleep in *.
      cbn [slept attempts server answers sent] in *.
      destruct Hrest as [Hs Ha]. split; lia.
    + cbn [snd slept attempts]. lia.
Qed.

(** X26.  [init_system] is bounded whatever the server does: it sleeps at
    most two seconds per retry, [2 * (max_retries - 1)] seconds in all, and
    connects at most [2 * max_retries + 2] times. *)
Theorem init_system_bounded (max_retries : nat) (b : Boot) :
  let r := init_system max_retries b in
  (slept (snd r) <= slept b + 2 * (max_retries - 1))%nat /\
  (attempts (snd r) <= attempts b + 2 * max_retries + 2)%nat.
Proof. apply init_rounds_bounds. lia. Qed.

(** X27.  [create_tables] is safe to call again: on a server that has both
    tables it changes neither of them, whatever they hold and whether or
    not the connection succeeds. *)
Theorem create_tables_keeps_existing (b : Boot)
    (st : gmap Z (string * string)) (at_ : gmap (Z * date) string) :
  students_table (server b) = Some st ->
  attendance_table (server b) = Some at_ ->
  server (create_tables b) = server b.
Proof.
  intros Hst Hat. destruct b as [[db st' at'] ans n sl se]; simpl in *; subst.
  unfold create_tables, connect; simpl.
  by destruct (ans n && _).
Qed.

Lemma create_tables_keeps_existing_witness :
  let db := mkDb {[ 1 := ("Ann", "5A") ]} ∅ in
  server (create_tables (boot_of (server_of db) (fun _ => true)))
    = server_of db.
Proof.
  intros db.
  apply (create_tables_keeps_existing
           (boot_of (server_of db) (fun _ => true)) (students db) (attendance db));
    reflexivity.
Defined.

(** X28.  [modify_students_table] destroys what the tables hold: when its
    connection succeeds, both tables are dropped and created again, so they
    exist and are empty afterwards whatever they held; when the connection
    fails the server is as it was. *)
Theorem modify_students_table_empties (b : Boot) :
  let b' := modify_students_table b in
  if answers b (attempts b) && has_database (server b)
  then students_table (server b') = Some ∅ /\
       attendance_table (server b') = Some ∅ /\
       sent b' = sent b ++ [DropAttendanceIfExists; DropStudentsIfExists;
                            CreateStudents; CreateAttendance]
  else server b' = server b.
Proof.
  destruct b as [[db st at_] ans n sl se]; simpl.
  unfold modify_students_table, connect; simpl.
  destruct (ans n && db) eqn:Hconn; simpl; [|done].
  destruct st as [rows|]; simpl; rewrite <- !app_assoc; done.
Qed.

(** ** Rows that are not there *)

(** X29.  The repository does not tell whether the row it was asked to
    change exists: on a reachable store [update_student],
    [update_attendance], [delete_attendance] and [delete_student] for a key
    without a row return normally, whatever the values given, commit, and
    leave the tables as they were.  Only the handlers' look-up beforehand
    turns a missing row into 404. *)
Theorem repository_silent_on_missing_rows {E : Engine} (w : World) :
  reachable w = true ->
  (forall sid new_data,
     students (tables w) !! sid = None ->
     let r := AttendanceSystem.update_student sid new_data w in
     fst r = inr tt /\ tables (snd r) = tables w /\
     last (log (snd r)) = Some Close) /\
  (forall sid d status,
     attendance (tables w) !! (sid, d) = None ->
     let r := AttendanceSystem.update_attendance sid d status w in
     fst r = inr tt /\ tables (snd r) = tables w) /\
  (forall sid d,
     attendance (tables w) !! (sid, d) = None ->
     let r := AttendanceSystem.delete_attendance sid d w in
     fst r = inr tt /\ tables (snd r) = tables w) /\
  (forall sid,
     students (tables w) !! sid = None ->
     (forall d, attendance (tables w) !! (sid, d) = None) ->
     let r := AttendanceSystem.delete_student sid w in
     fst r = inr tt /\ tables (snd r) = tables w).
Proof.
  intros Hr. split; [|split; [|split]].
  - intros sid new_data Hnone. cbv zeta.
    rewrite update_student_run by done. cbv zeta.
    unfold sem_update_student. rewrite Hnone. cbn [fst snd tables log].
    split; [done|]. split; [done|].
    by rewrite last_app.
  - intros sid d status Hnone. cbv zeta.
    rewrite update_attendance_run by done. cbv zeta.
    unfold sem_update_attendance. by rewrite Hnone.
  - intros sid d Hnone. cbv zeta.
    rewrite delete_attendance_run by done. cbn [fst snd tables].
    split; [done|]. unfold sem_delete_attendance.
    rewrite delete_id by done. by destruct (tables w).
  - intros sid Hnone Hrows. cbv zeta.
    rewrite delete_student_run by done. cbn [fst snd tables].
    split; [done|]. rewrite delete_id by done.
    rewrite delete_attendance_of_none by done. by destruct (tables w).
Qed.

Lemma repository_silent_on_missing_rows_witness :
  let w := world_of (mkDb {[ 1 := ("Ann", "5A") ]} ∅) in
  let r := AttendanceSystem.update_student (E := strict_engine) 9
             (mkStudent (PStr "Bob") PNone) w in
  fst r = inr tt /\ tables (snd r) = tables w.
Proof.
  intros w r.
  destruct (repository_silent_on_missing_rows (E := strict_engine) w)
    as [Hupdate _]; [reflexivity|].
  destruct (Hupdate 9 (mkStudent (PStr "Bob") PNone)) as (Hret & Htables & _).
  - reflexivity.
  - split; [exact Hret | exact Htables].
Defined.

(** X30.  Deleting a student twice: after DELETE /students/<id> has
    answered 200, the same request answers 404 "Student not found" and
    changes nothing. *)
Theorem delete_student_twice {E : Engine} (w : World) (sid : Z)
    (row : string * string) :
  reachable w = true ->
  students (tables w) !! sid = Some row ->
  let first := Api.delete_student sid w in
  let second := Api.delete_student sid (snd first) in
  fst first = inr (200, JMessage (StudentDeleted sid)) /\
  fst second = inr (404, JMessage StudentNotFound) /\
  tables (snd second) = tables (snd first).
Proof.
  intros Hr Hrow. cbv zeta.
  rewrite (delete_student_api_up w sid row) by done. cbn [fst snd].
  split; [done|].
  unfold Api.delete_student, Api.except_Exception; unfold_py.
  rewrite get_student_up by done. unfold student_at.
  cbn [tables students]. by rewrite lookup_delete_eq.
Qed.

Lemma delete_student_twice_witness :
  let w := world_of (mkDb {[ 1 := ("Ann", "5A") ]} ∅) in
  let first := Api.delete_student (E := strict_engine) 1 w in
  fst (Api.delete_student (E := strict_engine) 1 (snd first))
    = inr (404, JMessage StudentNotFound).
Proof.
  intros w first.
  apply (delete_student_twice (E := strict_engine) w 1 ("Ann", "5A"));
    reflexivity.
Defined.
